(** * Analytics & Forecasting Engine: a shallow embedding of the MCP tools

    The JavaScript sources embedded here are
      - [mcp-server/src/scripts/seed.js]      (inventory simulation),
      - [mcp-server/src/tools/inventory.js]   (consumption, stock check),
      - [mcp-server/src/tools/analytics.js]   (sales analytics),
      - [mcp-server/src/tools/profit.js]      (profit breakdown),
      - [mcp-server/src/tools/forecast.js]    (forecast, fallback),
      - [mcp-server/src/tools/festivals.js]   (festival cache).

    Conventions.  A JavaScript [Number] is read as an exact rational ([Q]):
    sums, products and quotients are the exact ones, and results are compared
    with [==].  A [Date] is its epoch value in milliseconds ([Z]).  A MongoDB
    collection is the list of its documents; an aggregation pipeline is the
    composition of its stages over that list. *)

From Stdlib Require Import ZArith QArith Qround Qabs Lia Lqa.
From Stdlib Require Import List String Ascii Bool Permutation Sorted.
From stdpp Require Import gmap strings.
Import ListNotations.

#[local] Set Warnings "-clear-no-such-hyp".
Local Open Scope Q_scope.

(** ** Numbers *)

Module Num.

(** [Math.round]: the nearest integer, a tie going towards +infinity. *)
Definition Math_round (x : Q) : Z := Qfloor (x + (1 # 2)).

(** [Math.round(x * 100) / 100] *)
Definition round2 (x : Q) : Q := inject_Z (Math_round (x * 100)) / 100.

(** [Math.round(x * 10) / 10] *)
Definition round1 (x : Q) : Q := inject_Z (Math_round (x * 10)) / 10.

(** MongoDB [$round] to an integer: the nearest integer, a tie going to the
    even neighbour. *)
Definition mongo_round0 (x : Q) : Z :=
  let f := Qfloor x in
  match Qcompare (x - inject_Z f) (1 # 2) with
  | Lt => f
  | Gt => (f + 1)%Z
  | Eq => if Z.even f then f else (f + 1)%Z
  end.

(** [{ $round: [x, 2] }] *)
Definition mongo_round2 (x : Q) : Q := inject_Z (mongo_round0 (x * 100)) / 100.

(** [Math.max], [Math.min] *)
Definition Math_max (x y : Q) : Q := if Qle_bool x y then y else x.
Definition Math_min (x y : Q) : Q := if Qle_bool x y then x else y.

(** [x || d] on numbers: [0] is falsy. *)
Definition num_or (x d : Q) : Q := if Qeq_bool x 0 then d else x.

(** [a < b] and [a > b] as tests. *)
Definition Qltb (a b : Q) : bool := negb (Qle_bool b a).

(** [xs.reduce((s, x) => s + x, 0)] *)
Definition Qsum (xs : list Q) : Q := fold_left Qplus xs 0.

End Num.
Import Num.

(** ** Inventory simulation ([seed.js], [seedInventory]) *)

Inductive Status := green | yellow | red.

(** [pConfig.inventory] of [products.json] *)
Record InventoryPolicy := {
  minStockDaily : Q;
  reorderPoint : Q;
  maxStockDaily : Q;
}.

(** A sale document ([models/Sale.js]); [date] in epoch milliseconds. *)
Record Sale := {
  orderId : Z;
  date : Z;
  product : string;
  price : Q;
  quantity : Q;
  purchaseType : string;
  paymentMethod : string;
}.

(** The document pushed on [inventoryDocs]; [inv_date] is the day number of
    the ["%Y-%m-%d"] string the day was grouped under. *)
Record InventoryDoc := {
  inv_product : string;
  inv_date : Z;
  stockLevel : Q;
  consumed : Q;
  restocked : Q;
  status : Status;
}.

Definition MS_PER_DAY : Z := 86400000.

(** [$dateToString: { format: "%Y-%m-%d" }] names the UTC calendar day; the
    day is kept as its number since the epoch, whose order is the order of the
    formatted strings. *)
Definition day_of (ms : Z) : Z := (ms / MS_PER_DAY)%Z.

Module Seed.

(** One [{ date, consumed }] entry of [productDays[key]]. *)
Record DayEntry := { de_date : Z; de_consumed : Q }.

(** The [$group] stage of [salesByDay]: one group per (product, day), the
    quantities summed, groups in order of first appearance. *)
Fixpoint group_add (p : string) (d : Z) (q : Q) (gs : list (string * Z * Q))
  : list (string * Z * Q) :=
  match gs with
  | [] => [(p, d, q)]
  | (p', d', t) :: rest =>
      if (String.eqb p p' && (d =? d')%Z)%bool then (p', d', t + q) :: rest
      else (p', d', t) :: group_add p d q rest
  end.

Definition group_by_product_day (sales : list Sale) : list (string * Z * Q) :=
  fold_left (fun gs s => group_add (product s) (day_of (date s)) (quantity s) gs)
            sales [].

(** The [$sort: { "_id.date": 1 }] stage, as a stable insertion sort. *)
Fixpoint insert_by_date (g : string * Z * Q) (gs : list (string * Z * Q))
  : list (string * Z * Q) :=
  match gs with
  | [] => [g]
  | h :: rest =>
      if (snd (fst g) <? snd (fst h))%Z then g :: h :: rest
      else h :: insert_by_date g rest
  end.

Definition sort_by_date (gs : list (string * Z * Q)) : list (string * Z * Q) :=
  fold_right insert_by_date [] gs.

Definition salesByDay (sales : list Sale) : list (string * Z * Q) :=
  sort_by_date (group_by_product_day sales).

(** [productDays]: an object filled key by key, so [Object.entries] lists the
    products in order of first insertion. *)
Fixpoint productDays_push (key : string) (e : DayEntry)
  (pd : list (string * list DayEntry)) : list (string * list DayEntry) :=
  match pd with
  | [] => [(key, [e])]
  | (k, es) :: rest =>
      if String.eqb key k then (k, es ++ [e]) :: rest
      else (k, es) :: productDays_push key e rest
  end.

Definition productDays (byDay : list (string * Z * Q))
  : list (string * list DayEntry) :=
  fold_left (fun pd g =>
               productDays_push (fst (fst g))
                 {| de_date := snd (fst g); de_consumed := snd g |} pd)
            byDay [].

(** The traffic-light assignment inside the loop. *)
Definition classify (stock : Q) (pol : InventoryPolicy) : Status :=
  if Qltb stock (minStockDaily pol) then red
  else if Qltb stock (reorderPoint pol) then yellow
  else green.

(** One iteration of [for (const day of days)]: the new running stock and the
    document pushed. *)
Definition simulate_day (productName : string) (pol : InventoryPolicy)
  (stock : Q) (day : DayEntry) : Q * InventoryDoc :=
  let stock1 := stock - de_consumed day in
  let '(restocked, stock2) :=
    if Qltb stock1 (reorderPoint pol)
    then (maxStockDaily pol - stock1, maxStockDaily pol)
    else (0, stock1) in
  (stock2,
   {| inv_product := productName;
      inv_date := de_date day;
      stockLevel := round2 stock2;
      consumed := round2 (de_consumed day);
      restocked := round2 restocked;
      status := classify stock2 pol |}).

Fixpoint simulate_days (productName : string) (pol : InventoryPolicy)
  (stock : Q) (days : list DayEntry) : list InventoryDoc :=
  match days with
  | [] => []
  | day :: rest =>
      let '(stock', doc) := simulate_day productName pol stock day in
      doc :: simulate_days productName pol stock' rest
  end.

(** The outer loop: products missing from the configuration are skipped. *)
Definition seedInventory (config : gmap string InventoryPolicy)
  (sales : list Sale) : list InventoryDoc :=
  flat_map (fun '(productName, days) =>
              match config !! productName with
              | None => []
              | Some pol => simulate_days productName pol (maxStockDaily pol) days
              end)
           (productDays (salesByDay sales)).

(** The invariant of the data model on a policy. *)
Definition policy_ok (pol : InventoryPolicy) : Prop :=
  0 <= minStockDaily pol /\ minStockDaily pol < reorderPoint pol
  /\ reorderPoint pol < maxStockDaily pol.

End Seed.

(** ** Consumption estimator and stock check ([tools/inventory.js]) *)

Module Inventory.

(** [startDate.setDate(startDate.getDate() - lookbackDays)] on [new Date()]. *)
Definition startDate (now lookbackDays : Z) : Z :=
  (now - lookbackDays * MS_PER_DAY)%Z.

(** [$match: { product: productName, date: { $gte: startDate } }] *)
Definition matches (productName : string) (start : Z) (s : Sale) : bool :=
  (String.eqb (product s) productName && (start <=? date s)%Z)%bool.

(** The accumulators of [$group: { _id: null, ... }]; [$addToSet] builds the
    set of the distinct [date] values. *)
Record ConsumptionGroup := { totalQty : Q; dayCount : gset Z }.

Definition group_step (g : ConsumptionGroup) (s : Sale) : ConsumptionGroup :=
  {| totalQty := totalQty g + quantity s;
     dayCount := dayCount g ∪ {[ date s ]} |}.

(** The pipeline: no matching document gives no group at all. *)
Definition aggregate_consumption (sales : list Sale) (productName : string)
  (start : Z) : list ConsumptionGroup :=
  match List.filter (matches productName start) sales with
  | [] => []
  | docs => [fold_left group_step docs {| totalQty := 0; dayCount := ∅ |}]
  end.

Definition getAvgDailyConsumption (sales : list Sale) (now : Z)
  (productName : string) (lookbackDays : Z) : Z :=
  match aggregate_consumption sales productName (startDate now lookbackDays) with
  | [] => 0%Z
  | r :: _ =>
      if (size (dayCount r) =? 0)%nat then 0%Z
      else Math_round (totalQty r / inject_Z (Z.of_nat (size (dayCount r))))
  end.

(** The estimator as the specification words it: the total quantity sold in
    the window over the number of distinct days with a sale, [0] without any
    sale. *)
Definition window (sales : list Sale) (now : Z) (productName : string)
  (lookbackDays : Z) : list Sale :=
  List.filter (matches productName (startDate now lookbackDays)) sales.

Definition totalQuantitySold (w : list Sale) : Q := Qsum (map quantity w).

Definition distinctDaysWithSale (w : list Sale) : nat :=
  size (list_to_set (C := gset Z) (map (fun s => day_of (date s)) w)).

Definition spec_consumption (sales : list Sale) (now : Z) (productName : string)
  (lookbackDays : Z) : Q :=
  let w := window sales now productName lookbackDays in
  match w with
  | [] => 0
  | _ => totalQuantitySold w / inject_Z (Z.of_nat (distinctDaysWithSale w))
  end.

(** Dates carry no time of day. *)
Definition date_only (s : Sale) : Prop := (date s mod MS_PER_DAY = 0)%Z.

(** A product document ([models/Product.js], read with [.lean()]). *)
Record ProductDoc := {
  name : string;
  category : string;
  sellPrice : Q;
  costPrice : Q;
  inventory : option InventoryPolicy;
}.

(** [$sort: { date: -1 }], as a stable insertion sort. *)
Fixpoint insert_latest (d : InventoryDoc) (ds : list InventoryDoc)
  : list InventoryDoc :=
  match ds with
  | [] => [d]
  | h :: rest =>
      if (inv_date h <? inv_date d)%Z then d :: h :: rest
      else h :: insert_latest d rest
  end.

(** [$group: { _id: "$product", ...: { $first: ... } }]: the first document
    met for each product. *)
Fixpoint first_per_product (ds : list InventoryDoc) (seen : list string)
  : list InventoryDoc :=
  match ds with
  | [] => []
  | d :: rest =>
      if existsb (String.eqb (inv_product d)) seen
      then first_per_product rest seen
      else d :: first_per_product rest (inv_product d :: seen)
  end.

(** [getLatestInventory]: per product, the snapshot with the greatest date.
    The final sort on [_id] only orders the groups and is left out: the
    caller looks a product up with [find]. *)
Definition getLatestInventory (productFilter : option string)
  (snapshots : list InventoryDoc) : list InventoryDoc :=
  first_per_product
    (fold_right insert_latest []
       (List.filter (fun d => match productFilter with
                              | Some p => String.eqb (inv_product d) p
                              | None => true
                              end) snapshots))
    [].

(** One element of [results]. *)
Record ProductReport := {
  r_product : string;
  r_category : string;
  stock_level : Q;
  r_status : Status;
  avg_daily_consumption : Z;
  days_until_stockout : Z;
  min_stock : Q;
  reorder_point : Q;
  max_stock : Q;
  restock_recommendation : Q;
  last_updated : option Z;
}.

(** The body of [productDocs.map(async (prod) => ...)]. *)
Definition report (sales : list Sale) (latestInventory : list InventoryDoc)
  (now : Z) (prod : ProductDoc) : ProductReport :=
  let inv := List.find (fun i => String.eqb (inv_product i) (name prod))
                       latestInventory in
  let stockLevel := match inv with Some i => stockLevel i | None => 0 end in
  let lastDate := option_map inv_date inv in
  let avgDaily := getAvgDailyConsumption sales now (name prod) 30 in
  let daysUntilStockout :=
    if (0 <? avgDaily)%Z then Math_round (stockLevel / inject_Z avgDaily)
    else 999%Z in
  let thr_min := match inventory prod with
                 | Some t => num_or (minStockDaily t) 0 | None => 0 end in
  let thr_reorder := match inventory prod with
                     | Some t => num_or (reorderPoint t) 0 | None => 0 end in
  let status :=
    if Qltb stockLevel thr_min then red
    else if Qltb stockLevel thr_reorder then yellow
    else green in
  let maxStock := match inventory prod with
                  | Some t => num_or (maxStockDaily t) (stockLevel * 2)
                  | None => stockLevel * 2 end in
  {| r_product := name prod;
     r_category := category prod;
     stock_level := stockLevel;
     r_status := status;
     avg_daily_consumption := avgDaily;
     days_until_stockout := Z.min daysUntilStockout 999;
     min_stock := thr_min;
     reorder_point := thr_reorder;
     max_stock := maxStock;
     restock_recommendation := Math_max 0 (maxStock - stockLevel);
     last_updated := lastDate |}.

(** [handleCheckInventory]: the reports of the selected products, or the
    "not found" error when no product document matches. *)
Definition handleCheckInventory (products : list ProductDoc) (sales : list Sale)
  (snapshots : list InventoryDoc) (now : Z) (product_arg : option string)
  : option (list ProductReport) :=
  let productFilter :=
    match product_arg with
    | Some p => if String.eqb p "all" || String.eqb p "" then None else Some p
    | None => None
    end in
  let productDocs :=
    match productFilter with
    | Some p => List.filter (fun d => String.eqb (name d) p) products
    | None => products
    end in
  match productDocs with
  | [] => None
  | _ =>
      let latestInventory := getLatestInventory productFilter snapshots in
      Some (map (report sales latestInventory now) productDocs)
  end.

End Inventory.

(** ** Sales analytics ([tools/analytics.js]) *)

(** What a call gives back: a value, or a thrown error with its message. *)
Inductive CallResult (A : Type) :=
  | Returned (a : A)
  | Threw (msg : string).
Arguments Returned {A} a.
Arguments Threw {A} msg.

Module Analytics.

(** [buildDateFilter]: [None] is the empty filter [{}], [Some start] is
    [{ date: { $gte: start } }]. *)
Definition buildDateFilter (now days : Z) : option Z :=
  if (days <=? 0)%Z then None else Some (now - days * MS_PER_DAY)%Z.

Definition matchDate (dateFilter : option Z) (s : Sale) : bool :=
  match dateFilter with
  | None => true
  | Some start => (start <=? date s)%Z
  end.

(** The accumulators of a [$group] stage keyed by a string field. *)
Record Group := {
  g_id : string;
  g_revenue : Q;      (* $sum: { $multiply: ["$price", "$quantity"] } *)
  g_quantity : Q;     (* $sum: "$quantity" *)
  g_orders : Z;       (* $sum: 1 *)
  g_priceSum : Q;     (* numerator of $avg: "$price" *)
}.

Definition group_new (k : string) (s : Sale) : Group :=
  {| g_id := k; g_revenue := price s * quantity s; g_quantity := quantity s;
     g_orders := 1; g_priceSum := price s |}.

Definition group_acc (g : Group) (s : Sale) : Group :=
  {| g_id := g_id g; g_revenue := g_revenue g + price s * quantity s;
     g_quantity := g_quantity g + quantity s;
     g_orders := (g_orders g + 1)%Z; g_priceSum := g_priceSum g + price s |}.

Fixpoint group_add (key : Sale -> string) (s : Sale) (gs : list Group)
  : list Group :=
  match gs with
  | [] => [group_new (key s) s]
  | g :: rest =>
      if String.eqb (key s) (g_id g) then group_acc g s :: rest
      else g :: group_add key s rest
  end.

Definition group_by (key : Sale -> string) (docs : list Sale) : list Group :=
  fold_left (fun gs s => group_add key s gs) docs [].

(** [$sort] with a descending numeric key, as a stable insertion sort. *)
Fixpoint insert_desc (f : Group -> Q) (g : Group) (gs : list Group)
  : list Group :=
  match gs with
  | [] => [g]
  | h :: rest =>
      if Qltb (f h) (f g) then g :: h :: rest
      else h :: insert_desc f g rest
  end.

Definition sort_desc (f : Group -> Q) (gs : list Group) : list Group :=
  fold_right (insert_desc f) [] gs.

Definition g_avgPrice (g : Group) : Q := g_priceSum g / inject_Z (g_orders g).

(** *** overview *)

Record Overview := {
  total_revenue : Q;
  total_quantity : Q;
  total_orders : Z;
  avg_order_value : Q;
  avg_price : option Q;
  product_count : option nat;
  channel_count : option nat;
}.

Record OverviewGroup := {
  totalRevenue : Q;
  totalQuantity : Q;
  totalOrders : Z;
  priceSum : Q;
  uniqueProducts : gset string;
  uniqueChannels : gset string;
}.

Definition overview_step (a : OverviewGroup) (s : Sale) : OverviewGroup :=
  {| totalRevenue := totalRevenue a + price s * quantity s;
     totalQuantity := totalQuantity a + quantity s;
     totalOrders := (totalOrders a + 1)%Z;
     priceSum := priceSum a + price s;
     uniqueProducts := uniqueProducts a ∪ {[ product s ]};
     uniqueChannels := uniqueChannels a ∪ {[ purchaseType s ]} |}.

Definition overview_group (docs : list Sale) : OverviewGroup :=
  fold_left overview_step docs
    {| totalRevenue := 0; totalQuantity := 0; totalOrders := 0; priceSum := 0;
       uniqueProducts := ∅; uniqueChannels := ∅ |}.

Definition getOverview (sales : list Sale) (dateFilter : option Z) : Overview :=
  match List.filter (matchDate dateFilter) sales with
  | [] =>
      {| total_revenue := 0; total_quantity := 0; total_orders := 0;
         avg_order_value := 0; avg_price := None; product_count := None;
         channel_count := None |}
  | docs =>
      let g := overview_group docs in
      {| total_revenue := mongo_round2 (totalRevenue g);
         total_quantity := totalQuantity g;
         total_orders := totalOrders g;
         avg_order_value :=
           mongo_round2 (totalRevenue g / inject_Z (totalOrders g));
         avg_price := Some (mongo_round2 (priceSum g / inject_Z (totalOrders g)));
         product_count := Some (size (uniqueProducts g));
         channel_count := Some (size (uniqueChannels g)) |}
  end.

(** *** by_product and by_channel *)

Record Row := {
  row_key : string;
  revenue : Q;
  row_quantity : Q;
  row_orders : Z;
  row_avg_price : option Q;
  revenue_pct : Q;
}.

Definition project (withAvg : bool) (g : Group) : Row :=
  {| row_key := g_id g;
     revenue := mongo_round2 (g_revenue g);
     row_quantity := g_quantity g;
     row_orders := g_orders g;
     row_avg_price := if withAvg then Some (mongo_round2 (g_avgPrice g)) else None;
     revenue_pct := 0 |}.

(** [results.map((r) => ({ ...r, revenue_pct: ... }))] *)
Definition with_pct (results : list Row) : list Row :=
  let totalRevenue := Qsum (map revenue results) in
  map (fun r =>
         {| row_key := row_key r; revenue := revenue r;
            row_quantity := row_quantity r; row_orders := row_orders r;
            row_avg_price := row_avg_price r;
            revenue_pct :=
              if Qltb 0 totalRevenue
              then round1 (revenue r / totalRevenue * 100)
              else 0 |})
      results.

Definition getByProduct (sales : list Sale) (dateFilter : option Z) : list Row :=
  with_pct (map (project true)
              (sort_desc g_revenue
                 (group_by product (List.filter (matchDate dateFilter) sales)))).

Definition getByChannel (sales : list Sale) (dateFilter : option Z) : list Row :=
  with_pct (map (project false)
              (sort_desc g_revenue
                 (group_by purchaseType (List.filter (matchDate dateFilter) sales)))).

(** *** trend and top_sellers *)

Record TrendRow := {
  period : string; t_revenue : Q; t_quantity : Q; t_orders : Z;
}.

Record SellerRow := {
  s_product : string; s_total_quantity : Q; s_revenue : Q;
}.

Fixpoint insert_period (g : Group) (gs : list Group) : list Group :=
  match gs with
  | [] => [g]
  | h :: rest =>
      if String.ltb (g_id g) (g_id h) then g :: h :: rest
      else h :: insert_period g rest
  end.

Definition dateFormat (groupBy : string) : string :=
  if String.eqb groupBy "week" then "%Y-W%V"
  else if String.eqb groupBy "month" then "%Y-%m"
  else "%Y-%m-%d".

Section Trend.
(** [$dateToString]: the calendar arithmetic of the store, taken as given. *)
Variable dateToString : string -> Z -> string.

Definition getTrend (sales : list Sale) (dateFilter : option Z)
  (groupBy : string) : list TrendRow :=
  map (fun g => {| period := g_id g; t_revenue := mongo_round2 (g_revenue g);
                   t_quantity := g_quantity g; t_orders := g_orders g |})
      (fold_right insert_period []
         (group_by (fun s => dateToString (dateFormat groupBy) (date s))
                   (List.filter (matchDate dateFilter) sales))).
End Trend.

Definition seller (g : Group) : SellerRow :=
  {| s_product := g_id g; s_total_quantity := g_quantity g;
     s_revenue := mongo_round2 (g_revenue g) |}.

Definition getTopSellers (sales : list Sale) (dateFilter : option Z)
  (limit : nat) : list SellerRow * list SellerRow :=
  let groups := group_by product (List.filter (matchDate dateFilter) sales) in
  (map seller (firstn limit (sort_desc g_quantity groups)),
   map seller (firstn limit (sort_desc g_revenue groups))).

(** *** the dispatcher *)

(** The own properties of the object literal [analysisMap], in the order
    they are written. *)
Inductive Mode := overview | by_product | by_channel | trend | top_sellers.

Definition mode_name (m : Mode) : string :=
  match m with
  | overview => "overview" | by_product => "by_product"
  | by_channel => "by_channel" | trend => "trend"
  | top_sellers => "top_sellers"
  end.

Definition modes : list Mode :=
  [overview; by_product; by_channel; trend; top_sellers].

(** [Object.keys(analysisMap)] *)
Definition analysisMap_keys : list string := map mode_name modes.

Definition own_property (k : string) : option Mode :=
  List.find (fun m => String.eqb (mode_name m) k) modes.

(** [analysisMap] is an ordinary object: a property it does not own is looked
    up on [Object.prototype], whose members are these. *)
Inductive ObjectProtoMember :=
  | p_constructor | p_hasOwnProperty | p_isPrototypeOf
  | p_propertyIsEnumerable | p_toLocaleString | p_toString | p_valueOf
  | p_proto | p_defineGetter | p_defineSetter | p_lookupGetter
  | p_lookupSetter.

Definition proto_name (p : ObjectProtoMember) : string :=
  match p with
  | p_constructor => "constructor" | p_hasOwnProperty => "hasOwnProperty"
  | p_isPrototypeOf => "isPrototypeOf"
  | p_propertyIsEnumerable => "propertyIsEnumerable"
  | p_toLocaleString => "toLocaleString" | p_toString => "toString"
  | p_valueOf => "valueOf" | p_proto => "__proto__"
  | p_defineGetter => "__defineGetter__" | p_defineSetter => "__defineSetter__"
  | p_lookupGetter => "__lookupGetter__" | p_lookupSetter => "__lookupSetter__"
  end.

Definition proto_members : list ObjectProtoMember :=
  [p_constructor; p_hasOwnProperty; p_isPrototypeOf; p_propertyIsEnumerable;
   p_toLocaleString; p_toString; p_valueOf; p_proto; p_defineGetter;
   p_defineSetter; p_lookupGetter; p_lookupSetter].

Definition inherited_property (k : string) : option ObjectProtoMember :=
  List.find (fun p => String.eqb (proto_name p) k) proto_members.

(** The value of [analysisMap[analysis_type]]; [None] is [undefined]. *)
Inductive PropValue :=
  | OwnThunk (m : Mode)
  | Inherited (p : ObjectProtoMember).

Definition get_property (k : string) : option PropValue :=
  match own_property k with
  | Some m => Some (OwnThunk m)
  | None => option_map Inherited (inherited_property k)
  end.

(** The [data] of a response. *)
Inductive Data :=
  | DOverview (o : Overview)
  | DRows (rows : list Row)
  | DTrend (rows : list TrendRow)
  | DTopSellers (by_quantity by_revenue : list SellerRow)
  | DString (s : string)
  | DBool (b : bool)
  | DEmptyObject.

(** [analysisFn()] on an inherited value: a call without receiver and without
    argument, in strict mode.  [toString] answers for [undefined],
    [isPrototypeOf] returns [false] for a non-object argument, [Object()]
    makes an empty object; the value of [__proto__] is not callable; the
    other members convert [this] to an object first. *)
Definition call_inherited (p : ObjectProtoMember) : CallResult Data :=
  match p with
  | p_toString => Returned (DString "[object Undefined]")
  | p_isPrototypeOf => Returned (DBool false)
  | p_constructor => Returned DEmptyObject
  | p_proto => Threw "analysisFn is not a function"
  | _ => Threw "Cannot convert undefined or null to object"
  end.

(** The text of a tool result, before [JSON.stringify]. *)
Inductive Payload :=
  | UnknownType (analysis_type : string) (available_types : list string)
  | ErrorMessage (msg : string)
  | Response (analysis_type : string) (days : option Z)
             (grouped_by : option string) (data : Data).

Record ToolResult := { payload : Payload; isError : bool }.

Section Handler.
Variable dateToString : string -> Z -> string.

Definition call_own (sales : list Sale) (dateFilter : option Z)
  (group_by_arg : string) (m : Mode) : CallResult Data :=
  Returned
    match m with
    | overview => DOverview (getOverview sales dateFilter)
    | by_product => DRows (getByProduct sales dateFilter)
    | by_channel => DRows (getByChannel sales dateFilter)
    | trend => DTrend (getTrend dateToString sales dateFilter group_by_arg)
    | top_sellers =>
        let '(q, r) := getTopSellers sales dateFilter 5 in DTopSellers q r
    end.

Definition handleGetSalesAnalytics (sales : list Sale) (now : Z)
  (analysis_type : string) (days : Z) (group_by_arg : string) : ToolResult :=
  let dateFilter := buildDateFilter now days in
  match get_property analysis_type with
  | None =>
      {| payload := UnknownType analysis_type analysisMap_keys;
         isError := true |}
  | Some analysisFn =>
      let called :=
        match analysisFn with
        | OwnThunk m => call_own sales dateFilter group_by_arg m
        | Inherited p => call_inherited p
        end in
      match called with
      | Threw msg => {| payload := ErrorMessage msg; isError := true |}
      | Returned data =>
          {| payload :=
               Response analysis_type
                 (if (0 <? days)%Z then Some days else None)
                 (if (negb (String.eqb group_by_arg "")
                      && String.eqb analysis_type "trend")%bool
                  then Some group_by_arg else None)
                 data;
             isError := false |}
      end
  end.
End Handler.

End Analytics.

(** ** Profit engine ([tools/profit.js]) *)

Module Profit.

(** A value of the cost map; the fallback [{ costPrice: 0 }] has no
    category. *)
Record Cost := {
  c_costPrice : Q;
  c_sellPrice : Q;
  c_category : option string;
}.

(** [getCostMap]: [products.reduce((map, p) => { map[p.name] = ...; }, {})] *)
Definition getCostMap (products : list Inventory.ProductDoc)
  : gmap string Cost :=
  fold_left (fun m p =>
               <[ Inventory.name p :=
                    {| c_costPrice := Inventory.costPrice p;
                       c_sellPrice := Inventory.sellPrice p;
                       c_category := Some (Inventory.category p) |} ]> m)
            products ∅.

(** The filter built by [handleCalculateProfit]: a start date when [days > 0],
    a product unless it is ["all"]. *)
Record ProfitFilter := { pf_start : option Z; pf_product : option string }.

Definition buildFilter (now days : Z) (product_arg : string) : ProfitFilter :=
  {| pf_start := if (0 <? days)%Z then Some (now - days * MS_PER_DAY)%Z else None;
     pf_product := if (String.eqb product_arg "" || String.eqb product_arg "all")%bool
                   then None else Some product_arg |}.

Definition matchFilter (f : ProfitFilter) (s : Sale) : bool :=
  (Analytics.matchDate (pf_start f) s
   && match pf_product f with
      | None => true
      | Some p => String.eqb (product s) p
      end)%bool.

Record ProfitRow := {
  pr_product : string;
  pr_category : string;
  revenue : Q;
  cost_of_goods : Q;
  gross_profit : Q;
  margin_percent : Q;
  units_sold : Q;
  orders : Z;
  avg_selling_price : Q;
  cost_per_unit : Q;
  profit_per_unit : Q;
}.

(** The body of [salesByProduct.map((item) => ...)]. *)
Definition profit_row (costMap : gmap string Cost) (item : Analytics.Group)
  : ProfitRow :=
  let cost := match costMap !! Analytics.g_id item with
              | Some c => c
              | None => {| c_costPrice := 0; c_sellPrice := 0; c_category := None |}
              end in
  let cogs := c_costPrice cost * Analytics.g_quantity item in
  let grossProfit := Analytics.g_revenue item - cogs in
  let marginPct :=
    if Qltb 0 (Analytics.g_revenue item)
    then grossProfit / Analytics.g_revenue item * 100
    else 0 in
  {| pr_product := Analytics.g_id item;
     pr_category := match c_category cost with
                    | Some c => if String.eqb c "" then "unknown" else c
                    | None => "unknown"
                    end;
     revenue := round2 (Analytics.g_revenue item);
     cost_of_goods := round2 cogs;
     gross_profit := round2 grossProfit;
     margin_percent := round1 marginPct;
     units_sold := Analytics.g_quantity item;
     orders := Analytics.g_orders item;
     avg_selling_price := round2 (Analytics.g_avgPrice item);
     cost_per_unit := c_costPrice cost;
     profit_per_unit := round2 (Analytics.g_avgPrice item - c_costPrice cost) |}.

(** [salesByProduct]: the groups by product, greatest revenue first. *)
Definition salesByProduct (sales : list Sale) (f : ProfitFilter)
  : list Analytics.Group :=
  Analytics.sort_desc Analytics.g_revenue
    (Analytics.group_by product (List.filter (matchFilter f) sales)).

Definition getProductProfitBreakdown (sales : list Sale) (f : ProfitFilter)
  (costMap : gmap string Cost) : list ProfitRow :=
  map (profit_row costMap) (salesByProduct sales f).

End Profit.

(** ** Demand forecast ([tools/forecast.js]) *)

Module Forecast.

(** One group of [dailyData]: a UTC day, its weekday (0 = Sunday) and the
    day's totals. *)
Record Daily := {
  d_date : Z;
  d_dayOfWeek : Z;
  dailyQty : Q;
  dailyRevenue : Q;
}.

(** [$dayOfWeek - 1] of a UTC day number: day 0 of the epoch is a Thursday. *)
Definition dayOfWeek (day : Z) : Z := ((day + 4) mod 7)%Z.

Fixpoint daily_add (s : Sale) (ds : list Daily) : list Daily :=
  match ds with
  | [] => [{| d_date := day_of (date s); d_dayOfWeek := dayOfWeek (day_of (date s));
              dailyQty := quantity s; dailyRevenue := price s * quantity s |}]
  | d :: rest =>
      if (day_of (date s) =? d_date d)%Z
      then {| d_date := d_date d; d_dayOfWeek := d_dayOfWeek d;
              dailyQty := dailyQty d + quantity s;
              dailyRevenue := dailyRevenue d + price s * quantity s |} :: rest
      else d :: daily_add s rest
  end.

Fixpoint insert_daily (d : Daily) (ds : list Daily) : list Daily :=
  match ds with
  | [] => [d]
  | h :: rest =>
      if (d_date d <? d_date h)%Z then d :: h :: rest
      else h :: insert_daily d rest
  end.

Definition matchFilter (start : Z) (product_arg : string) (s : Sale) : bool :=
  ((start <=? date s)%Z
   && (String.eqb product_arg "" || String.eqb product_arg "all"
       || String.eqb (product s) product_arg))%bool.

Definition dailyData (sales : list Sale) (now : Z) (product_arg : string)
  : list Daily :=
  fold_right insert_daily []
    (fold_left (fun ds s => daily_add s ds)
       (List.filter (matchFilter (now - 30 * MS_PER_DAY)%Z product_arg) sales) []).

(** [dayBuckets]: the quantities of each weekday, in order. *)
Definition dayBuckets (data : list Daily) : gmap Z (list Q) :=
  fold_left (fun b d =>
               <[ d_dayOfWeek d :=
                    match b !! d_dayOfWeek d with
                    | Some qs => qs ++ [dailyQty d]
                    | None => [dailyQty d]
                    end ]> b)
            data ∅.

Definition dowMultipliers (avgDaily : Q) (buckets : gmap Z (list Q))
  : gmap Z Q :=
  fmap (M := gmap Z)
       (fun quantities =>
          let dayAvg := Qsum quantities / inject_Z (Z.of_nat (length quantities)) in
          if Qltb 0 avgDaily then round2 (dayAvg / avgDaily) else 1)
       buckets.

Record Prediction := {
  p_date : Z;               (* the UTC day of [toISOString] *)
  p_dayOfWeek : Z;          (* index into [dayNames] *)
  predicted_quantity : Z;
  predicted_revenue : Q;
}.

Section Fallback.
(** The offset of the server's local time from UTC, in milliseconds
    ([getDay] is local), and the successive values of [Math.random()]. *)
Variable tz : Z.
Variable random : nat -> Q.

(** The body of the loop for a given [i]; the [i]-th iteration makes the
    [i-1]-th draw. *)
Definition predict (now : Z) (avgDaily avgRevenue : Q) (mults : gmap Z Q)
  (i : nat) : Prediction :=
  let date := (now + Z.of_nat i * MS_PER_DAY)%Z in
  let dow := dayOfWeek (day_of (date + tz)) in
  let dowMult := match mults !! dow with
                 | Some m => num_or m 1
                 | None => 1
                 end in
  let variance := (9 # 10) + random (Nat.pred i) * (2 # 10) in
  {| p_date := day_of date;
     p_dayOfWeek := dow;
     predicted_quantity := Z.max 0 (Math_round (avgDaily * dowMult * variance));
     predicted_revenue := Math_max 0 (round2 (avgRevenue * dowMult * variance)) |}.

Record Summary := {
  total_predicted_quantity : Z;
  avg_daily_predicted : Z;
  peak_day : Prediction;
}.

Inductive FallbackResult :=
  | NoHistory (product_arg : string)
  | FallbackForecast (product_arg : string) (forecast_days : Z)
      (summary : Summary) (daily_forecast : list Prediction).

(** [predictions.reduce((s, p) => s + p.predicted_quantity, 0)] *)
Definition totalPredQty (predictions : list Prediction) : Z :=
  fold_left (fun s p => (s + predicted_quantity p)%Z) predictions 0%Z.

Definition peak (predictions : list Prediction) (first : Prediction)
  : Prediction :=
  fold_left (fun max p =>
               if (predicted_quantity max <? predicted_quantity p)%Z then p else max)
            predictions first.

(** [movingAverageFallback].  With an empty [predictions] the read of
    [peak.date] raises a [TypeError]. *)
Definition movingAverageFallback (sales : list Sale) (now : Z)
  (product_arg : string) (daysAhead : Z) : CallResult FallbackResult :=
  let data := dailyData sales now product_arg in
  match data with
  | [] => Returned (NoHistory product_arg)
  | _ =>
      let n := inject_Z (Z.of_nat (length data)) in
      let avgDaily := Qsum (map dailyQty data) / n in
      let avgRevenue := Qsum (map dailyRevenue data) / n in
      let mults := dowMultipliers avgDaily (dayBuckets data) in
      let predictions :=
        map (predict now avgDaily avgRevenue mults)
            (seq 1 (Z.to_nat daysAhead)) in
      match predictions with
      | [] => Threw "Cannot read properties of undefined (reading 'date')"
      | first :: _ =>
          let total := totalPredQty predictions in
          Returned
            (FallbackForecast product_arg daysAhead
               {| total_predicted_quantity := total;
                  avg_daily_predicted :=
                    Math_round (inject_Z total / inject_Z daysAhead);
                  peak_day := peak predictions first |}
               predictions)
      end
  end.

End Fallback.

(** [fetch]: rejected (network error, or abort on the timeout), or a response
    with its [ok] flag and its body, [None] when [json()] fails. *)
Inductive FetchOutcome (Body : Type) :=
  | Rejected (aborted : bool)
  | Responded (ok : bool) (status : Z) (body : option Body).
Arguments Rejected {Body} aborted.
Arguments Responded {Body} ok status body.


Section Primary.
Variable tz : Z.
Variable random : nat -> Q.

(** [formatMLResponse] reshapes the two bodies into one object; only the fact
    that it is an object is used by the handler. *)
Variable Body MLResponse : Type.
Variable formatMLResponse : string -> Z -> Body -> Body -> MLResponse.

(** [callMLService]: [None] is the [null] that triggers the fallback.
    [Promise.all] rejects as soon as one [fetch] does. *)
Definition callMLService (product_arg : string) (days : Z)
  (forecastFetch profitFetch : FetchOutcome Body) : option MLResponse :=
  match forecastFetch, profitFetch with
  | Responded ok1 _ forecastBody, Responded ok2 _ profitBody =>
      if (negb ok1 || negb ok2)%bool then None
      else match forecastBody, profitBody with
           | Some forecastData, Some profitData =>
               Some (formatMLResponse product_arg days forecastData profitData)
           | _, _ => None
           end
  | _, _ => None
  end.

Inductive ForecastPayload :=
  | Primary (ml : MLResponse)
  | Fallback (fb : FallbackResult)
  | ForecastError (msg : string).

Record ForecastResult := { f_payload : ForecastPayload; f_isError : bool }.

(** What the handler returns once the primary path is given up. *)
Definition fallbackPath (sales : list Sale) (now : Z) (product_arg : string)
  (days_ahead : Z) : ForecastResult :=
  match movingAverageFallback tz random sales now product_arg days_ahead with
  | Returned fb => {| f_payload := Fallback fb; f_isError := false |}
  | Threw msg => {| f_payload := ForecastError msg; f_isError := true |}
  end.

Definition handleForecastDemand (sales : list Sale) (now : Z)
  (product_arg : string) (days_ahead : Z)
  (forecastFetch profitFetch : FetchOutcome Body) : ForecastResult :=
  match callMLService product_arg days_ahead forecastFetch profitFetch with
  | Some mlResult => {| f_payload := Primary mlResult; f_isError := false |}
  | None => fallbackPath sales now product_arg days_ahead
  end.

End Primary.

End Forecast.

(** ** Festival cache ([tools/festivals.js]) *)

Module Festivals.

Definition CACHE_MAX_AGE_MS : Z := 24 * 60 * 60 * 1000.

Definition HIGH_IMPACT_HOLIDAYS : list string :=
  ["thanksgiving"; "super bowl"; "christmas"; "independence day"; "new year"].

Definition MEDIUM_IMPACT_HOLIDAYS : list string :=
  ["memorial"; "labor day"; "mother"; "father"; "valentine"; "halloween";
   "black friday"].

(** [toLowerCase] on the ASCII letters. *)
Definition lower (c : ascii) : ascii :=
  let n := nat_of_ascii c in
  if ((65 <=? n) && (n <=? 90))%nat then ascii_of_nat (n + 32) else c.

Fixpoint toLowerCase (s : string) : string :=
  match s with
  | EmptyString => EmptyString
  | String c rest => String (lower c) (toLowerCase rest)
  end.

(** [s.includes(keyword)] *)
Fixpoint includes (s keyword : string) : bool :=
  if String.prefix keyword s then true
  else match s with
       | EmptyString => false
       | String _ rest => includes rest keyword
       end.

Inductive Level := HIGH | MEDIUM | LOW.

Record Impact := { level : Level; multiplier : Q }.

Definition classifyImpact (holidayName : string) : Impact :=
  let lower := toLowerCase holidayName in
  if existsb (fun keyword => includes lower keyword) HIGH_IMPACT_HOLIDAYS
  then {| level := HIGH; multiplier := 145 # 100 |}
  else if existsb (fun keyword => includes lower keyword) MEDIUM_IMPACT_HOLIDAYS
  then {| level := MEDIUM; multiplier := 125 # 100 |}
  else {| level := LOW; multiplier := 110 # 100 |}.

Inductive Source := nager_api | manual.

(** A festival document ([models/Festival.js]); the schema option
    [timestamps] adds [createdAt] and [updatedAt]. *)
Record Festival := {
  name : string;
  date : Z;
  localName : option string;
  countryCode : string;
  source : Source;
  demandMultiplier : Q;
  fetchedAt : Z;
  createdAt : Z;
  updatedAt : Z;
}.

(** An element of the array answered by the holiday API. *)
Record Holiday := { h_date : Z; h_name : string; h_localName : string }.

(** The [$set] document of the update, applied to a matched festival;
    [updatedAt] follows from the schema's timestamps. *)
Definition apply_set (holiday : Holiday) (country : string) (now : Z)
  (f : Festival) : Festival :=
  {| name := name f;
     date := date f;
     localName := Some (h_localName holiday);
     countryCode := country;
     source := nager_api;
     demandMultiplier := multiplier (classifyImpact (h_name holiday));
     fetchedAt := now;
     createdAt := createdAt f;
     updatedAt := now |}.

(** The document inserted when the filter matches nothing: the fields of the
    filter, then the [$set]. *)
Definition inserted (holiday : Holiday) (country : string) (now : Z) : Festival :=
  apply_set holiday country now
    {| name := h_name holiday; date := h_date holiday; localName := None;
       countryCode := "US"; source := nager_api; demandMultiplier := 1;
       fetchedAt := now; createdAt := now; updatedAt := now |}.

(** [Festival.updateOne({ name, date }, { $set: ... }, { upsert: true })] *)
Fixpoint updateOne (holiday : Holiday) (country : string) (now : Z)
  (store : list Festival) : list Festival :=
  match store with
  | [] => [inserted holiday country now]
  | f :: rest =>
      if (String.eqb (name f) (h_name holiday) && (date f =? h_date holiday)%Z)%bool
      then apply_set holiday country now f :: rest
      else f :: updateOne holiday country now rest
  end.

(** [syncFestivalsToCache], after the fetch: the new store and [synced]. *)
Definition syncFestivalsToCache (holidays : list Holiday) (country : string)
  (now : Z) (store : list Festival) : list Festival * nat :=
  fold_left (fun '(st, synced) holiday =>
               (updateOne holiday country now st, S synced))
            holidays (store, 0%nat).

(** [isCacheFresh]: the most recently fetched festival of the country is
    younger than the maximum age. *)
Definition latestFetched (country : string) (store : list Festival) : option Z :=
  fold_left (fun acc f =>
               if String.eqb (countryCode f) country then
                 match acc with
                 | Some t => Some (Z.max t (fetchedAt f))
                 | None => Some (fetchedAt f)
                 end
               else acc)
            store None.

Definition isCacheFresh (country : string) (now : Z) (store : list Festival)
  : bool :=
  match latestFetched country store with
  | None => false
  | Some t => (now - t <? CACHE_MAX_AGE_MS)%Z
  end.

(** The refresh step of [handleGetUpcomingFestivals]: [fetch year] is the
    answer of the holiday API, [None] when it is not a 2xx; [month] is
    [now.getMonth()].  [None] is the error result of the handler. *)
Definition refresh (fetch : Z -> option (list Holiday)) (currentYear month : Z)
  (country : string) (now : Z) (store : list Festival) : option (list Festival) :=
  if isCacheFresh country now store then Some store
  else
    match fetch currentYear with
    | None => None
    | Some hs =>
        let store1 := fst (syncFestivalsToCache hs country now store) in
        if (9 <=? month)%Z then
          match fetch (currentYear + 1)%Z with
          | None => None
          | Some hs' => Some (fst (syncFestivalsToCache hs' country now store1))
          end
        else Some store1
    end.

(** [demand_multiplier: f.demandMultiplier || impact.multiplier] *)
Definition demand_multiplier (f : Festival) : Q :=
  num_or (demandMultiplier f) (multiplier (classifyImpact (name f))).

(** The festival stored under a (name, date) key. *)
Definition lookup (n : string) (d : Z) (store : list Festival) : option Festival :=
  List.find (fun f => (String.eqb (name f) n && (date f =? d)%Z)%bool) store.

End Festivals.

(** ** [Array.prototype.sort] with a descending numeric comparator *)

Module JsSort.

Section Sort.
Context {A : Type} (key : A -> Q).

(** [l.sort((a, b) => key(b) - key(a))]: the sort is stable, elements with
    equal keys keep their order. *)
Fixpoint insert (x : A) (l : list A) : list A :=
  match l with
  | [] => [x]
  | h :: rest =>
      if Qltb (key x) (key h) then h :: insert x rest else x :: h :: rest
  end.

Definition sort (l : list A) : list A := fold_right insert [] l.

End Sort.

End JsSort.

(** ** Summary of the stock check ([tools/inventory.js], step 4) *)

Module Check.

(** One line of [alerts]: the text is built from the emoji and the action of
    the status, the product, the stock and the days left; or the marker that
    stands for an empty list. *)
Inductive AlertLine :=
  | Alert (product_name : string) (s : Status) (stock : Q) (days_left : Z)
  | AllWellStocked.

Record Summary := {
  total_products : nat;
  green_count : nat;
  yellow_count : nat;
  red_count : nat;
  alerts : list AlertLine;
}.

Definition status_eqb (a b : Status) : bool :=
  match a, b with
  | green, green | yellow, yellow | red, red => true
  | _, _ => false
  end.

Definition has_status (s : Status) (r : Inventory.ProductReport) : bool :=
  status_eqb (Inventory.r_status r) s.

Definition alert_of (r : Inventory.ProductReport) : AlertLine :=
  Alert (Inventory.r_product r) (Inventory.r_status r)
        (Inventory.stock_level r) (Inventory.days_until_stockout r).

Definition summarize (results : list Inventory.ProductReport) : Summary :=
  let alerts :=
    map alert_of (List.filter (fun r => negb (has_status green r)) results) in
  {| total_products := length results;
     green_count := length (List.filter (has_status green) results);
     yellow_count := length (List.filter (has_status yellow) results);
     red_count := length (List.filter (has_status red) results);
     alerts := match alerts with
               | [] => [AllWellStocked]
               | _ => alerts
               end |}.

(** What [handleCheckInventory] serialises: [{ products: results, summary }],
    or the error when no product matches. *)
Definition checkInventory (products : list Inventory.ProductDoc)
  (sales : list Sale) (snapshots : list InventoryDoc) (now : Z)
  (product_arg : option string)
  : option (list Inventory.ProductReport * Summary) :=
  option_map (fun results => (results, summarize results))
    (Inventory.handleCheckInventory products sales snapshots now product_arg).

End Check.

(** ** Totals, insights and trend of the profit tool ([tools/profit.js]) *)

Module ProfitReport.

Record Totals := {
  t_revenue : Q;
  t_cost_of_goods : Q;
  t_gross_profit : Q;
  t_units_sold : Q;
  t_orders : Z;
  overall_margin_percent : Q;
}.

(** [breakdown.reduce(...)], then the roundings and the overall margin. *)
Definition totals_of (breakdown : list Profit.ProfitRow) : Totals :=
  let revenue := round2 (Qsum (map Profit.revenue breakdown)) in
  let cost := round2 (Qsum (map Profit.cost_of_goods breakdown)) in
  let profit := round2 (Qsum (map Profit.gross_profit breakdown)) in
  {| t_revenue := revenue;
     t_cost_of_goods := cost;
     t_gross_profit := profit;
     t_units_sold := Qsum (map Profit.units_sold breakdown);
     t_orders := fold_left Z.add (map Profit.orders breakdown) 0%Z;
     overall_margin_percent :=
       if Qltb 0 revenue then round1 (profit / revenue * 100) else 0 |}.

Inductive Tip := GreatMargins | DecentMargins | LowMargins.

(** An insight names a product and a figure; [None] is ["N/A"]. *)
Record Insights := {
  highest_margin_product : option (string * Q);
  lowest_margin_product : option (string * Q);
  most_profitable_product : option (string * Q);
  tip : Tip;
}.

Definition insights_of (breakdown : list Profit.ProfitRow) (totals : Totals)
  : Insights :=
  let sortedByMargin := JsSort.sort Profit.margin_percent breakdown in
  let sortedByProfit := JsSort.sort Profit.gross_profit breakdown in
  {| highest_margin_product :=
       option_map (fun r => (Profit.pr_product r, Profit.margin_percent r))
                  (nth_error sortedByMargin 0);
     lowest_margin_product :=
       option_map (fun r => (Profit.pr_product r, Profit.margin_percent r))
                  (nth_error sortedByMargin (length sortedByMargin - 1));
     most_profitable_product :=
       option_map (fun r => (Profit.pr_product r, Profit.gross_profit r))
                  (nth_error sortedByProfit 0);
     tip := if Qle_bool 60 (overall_margin_percent totals) then GreatMargins
            else if Qle_bool 40 (overall_margin_percent totals) then DecentMargins
            else LowMargins |}.

(** One group of [rawData]: revenue and quantity of a product in a period. *)
Record RawItem := {
  ri_period : string;
  ri_product : string;
  ri_revenue : Q;
  ri_quantity : Q;
}.

Fixpoint raw_add (per : string) (s : Sale) (items : list RawItem)
  : list RawItem :=
  match items with
  | [] => [{| ri_period := per; ri_product := product s;
              ri_revenue := price s * quantity s; ri_quantity := quantity s |}]
  | it :: rest =>
      if (String.eqb per (ri_period it)
          && String.eqb (product s) (ri_product it))%bool
      then {| ri_period := ri_period it; ri_product := ri_product it;
              ri_revenue := ri_revenue it + price s * quantity s;
              ri_quantity := ri_quantity it + quantity s |} :: rest
      else it :: raw_add per s rest
  end.

(** [$sort: { "_id.period": 1 }] *)
Fixpoint insert_raw (it : RawItem) (items : list RawItem) : list RawItem :=
  match items with
  | [] => [it]
  | h :: rest =>
      if String.ltb (ri_period it) (ri_period h) then it :: h :: rest
      else h :: insert_raw it rest
  end.

(** An entry of [periodMap]; its [orders] field stays 0 and is not output. *)
Record PeriodEntry := {
  pe_period : string;
  pe_revenue : Q;
  pe_cogs : Q;
  pe_profit : Q;
}.

(** The body of [for (const item of rawData)] on the map, whose entries keep
    the order of first insertion. *)
Fixpoint period_add (per : string) (rev cogs profit : Q)
  (m : list PeriodEntry) : list PeriodEntry :=
  match m with
  | [] => [{| pe_period := per; pe_revenue := 0 + rev; pe_cogs := 0 + cogs;
              pe_profit := 0 + profit |}]
  | e :: rest =>
      if String.eqb per (pe_period e)
      then {| pe_period := pe_period e; pe_revenue := pe_revenue e + rev;
              pe_cogs := pe_cogs e + cogs;
              pe_profit := pe_profit e + profit |} :: rest
      else e :: period_add per rev cogs profit rest
  end.

Record TrendRow := {
  tr_period : string;
  tr_revenue : Q;
  tr_cost_of_goods : Q;
  tr_gross_profit : Q;
  tr_margin_percent : Q;
}.

Definition trend_row (e : PeriodEntry) : TrendRow :=
  {| tr_period := pe_period e;
     tr_revenue := round2 (pe_revenue e);
     tr_cost_of_goods := round2 (pe_cogs e);
     tr_gross_profit := round2 (pe_profit e);
     tr_margin_percent :=
       if Qltb 0 (pe_revenue e)
       then round1 (pe_profit e / pe_revenue e * 100)
       else 0 |}.

Definition costPrice_of (costMap : gmap string Profit.Cost) (p : string) : Q :=
  match costMap !! p with
  | Some c => Profit.c_costPrice c
  | None => 0
  end.

Definition periodMap (costMap : gmap string Profit.Cost) (raw : list RawItem)
  : list PeriodEntry :=
  fold_left (fun m item =>
               let cogs := costPrice_of costMap (ri_product item)
                           * ri_quantity item in
               period_add (ri_period item) (ri_revenue item) cogs
                          (ri_revenue item - cogs) m)
            raw [].

Record ProfitResponse := {
  resp_days : option Z;
  product_filter : string;
  totals : Totals;
  insights : Insights;
  product_breakdown : list Profit.ProfitRow;
  profit_trend : option (list TrendRow);
}.

Section Handler.
(** [$dateToString], as for the sales trend. *)
Variable dateToString : string -> Z -> string.

Definition rawData (sales : list Sale) (f : Profit.ProfitFilter)
  (groupBy : string) : list RawItem :=
  fold_right insert_raw []
    (fold_left (fun items s =>
                  raw_add (dateToString (Analytics.dateFormat groupBy) (date s))
                          s items)
               (List.filter (Profit.matchFilter f) sales) []).

Definition getProfitTrend (sales : list Sale) (f : Profit.ProfitFilter)
  (costMap : gmap string Profit.Cost) (groupBy : string) : list TrendRow :=
  map trend_row (periodMap costMap (rawData sales f groupBy)).

Definition handleCalculateProfit (products : list Inventory.ProductDoc)
  (sales : list Sale) (now : Z) (product_arg : string) (days : Z)
  (include_trend : bool) (group_by_arg : string) : ProfitResponse :=
  let dateFilter := Profit.buildFilter now days product_arg in
  let costMap := Profit.getCostMap products in
  let breakdown := Profit.getProductProfitBreakdown sales dateFilter costMap in
  let totals := totals_of breakdown in
  {| resp_days := if (0 <? days)%Z then Some days else None;
     product_filter := product_arg;
     totals := totals;
     insights := insights_of breakdown totals;
     product_breakdown := breakdown;
     profit_trend :=
       if include_trend
       then Some (getProfitTrend sales dateFilter costMap group_by_arg)
       else None |}.

End Handler.

End ProfitReport.

(** ** Query of the upcoming festivals ([tools/festivals.js], steps 2 to 4) *)

Module Upcoming.

(** [Math.ceil] *)
Definition Math_ceil (x : Q) : Z := Qceiling x.

Record Entry := {
  u_name : string;
  u_date : Z;               (* the UTC day of [toISOString] *)
  local_name : string;
  days_until : Z;
  impact : Festivals.Level;
  u_demand_multiplier : Q;
}.

(** [{ countryCode, date: { $gte: today, $lte: futureDate } }] *)
Definition in_range (country : string) (today futureDate : Z)
  (f : Festivals.Festival) : bool :=
  (String.eqb (Festivals.countryCode f) country
   && (today <=? Festivals.date f)%Z
   && (Festivals.date f <=? futureDate)%Z)%bool.

(** [.sort({ date: 1 })] *)
Fixpoint insert_soonest (f : Festivals.Festival) (fs : list Festivals.Festival)
  : list Festivals.Festival :=
  match fs with
  | [] => [f]
  | h :: rest =>
      if (Festivals.date f <? Festivals.date h)%Z then f :: h :: rest
      else h :: insert_soonest f rest
  end.

(** The body of [festivals.map((f) => ...)]. *)
Definition format (today : Z) (f : Festivals.Festival) : Entry :=
  {| u_name := Festivals.name f;
     u_date := day_of (Festivals.date f);
     local_name := match Festivals.localName f with
                   | Some l => if String.eqb l "" then Festivals.name f else l
                   | None => Festivals.name f
                   end;
     days_until :=
       Math_ceil (inject_Z (Festivals.date f - today)
                  / inject_Z (1000 * 60 * 60 * 24));
     impact := Festivals.level (Festivals.classifyImpact (Festivals.name f));
     u_demand_multiplier := Festivals.demand_multiplier f |}.

(** The query and the formatting.  [today] is the local midnight of the call
    and [futureDate] the local midnight [days_ahead] calendar days later
    ([futureDate.setDate(futureDate.getDate() + days_ahead)]), both in
    milliseconds since the epoch. *)
Definition upcoming (today futureDate : Z) (country : string)
  (store : list Festivals.Festival) : list Entry :=
  map (format today)
      (fold_right insert_soonest []
         (List.filter (in_range country today futureDate) store)).

Inductive CacheStatus := fresh | refreshed.

Record Summary := {
  total_upcoming : nat;
  high_impact_count : nat;
  next_festival : option Entry;
  country_searched : string;
  days_searched : Z;
  cache_status : CacheStatus;
}.

Definition is_high (e : Entry) : bool :=
  match impact e with
  | Festivals.HIGH => true
  | _ => false
  end.

Definition summarize (formatted : list Entry) (country : string)
  (days_ahead : Z) (cacheFresh : bool) : Summary :=
  {| total_upcoming := length formatted;
     high_impact_count := length (List.filter is_high formatted);
     next_festival := nth_error formatted 0;
     country_searched := country;
     days_searched := days_ahead;
     cache_status := if cacheFresh then fresh else refreshed |}.

(** [handleGetUpcomingFestivals]: the store after the refresh step with the
    answer, or [None] for the error result when a fetch fails. *)
Definition handleGetUpcomingFestivals (fetch : Z -> option (list Festivals.Holiday))
  (currentYear month : Z) (now today futureDate : Z) (days_ahead : Z)
  (country : string) (store : list Festivals.Festival)
  : option (list Festivals.Festival * list Entry * Summary) :=
  let cacheFresh := Festivals.isCacheFresh country now store in
  match Festivals.refresh fetch currentYear month country now store with
  | None => None
  | Some store' =>
      let formatted := upcoming today futureDate country store' in
      Some (store', formatted, summarize formatted country days_ahead cacheFresh)
  end.

End Upcoming.

(** * Notions used in the statements *)

(** What one simulated day guarantees, whatever the stock it starts from. *)
Definition snapshot_ok (productName : string) (pol : InventoryPolicy)
  (d : InventoryDoc) : Prop :=
  inv_product d = productName
  /\ status d = green
  /\ 0 <= stockLevel d
  /\ reorderPoint pol - (1 # 200) < stockLevel d
  /\ (forall k : Z, reorderPoint pol == inject_Z k / 100 ->
      reorderPoint pol <= stockLevel d).

(** The length of a list, as a rational. *)
Definition Qlen {A : Type} (l : list A) : Q := inject_Z (Z.of_nat (length l)).

(** The line revenue of a sale: [price * quantity]. *)
Definition line_revenue (s : Sale) : Q := price s * quantity s.

(** The sum of the predicted quantities, written as a recursion on the
    list. *)
Definition quantity_sum (ps : list Forecast.Prediction) : Z :=
  fold_right Z.add 0%Z (map Forecast.predicted_quantity ps).

(** How bad a status is. *)
Definition severity (s : Status) : nat :=
  match s with
  | green => 0
  | yellow => 1
  | red => 2
  end.

(** The key of the unique index of the snapshots: product and day. *)
Definition snapshot_key (d : InventoryDoc) : string * Z :=
  (inv_product d, inv_date d).


(** A list in descending order of a rational key. *)
Definition descending {A : Type} (key : A -> Q) (l : list A) : Prop :=
  StronglySorted (fun a b => key b <= key a) l.


(** The key of the unique index of the festivals: name and date. *)
Definition festival_key (f : Festivals.Festival) : string * Z :=
  (Festivals.name f, Festivals.date f).

Definition holiday_key (h : Festivals.Holiday) : string * Z :=
  (Festivals.h_name h, Festivals.h_date h).

(** What a refresh writes into the entry of a holiday. *)
Definition refreshed_entry (country : string) (now : Z) (key : string * Z)
  (f : Festivals.Festival) : Prop :=
  Festivals.name f = fst key
  /\ Festivals.date f = snd key
  /\ Festivals.countryCode f = country
  /\ Festivals.source f = Festivals.nager_api
  /\ Festivals.demandMultiplier f
     = Festivals.multiplier (Festivals.classifyImpact (fst key))
  /\ Festivals.fetchedAt f = now.

(** * Sample data *)

(** A sale at midnight of the given day. *)
Definition sale_of (day : Z) (p : string) (pr q : Q) : Sale :=
  {| orderId := 1; date := (day * MS_PER_DAY)%Z; product := p; price := pr;
     quantity := q; purchaseType := "Online"; paymentMethod := "Cash" |}.

(** Scenario A of the specification: Fries on three consecutive days. *)
Definition policy_A : InventoryPolicy :=
  {| minStockDaily := 2; reorderPoint := 5; maxStockDaily := 50 |}.

Definition config_A : gmap string InventoryPolicy := {[ "Fries" := policy_A ]}.

Definition sales_A : list Sale :=
  [sale_of 0 "Fries" (349 # 100) 10; sale_of 1 "Fries" (349 # 100) 20;
   sale_of 2 "Fries" (349 # 100) 0].

(** Defaults for [nth]. *)
Definition no_doc : InventoryDoc :=
  {| inv_product := ""; inv_date := 0; stockLevel := 0; consumed := 0;
     restocked := 0; status := red |}.

Definition no_row : Profit.ProfitRow :=
  {| Profit.pr_product := ""; Profit.pr_category := ""; Profit.revenue := 0;
     Profit.cost_of_goods := 0; Profit.gross_profit := 0;
     Profit.margin_percent := 0; Profit.units_sold := 0; Profit.orders := 0;
     Profit.avg_selling_price := 0; Profit.cost_per_unit := 0;
     Profit.profit_per_unit := 0 |}.

(** A policy whose thresholds have a third decimal. *)
Definition policy_fine : InventoryPolicy :=
  {| minStockDaily := 0; reorderPoint := 10003 # 1000;
     maxStockDaily := 10004 # 1000 |}.

(** One and two units of Fries on two days. *)
Definition sales_two_days : list Sale :=
  [sale_of 0 "Fries" (349 # 100) 1; sale_of 1 "Fries" (349 # 100) 2].

(** The Fries product, a snapshot with 10 units, a day with 3 units sold. *)
Definition fries_doc : Inventory.ProductDoc :=
  {| Inventory.name := "Fries"; Inventory.category := "side";
     Inventory.sellPrice := 349 # 100; Inventory.costPrice := 80 # 100;
     Inventory.inventory :=
       Some {| minStockDaily := 2; reorderPoint := 5; maxStockDaily := 50 |} |}.

Definition snapshot_ten : InventoryDoc :=
  {| inv_product := "Fries"; inv_date := 0; stockLevel := 10; consumed := 0;
     restocked := 0; status := green |}.

Definition sales_three : list Sale := [sale_of 0 "Fries" (349 # 100) 3].

(** Two products with a line revenue of 0.004 each. *)
Definition sales_tiny : list Sale :=
  [sale_of 0 "Fries" (1 # 10) (4 # 100); sale_of 0 "Beverages" (1 # 10) (4 # 100)].

(** A sale of quantity 0, and a default for [nth]. *)
Definition sales_zero : list Sale := [sale_of 0 "Fries" 1 0].

Definition no_group : Analytics.Group :=
  {| Analytics.g_id := ""; Analytics.g_revenue := 1; Analytics.g_quantity := 0;
     Analytics.g_orders := 0; Analytics.g_priceSum := 0 |}.

(** A revenue of 0.004 for a product that costs 1.5 a unit. *)
Definition sales_small : list Sale := [sale_of 0 "Fries" 1 (4 # 1000)].

Definition products_small : list Inventory.ProductDoc :=
  [{| Inventory.name := "Fries"; Inventory.category := "side";
      Inventory.sellPrice := 1; Inventory.costPrice := 15 # 10;
      Inventory.inventory := None |}].

(** A cached festival whose multiplier was set by hand, and the answer of
    the holiday API for the same (name, date). *)
Definition columbus_day : Z := 20000 * MS_PER_DAY.

Definition tuned_entry : Festivals.Festival :=
  {| Festivals.name := "Columbus Day"; Festivals.date := columbus_day;
     Festivals.localName := Some "Columbus Day"; Festivals.countryCode := "US";
     Festivals.source := Festivals.manual; Festivals.demandMultiplier := 2;
     Festivals.fetchedAt := 0; Festivals.createdAt := 0;
     Festivals.updatedAt := 0 |}.

Definition api_answer (year : Z) : option (list Festivals.Holiday) :=
  Some [{| Festivals.h_date := columbus_day; Festivals.h_name := "Columbus Day";
           Festivals.h_localName := "Columbus Day" |}].

(** * Properties *)

(** ** Rounding *)

Lemma Math_round_bounds (x : Q) :
  x - (1 # 2) < inject_Z (Math_round x) /\ inject_Z (Math_round x) <= x + (1 # 2).
Proof.
  unfold Math_round.
  pose proof (Qfloor_le (x + (1 # 2))) as Hle.
  pose proof (Qlt_floor (x + (1 # 2))) as Hlt.
  rewrite inject_Z_plus in Hlt.
  change (inject_Z 1) with 1 in Hlt.
  split; lra.
Qed.

Lemma Math_round_comp (x y : Q) : x == y -> Math_round x = Math_round y.
Proof. intros H. unfold Math_round. apply Qfloor_comp. rewrite H. reflexivity. Qed.

Lemma round2_bounds (x : Q) :
  x - (1 # 200) < round2 x /\ round2 x <= x + (1 # 200).
Proof.
  unfold round2.
  destruct (Math_round_bounds (x * 100)) as [Hlo Hhi].
  set (r := inject_Z (Math_round (x * 100))) in *.
  split.
  - apply Qlt_shift_div_l; lra.
  - apply Qle_shift_div_r; lra.
Qed.

Lemma round1_bounds (x : Q) :
  x - (1 # 20) < round1 x /\ round1 x <= x + (1 # 20).
Proof.
  unfold round1.
  destruct (Math_round_bounds (x * 10)) as [Hlo Hhi].
  set (r := inject_Z (Math_round (x * 10))) in *.
  split.
  - apply Qlt_shift_div_l; lra.
  - apply Qle_shift_div_r; lra.
Qed.

Lemma Math_round_ge (x : Q) (k : Z) : inject_Z k <= x -> (k <= Math_round x)%Z.
Proof.
  intros H. unfold Math_round.
  apply Z.le_trans with (Qfloor (inject_Z k)).
  - rewrite Qfloor_Z. lia.
  - apply Qfloor_resp_le. lra.
Qed.

Lemma round2_nonneg (x : Q) : 0 <= x -> 0 <= round2 x.
Proof.
  intros H. unfold round2.
  apply Qle_shift_div_l; [lra|].
  assert (0 <= Math_round (x * 100))%Z as Hz
    by (apply Math_round_ge; change (inject_Z 0) with 0; lra).
  rewrite Zle_Qle in Hz. change (inject_Z 0) with 0 in Hz. lra.
Qed.

(** A threshold that is a whole number of hundredths is not crossed by the
    rounding. *)
Lemma round2_ge_hundredths (x : Q) (k : Z) :
  inject_Z k / 100 <= x -> inject_Z k / 100 <= round2 x.
Proof.
  intros H. unfold round2.
  assert (inject_Z k <= x * 100) as Hk.
  { assert (inject_Z k == inject_Z k / 100 * 100) as E by (field; lra).
    rewrite E. lra. }
  apply Math_round_ge in Hk. rewrite Zle_Qle in Hk.
  apply Qle_shift_div_l; [lra|].
  assert (inject_Z k / 100 * 100 == inject_Z k) as -> by (field; lra).
  exact Hk.
Qed.

Lemma Qltb_true (a b : Q) : Qltb a b = true <-> a < b.
Proof.
  unfold Qltb. rewrite negb_true_iff.
  destruct (Qle_bool b a) eqn:E.
  - apply Qle_bool_iff in E. split; [discriminate | lra].
  - split; [|reflexivity]. intros _.
    destruct (Qlt_le_dec a b) as [Hlt|Hle]; [exact Hlt|].
    apply Qle_bool_iff in Hle. congruence.
Qed.

Lemma Qltb_false (a b : Q) : Qltb a b = false <-> b <= a.
Proof.
  unfold Qltb. rewrite negb_false_iff. apply Qle_bool_iff.
Qed.

(** ** Inventory simulation *)

Lemma simulate_day_stock (productName : string) (pol : InventoryPolicy)
  (stock : Q) (day : Seed.DayEntry) :
  Seed.policy_ok pol ->
  reorderPoint pol <= fst (Seed.simulate_day productName pol stock day)
  /\ stockLevel (snd (Seed.simulate_day productName pol stock day))
     = round2 (fst (Seed.simulate_day productName pol stock day))
  /\ status (snd (Seed.simulate_day productName pol stock day))
     = Seed.classify (fst (Seed.simulate_day productName pol stock day)) pol
  /\ inv_product (snd (Seed.simulate_day productName pol stock day)) = productName.
Proof.
  intros (Hmin & Hlt & Hmax). unfold Seed.simulate_day.
  destruct (Qltb (stock - Seed.de_consumed day) (reorderPoint pol)) eqn:E; simpl.
  - repeat split; lra.
  - apply Qltb_false in E. repeat split; lra.
Qed.

Lemma classify_green (stock : Q) (pol : InventoryPolicy) :
  Seed.policy_ok pol -> reorderPoint pol <= stock ->
  Seed.classify stock pol = green.
Proof.
  intros (Hmin & Hlt & Hmax) Hge. unfold Seed.classify.
  assert (Qltb stock (minStockDaily pol) = false) as ->
    by (apply Qltb_false; lra).
  assert (Qltb stock (reorderPoint pol) = false) as ->
    by (apply Qltb_false; lra).
  reflexivity.
Qed.

Lemma simulate_day_ok (productName : string) (pol : InventoryPolicy)
  (stock : Q) (day : Seed.DayEntry) :
  Seed.policy_ok pol ->
  snapshot_ok productName pol (snd (Seed.simulate_day productName pol stock day)).
Proof.
  intros Hok.
  destruct (simulate_day_stock productName pol stock day Hok)
    as (Hge & Hlevel & Hstatus & Hname).
  pose proof Hok as (Hmin & Hlt & Hmax).
  set (s := fst (Seed.simulate_day productName pol stock day)) in *.
  destruct (round2_bounds s) as [Hlo Hhi].
  unfold snapshot_ok. rewrite Hlevel, Hstatus.
  split; [exact Hname|].
  split; [apply classify_green; assumption|].
  split; [apply round2_nonneg; lra|].
  split; [lra|].
  intros k Hk. rewrite Hk. apply round2_ge_hundredths. rewrite <- Hk. exact Hge.
Qed.

Lemma simulate_days_ok (productName : string) (pol : InventoryPolicy)
  (days : list Seed.DayEntry) :
  Seed.policy_ok pol ->
  forall stock : Q,
    Forall (snapshot_ok productName pol)
           (Seed.simulate_days productName pol stock days).
Proof.
  intros Hok. induction days as [|day rest IH]; intros stock; simpl.
  - constructor.
  - pose proof (simulate_day_ok productName pol stock day Hok) as Hday.
    destruct (Seed.simulate_day productName pol stock day) as [stock' doc].
    constructor; [exact Hday | apply IH].
Qed.

(** Every emitted snapshot comes from the walk of its own product under the
    policy the configuration holds for that product. *)
Lemma seedInventory_origin (config : gmap string InventoryPolicy)
  (sales : list Sale) (d : InventoryDoc) :
  In d (Seed.seedInventory config sales) ->
  exists pol stock days,
    config !! inv_product d = Some pol
    /\ In d (Seed.simulate_days (inv_product d) pol stock days).
Proof.
  unfold Seed.seedInventory. intros Hin.
  apply in_flat_map in Hin. destruct Hin as ([p days] & _ & Hd).
  destruct (config !! p) as [pol|] eqn:Hcfg; [|contradiction].
  assert (inv_product d = p) as Hp.
  { clear Hcfg. revert Hd. generalize (maxStockDaily pol) as stock.
    induction days as [|day rest IH]; intros stock Hd; simpl in Hd.
    - contradiction.
    - destruct (Seed.simulate_day p pol stock day) as [stock' doc] eqn:E.
      destruct Hd as [<- | Hd].
      + unfold Seed.simulate_day in E.
        destruct (Qltb (stock - Seed.de_consumed day) (reorderPoint pol));
          inversion E; reflexivity.
      + eapply IH; exact Hd. }
  subst p. exists pol, (maxStockDaily pol), days. split; assumption.
Qed.

Lemma seedInventory_snapshot_ok (config : gmap string InventoryPolicy)
  (sales : list Sale) (d : InventoryDoc) (pol : InventoryPolicy) :
  In d (Seed.seedInventory config sales) ->
  config !! inv_product d = Some pol ->
  Seed.policy_ok pol ->
  snapshot_ok (inv_product d) pol d.
Proof.
  intros Hin Hcfg Hok.
  destruct (seedInventory_origin config sales d Hin)
    as (pol' & stock & days & Hcfg' & Hd).
  rewrite Hcfg in Hcfg'. inversion Hcfg'; subst pol'.
  pose proof (simulate_days_ok (inv_product d) pol days Hok stock) as Hall.
  rewrite List.Forall_forall in Hall. apply Hall. exact Hd.
Qed.

(** C6.  For a product whose policy satisfies
    [0 <= minStock < reorderPoint < maxStock], and for every transaction
    history, every snapshot of that product in the simulated series has a
    non-negative stock level. *)
Theorem seedInventory_stock_nonneg (config : gmap string InventoryPolicy)
  (sales : list Sale) (d : InventoryDoc) (pol : InventoryPolicy) :
  In d (Seed.seedInventory config sales) ->
  config !! inv_product d = Some pol ->
  Seed.policy_ok pol ->
  0 <= stockLevel d.
Proof.
  intros Hin Hcfg Hok.
  destruct (seedInventory_snapshot_ok config sales d pol Hin Hcfg Hok)
    as (_ & _ & H & _).
  exact H.
Qed.

(** C3 (amended).  Under the same invariant every emitted snapshot has status
    green; its stock level, the running stock rounded to two decimals, is
    above [reorderPoint - 0.005], and is at least [reorderPoint] when the
    reorder point is a whole number of hundredths. *)
Theorem seedInventory_always_green (config : gmap string InventoryPolicy)
  (sales : list Sale) (d : InventoryDoc) (pol : InventoryPolicy) :
  In d (Seed.seedInventory config sales) ->
  config !! inv_product d = Some pol ->
  Seed.policy_ok pol ->
  status d = green
  /\ reorderPoint pol - (1 # 200) < stockLevel d
  /\ (forall k : Z, reorderPoint pol == inject_Z k / 100 ->
      reorderPoint pol <= stockLevel d).
Proof.
  intros Hin Hcfg Hok.
  destruct (seedInventory_snapshot_ok config sales d pol Hin Hcfg Hok)
    as (_ & Hg & _ & Hlo & Hk).
  repeat split; assumption.
Qed.

(** Scenario A of the specification: stock levels 40, 20, 20, all green. *)
Example scenario_A :
  Forall2 (fun d expected => stockLevel d == expected /\ status d = green)
          (Seed.seedInventory config_A sales_A) [40; 20; 20].
Proof. vm_compute. repeat constructor. Qed.

(** The theorem on the first snapshot of scenario A. *)
Lemma seedInventory_stock_nonneg_witness :
  let d := nth 0 (Seed.seedInventory config_A sales_A) no_doc in
  In d (Seed.seedInventory config_A sales_A)
  /\ config_A !! inv_product d = Some policy_A
  /\ Seed.policy_ok policy_A
  /\ 0 <= stockLevel d.
Proof.
  intros d.
  assert (In d (Seed.seedInventory config_A sales_A)) as Hin
    by (vm_compute; left; reflexivity).
  assert (config_A !! inv_product d = Some policy_A) as Hcfg
    by (vm_compute; reflexivity).
  assert (Seed.policy_ok policy_A) as Hok
    by (vm_compute; repeat split; discriminate).
  split; [exact Hin|]. split; [exact Hcfg|]. split; [exact Hok|].
  exact (seedInventory_stock_nonneg config_A sales_A d policy_A Hin Hcfg Hok).
Defined.

(** The theorem on the second snapshot of scenario A. *)
Lemma seedInventory_always_green_witness :
  let d := nth 1 (Seed.seedInventory config_A sales_A) no_doc in
  In d (Seed.seedInventory config_A sales_A)
  /\ config_A !! inv_product d = Some policy_A
  /\ Seed.policy_ok policy_A
  /\ status d = green
  /\ reorderPoint policy_A - (1 # 200) < stockLevel d
  /\ (forall k : Z, reorderPoint policy_A == inject_Z k / 100 ->
      reorderPoint policy_A <= stockLevel d).
Proof.
  intros d.
  assert (In d (Seed.seedInventory config_A sales_A)) as Hin
    by (vm_compute; right; left; reflexivity).
  assert (config_A !! inv_product d = Some policy_A) as Hcfg
    by (vm_compute; reflexivity).
  assert (Seed.policy_ok policy_A) as Hok
    by (vm_compute; repeat split; discriminate).
  split; [exact Hin|]. split; [exact Hcfg|]. split; [exact Hok|].
  exact (seedInventory_always_green config_A sales_A d policy_A Hin Hcfg Hok).
Defined.

(** C3 as stated fails on a reorder point with a third decimal: the running
    stock 10.004 is emitted as 10, below the reorder point 10.003. *)
Lemma seedInventory_reorder_counterexample :
  let config : gmap string InventoryPolicy := {[ "Fries" := policy_fine ]} in
  let sales := [sale_of 0 "Fries" (349 # 100) 0] in
  let d := nth 0 (Seed.seedInventory config sales) no_doc in
  Seed.policy_ok policy_fine
  /\ In d (Seed.seedInventory config sales)
  /\ config !! inv_product d = Some policy_fine
  /\ ~ (reorderPoint policy_fine <= stockLevel d).
Proof.
  intros config sales d.
  split; [vm_compute; repeat split; discriminate|].
  split; [vm_compute; left; reflexivity|].
  split; [vm_compute; reflexivity|].
  vm_compute. intros H. apply H. reflexivity.
Qed.

(** ** Sums *)

Lemma fold_Qplus_acc (xs : list Q) (a : Q) :
  fold_left Qplus xs a == a + Qsum xs.
Proof.
  unfold Qsum. revert a. induction xs as [|x xs IH]; intros a; simpl.
  - ring.
  - rewrite (IH (a + x)), (IH (0 + x)). ring.
Qed.

Lemma Qsum_cons (x : Q) (xs : list Q) : Qsum (x :: xs) == x + Qsum xs.
Proof. unfold Qsum at 1. simpl. rewrite fold_Qplus_acc. ring. Qed.

Lemma Qsum_nil : Qsum [] == 0.
Proof. reflexivity. Qed.

(** ** Consumption estimator *)

Lemma group_fold_totalQty (docs : list Sale) (g : Inventory.ConsumptionGroup) :
  Inventory.totalQty (fold_left Inventory.group_step docs g)
  == Inventory.totalQty g + Qsum (map quantity docs).
Proof.
  revert g. induction docs as [|s docs IH]; intros g; simpl.
  - rewrite Qsum_nil. ring.
  - rewrite IH, Qsum_cons. simpl. ring.
Qed.

Lemma group_fold_dayCount (docs : list Sale) (g : Inventory.ConsumptionGroup) :
  Inventory.dayCount (fold_left Inventory.group_step docs g)
  = Inventory.dayCount g ∪ list_to_set (map date docs).
Proof.
  revert g. induction docs as [|s docs IH]; intros g; simpl.
  - set_solver.
  - rewrite IH. simpl. set_solver.
Qed.

Lemma date_only_day_inj (a b : Z) :
  (a mod MS_PER_DAY = 0)%Z -> (b mod MS_PER_DAY = 0)%Z ->
  day_of a = day_of b -> a = b.
Proof.
  unfold day_of, MS_PER_DAY. intros Ha Hb Hd.
  rewrite (Z.div_mod a 86400000), (Z.div_mod b 86400000) by lia.
  rewrite Ha, Hb, Hd. reflexivity.
Qed.

Lemma elem_of_dates (docs : list Sale) (f : Sale -> Z) (x : Z) :
  x ∈ (list_to_set (map f docs) : gset Z) <-> exists s, In s docs /\ f s = x.
Proof.
  rewrite elem_of_list_to_set, list_elem_of_In, in_map_iff.
  split; intros (s & H1 & H2); exists s; tauto.
Qed.

(** With dates that carry no time of day, the distinct dates are as many as
    the distinct days. *)
Lemma distinct_dates_days (docs : list Sale) :
  Forall Inventory.date_only docs ->
  size (list_to_set (map date docs) : gset Z)
  = Inventory.distinctDaysWithSale docs.
Proof.
  unfold Inventory.distinctDaysWithSale.
  induction docs as [|s docs IH]; intros Hall; simpl.
  - reflexivity.
  - inversion Hall as [|? ? Hs Hrest]; subst.
    specialize (IH Hrest).
    destruct (decide (date s ∈ (list_to_set (map date docs) : gset Z)))
      as [Hin|Hnin].
    + assert (day_of (date s)
              ∈ (list_to_set (map (fun s => day_of (date s)) docs) : gset Z))
        as Hin'.
      { apply elem_of_dates in Hin. destruct Hin as (s' & Hs' & E).
        apply elem_of_dates. exists s'. split; [exact Hs'|]. now rewrite E. }
      rewrite !subseteq_union_1_L by set_solver. exact IH.
    + assert (day_of (date s)
              ∉ (list_to_set (map (fun s => day_of (date s)) docs) : gset Z))
        as Hnin'.
      { intros Hin'. apply Hnin. apply elem_of_dates in Hin'.
        destruct Hin' as (s' & Hs' & E). apply elem_of_dates.
        exists s'. split; [exact Hs'|].
        rewrite List.Forall_forall in Hrest.
        apply date_only_day_inj; [apply Hrest, Hs' | exact Hs | exact E]. }
      rewrite !size_union by set_solver.
      rewrite !size_singleton, IH. reflexivity.
Qed.

(** C2 (amended).  With date-only timestamps, the estimator returns the total
    quantity sold in the window divided by the number of distinct days with a
    sale, rounded to the nearest integer ([Math.round]); it returns 0 when
    the window holds no sale. *)
Theorem getAvgDailyConsumption_rounded (sales : list Sale) (now : Z)
  (productName : string) (lookbackDays : Z) :
  Forall Inventory.date_only sales ->
  Inventory.getAvgDailyConsumption sales now productName lookbackDays
  = Math_round (Inventory.spec_consumption sales now productName lookbackDays)
  /\ (Inventory.window sales now productName lookbackDays = [] ->
      Inventory.getAvgDailyConsumption sales now productName lookbackDays = 0%Z).
Proof.
  intros Hall.
  unfold Inventory.getAvgDailyConsumption, Inventory.aggregate_consumption,
    Inventory.spec_consumption, Inventory.window.
  set (w := List.filter
              (Inventory.matches productName
                 (Inventory.startDate now lookbackDays)) sales).
  assert (Forall Inventory.date_only w) as Hw.
  { rewrite List.Forall_forall in *. intros s Hs. apply Hall.
    unfold w in Hs. apply filter_In in Hs. tauto. }
  clearbody w. destruct w as [|s w]; [split; reflexivity|].
  split; [|discriminate].
  set (docs := s :: w) in *.
  set (g := fold_left Inventory.group_step docs
              {| Inventory.totalQty := 0; Inventory.dayCount := ∅ |}).
  assert (Inventory.dayCount g = list_to_set (map date docs)) as Hdays.
  { unfold g. rewrite group_fold_dayCount. simpl. set_solver. }
  assert (Inventory.totalQty g == Inventory.totalQuantitySold docs) as Hqty.
  { unfold g, Inventory.totalQuantitySold. rewrite group_fold_totalQty.
    simpl. ring. }
  rewrite Hdays, (distinct_dates_days docs Hw).
  assert (Inventory.distinctDaysWithSale docs <> 0%nat) as Hpos.
  { rewrite <- (distinct_dates_days docs Hw). unfold docs. simpl.
    intros Hz. apply size_empty_inv in Hz. set_solver. }
  destruct (Nat.eqb_spec (Inventory.distinctDaysWithSale docs) 0);
    [contradiction|].
  apply Math_round_comp. rewrite Hqty. reflexivity.
Qed.

(** The theorem on one and two units sold on two days. *)
Lemma getAvgDailyConsumption_rounded_witness :
  Forall Inventory.date_only sales_two_days
  /\ Inventory.getAvgDailyConsumption sales_two_days (2 * MS_PER_DAY) "Fries" 30
     = Math_round
         (Inventory.spec_consumption sales_two_days (2 * MS_PER_DAY) "Fries" 30).
Proof.
  assert (Forall Inventory.date_only sales_two_days) as H
    by (repeat constructor).
  split; [exact H|].
  exact (proj1 (getAvgDailyConsumption_rounded sales_two_days
                  (2 * MS_PER_DAY) "Fries" 30 H)).
Defined.

(** C2 as stated fails: 1 and 2 units on two days give 2, not 3/2. *)
Lemma getAvgDailyConsumption_counterexample :
  Inventory.spec_consumption sales_two_days (2 * MS_PER_DAY) "Fries" 30 == 3 # 2
  /\ Inventory.getAvgDailyConsumption sales_two_days (2 * MS_PER_DAY) "Fries" 30
     = 2%Z
  /\ ~ (inject_Z (Inventory.getAvgDailyConsumption sales_two_days
                    (2 * MS_PER_DAY) "Fries" 30)
        == Inventory.spec_consumption sales_two_days (2 * MS_PER_DAY) "Fries" 30).
Proof.
  split; [vm_compute; reflexivity|].
  split; [vm_compute; reflexivity|].
  vm_compute. discriminate.
Qed.

(** ** Online inventory check *)

(** The cap of the reported value. *)
Lemma report_capped (sales : list Sale) (latestInventory : list InventoryDoc)
  (now : Z) (prod : Inventory.ProductDoc) :
  (Inventory.days_until_stockout
     (Inventory.report sales latestInventory now prod) <= 999)%Z.
Proof. unfold Inventory.report. simpl. apply Z.le_min_r. Qed.

(** C7 (amended).  In a product's report the days until stockout are 999 when
    the average daily consumption is 0; when it is positive they are
    [stock / average] rounded to the nearest integer and capped at 999; the
    reported value never exceeds 999. *)
Theorem days_until_stockout_capped (sales : list Sale)
  (latestInventory : list InventoryDoc) (now : Z) (prod : Inventory.ProductDoc) :
  let r := Inventory.report sales latestInventory now prod in
  (Inventory.avg_daily_consumption r = 0%Z ->
   Inventory.days_until_stockout r = 999%Z)
  /\ ((0 < Inventory.avg_daily_consumption r)%Z ->
      Inventory.days_until_stockout r
      = Z.min (Math_round (Inventory.stock_level r
                           / inject_Z (Inventory.avg_daily_consumption r)))
              999)
  /\ (Inventory.days_until_stockout r <= 999)%Z.
Proof.
  unfold Inventory.report. cbn zeta. simpl.
  set (avg := Inventory.getAvgDailyConsumption sales now (Inventory.name prod) 30).
  split; [|split].
  - intros ->. reflexivity.
  - intros Hpos. apply Z.ltb_lt in Hpos. rewrite Hpos. reflexivity.
  - apply Z.le_min_r.
Qed.

(** The theorem on 10 units at 3 units a day. *)
Lemma days_until_stockout_capped_witness :
  let r := Inventory.report sales_three [snapshot_ten] MS_PER_DAY fries_doc in
  (0 < Inventory.avg_daily_consumption r)%Z
  /\ Inventory.days_until_stockout r
     = Z.min (Math_round (Inventory.stock_level r
                          / inject_Z (Inventory.avg_daily_consumption r)))
             999.
Proof.
  intros r.
  assert (0 < Inventory.avg_daily_consumption r)%Z as H
    by (vm_compute; reflexivity).
  split; [exact H|].
  exact (proj1 (proj2 (days_until_stockout_capped sales_three [snapshot_ten]
                         MS_PER_DAY fries_doc)) H).
Defined.

(** The handler reports every selected product this way, so no report holds
    more than 999 days. *)
Lemma handleCheckInventory_capped (products : list Inventory.ProductDoc)
  (sales : list Sale) (snapshots : list InventoryDoc) (now : Z)
  (product_arg : option string) (reports : list Inventory.ProductReport) :
  Inventory.handleCheckInventory products sales snapshots now product_arg
  = Some reports ->
  Forall (fun r => (Inventory.days_until_stockout r <= 999)%Z) reports.
Proof.
  unfold Inventory.handleCheckInventory.
  cbv zeta.
  match goal with |- context [map _ ?l] => generalize l end.
  intros l H. destruct l as [|p l]; [discriminate|].
  inversion H; subst. apply List.Forall_forall. intros r Hr.
  match type of Hr with
  | In _ (?f p :: map ?f l) => change (In r (map f (p :: l))) in Hr
  end.
  apply in_map_iff in Hr. destruct Hr as (prod & <- & _).
  apply report_capped.
Qed.

(** C7 as stated fails: 10 units at 3 units a day are reported as 3 days,
    not 10/3. *)
Lemma days_until_stockout_counterexample :
  let r := Inventory.report sales_three [snapshot_ten] MS_PER_DAY fries_doc in
  Inventory.stock_level r == 10
  /\ Inventory.avg_daily_consumption r = 3%Z
  /\ Inventory.days_until_stockout r = 3%Z
  /\ ~ (inject_Z (Inventory.days_until_stockout r)
        == Inventory.stock_level r
           / inject_Z (Inventory.avg_daily_consumption r)).
Proof.
  intros r. vm_compute. repeat split; discriminate.
Qed.

(** Scenario B of the specification: no sale in the window, 999 days. *)
Example scenario_B :
  let r := Inventory.report [] [snapshot_ten] MS_PER_DAY fries_doc in
  Inventory.avg_daily_consumption r = 0%Z
  /\ Inventory.days_until_stockout r = 999%Z.
Proof. vm_compute. split; reflexivity. Qed.

(** ** Sales analytics *)

Lemma mongo_round0_bounds (x : Q) :
  x - (1 # 2) <= inject_Z (mongo_round0 x)
  /\ inject_Z (mongo_round0 x) <= x + (1 # 2).
Proof.
  unfold mongo_round0.
  pose proof (Qfloor_le x) as Hle.
  pose proof (Qlt_floor x) as Hlt.
  rewrite inject_Z_plus in Hlt. change (inject_Z 1) with 1 in Hlt.
  destruct (Qcompare (x - inject_Z (Qfloor x)) (1 # 2)) eqn:E.
  - apply Qeq_alt in E.
    destruct (Z.even (Qfloor x)).
    + split; lra.
    + rewrite inject_Z_plus. change (inject_Z 1) with 1. split; lra.
  - apply Qlt_alt in E. split; lra.
  - apply Qgt_alt in E. rewrite inject_Z_plus. change (inject_Z 1) with 1.
    split; lra.
Qed.

Lemma mongo_round2_bounds (x : Q) :
  x - (1 # 200) <= mongo_round2 x /\ mongo_round2 x <= x + (1 # 200).
Proof.
  unfold mongo_round2.
  destruct (mongo_round0_bounds (x * 100)) as [Hlo Hhi].
  set (r := inject_Z (mongo_round0 (x * 100))) in *.
  split.
  - apply Qle_shift_div_l; lra.
  - apply Qle_shift_div_r; lra.
Qed.

Lemma Qlen_cons {A : Type} (a : A) (l : list A) : Qlen (a :: l) == Qlen l + 1.
Proof.
  unfold Qlen. simpl length. rewrite Nat2Z.inj_succ, <- Z.add_1_r.
  rewrite inject_Z_plus. reflexivity.
Qed.

(** Terms that are pairwise within [e] have sums within [n * e]. *)
Lemma Qsum_map_close {A : Type} (f g : A -> Q) (e : Q) (l : list A) :
  (forall a, g a - e <= f a /\ f a <= g a + e) ->
  Qsum (map g l) - Qlen l * e <= Qsum (map f l)
  /\ Qsum (map f l) <= Qsum (map g l) + Qlen l * e.
Proof.
  intros H. induction l as [|a l [IHlo IHhi]]; cbn [map].
  - assert (Qlen (@nil A) * e == 0) as E0 by (unfold Qlen; simpl; ring).
    pose proof Qsum_nil as En. split; lra.
  - destruct (H a) as [Hlo Hhi].
    pose proof (Qsum_cons (f a) (map f l)) as Ef.
    pose proof (Qsum_cons (g a) (map g l)) as Eg.
    pose proof (Qlen_cons a l) as El.
    assert (Qlen (a :: l) * e == Qlen l * e + e) as Em by (rewrite El; ring).
    split; lra.
Qed.

Lemma Qsum_map_ext {A : Type} (f g : A -> Q) (l : list A) :
  (forall a, f a == g a) -> Qsum (map f l) == Qsum (map g l).
Proof.
  intros H. induction l as [|a l IH]; simpl; [reflexivity|].
  rewrite !Qsum_cons, IH, (H a). reflexivity.
Qed.

Lemma Qsum_map_scale {A : Type} (f : A -> Q) (c : Q) (l : list A) :
  Qsum (map (fun a => f a * c) l) == Qsum (map f l) * c.
Proof.
  induction l as [|a l IH]; simpl.
  - rewrite !Qsum_nil. ring.
  - rewrite !Qsum_cons, IH. ring.
Qed.

Lemma overview_fold_revenue (docs : list Sale) (a : Analytics.OverviewGroup) :
  Analytics.totalRevenue (fold_left Analytics.overview_step docs a)
  == Analytics.totalRevenue a + Qsum (map line_revenue docs).
Proof.
  revert a. induction docs as [|s docs IH]; intros a; simpl.
  - rewrite Qsum_nil. ring.
  - rewrite IH, Qsum_cons. simpl. unfold line_revenue. ring.
Qed.

Lemma group_add_revenue (key : Sale -> string) (s : Sale)
  (gs : list Analytics.Group) :
  Qsum (map Analytics.g_revenue (Analytics.group_add key s gs))
  == Qsum (map Analytics.g_revenue gs) + line_revenue s.
Proof.
  induction gs as [|g gs IH]; simpl.
  - rewrite Qsum_cons, !Qsum_nil. unfold line_revenue. simpl. ring.
  - destruct (String.eqb (key s) (Analytics.g_id g)); simpl.
    + rewrite !Qsum_cons. simpl. unfold line_revenue. ring.
    + rewrite !Qsum_cons, IH. ring.
Qed.

Lemma group_fold_revenue (key : Sale -> string) (docs : list Sale)
  (gs : list Analytics.Group) :
  Qsum (map Analytics.g_revenue
          (fold_left (fun gs s => Analytics.group_add key s gs) docs gs))
  == Qsum (map Analytics.g_revenue gs) + Qsum (map line_revenue docs).
Proof.
  revert gs. induction docs as [|s docs IH]; intros gs; simpl.
  - rewrite Qsum_nil. ring.
  - rewrite IH, group_add_revenue, Qsum_cons. ring.
Qed.

(** Grouping loses no revenue: the groups' revenues add up to the total of
    the line revenues. *)
Lemma group_by_revenue (key : Sale -> string) (docs : list Sale) :
  Qsum (map Analytics.g_revenue (Analytics.group_by key docs))
  == Qsum (map line_revenue docs).
Proof.
  unfold Analytics.group_by. rewrite group_fold_revenue, Qsum_nil. ring.
Qed.

Lemma insert_desc_sum (f h : Analytics.Group -> Q) (g : Analytics.Group)
  (gs : list Analytics.Group) :
  Qsum (map h (Analytics.insert_desc f g gs)) == h g + Qsum (map h gs).
Proof.
  induction gs as [|g' gs IH]; simpl.
  - rewrite Qsum_cons. reflexivity.
  - destruct (Qltb (f g') (f g)); simpl.
    + rewrite !Qsum_cons. reflexivity.
    + rewrite !Qsum_cons, IH. ring.
Qed.

Lemma sort_desc_sum (f h : Analytics.Group -> Q) (gs : list Analytics.Group) :
  Qsum (map h (Analytics.sort_desc f gs)) == Qsum (map h gs).
Proof.
  induction gs as [|g gs IH]; simpl; [reflexivity|].
  rewrite insert_desc_sum, Qsum_cons, IH. reflexivity.
Qed.

Lemma with_pct_revenue (rs : list Analytics.Row) :
  map Analytics.revenue (Analytics.with_pct rs) = map Analytics.revenue rs.
Proof.
  unfold Analytics.with_pct. rewrite map_map. apply map_ext. reflexivity.
Qed.

Lemma with_pct_pos (rs : list Analytics.Row) :
  0 < Qsum (map Analytics.revenue rs) ->
  map Analytics.revenue_pct (Analytics.with_pct rs)
  = map (fun r => round1 (Analytics.revenue r
                          / Qsum (map Analytics.revenue rs) * 100)) rs.
Proof.
  intros Hpos. unfold Analytics.with_pct. rewrite map_map.
  apply Qltb_true in Hpos. apply map_ext. intros r. simpl.
  rewrite Hpos. reflexivity.
Qed.

Lemma with_pct_nonpos (rs : list Analytics.Row) :
  Qsum (map Analytics.revenue rs) <= 0 ->
  Forall (fun r => Analytics.revenue_pct r = 0) (Analytics.with_pct rs).
Proof.
  intros Hle. unfold Analytics.with_pct. apply Qltb_false in Hle.
  apply List.Forall_forall. intros r Hr. apply in_map_iff in Hr.
  destruct Hr as (r0 & <- & _). simpl. rewrite Hle. reflexivity.
Qed.

(** The shares of the rows add up to 100, up to the rounding of each share
    to one decimal. *)
Lemma with_pct_sum (rs : list Analytics.Row) :
  0 < Qsum (map Analytics.revenue rs) ->
  100 - Qlen rs * (1 # 20)
  <= Qsum (map Analytics.revenue_pct (Analytics.with_pct rs))
  /\ Qsum (map Analytics.revenue_pct (Analytics.with_pct rs))
     <= 100 + Qlen rs * (1 # 20).
Proof.
  intros Hpos. rewrite (with_pct_pos rs Hpos).
  set (T := Qsum (map Analytics.revenue rs)) in *.
  pose proof (Qsum_map_close
                (fun r => round1 (Analytics.revenue r / T * 100))
                (fun r => Analytics.revenue r / T * 100) (1 # 20) rs) as Hclose.
  destruct Hclose as [Hlo Hhi].
  { intros r. destruct (round1_bounds (Analytics.revenue r / T * 100)).
    split; lra. }
  assert (Qsum (map (fun r => Analytics.revenue r / T * 100) rs) == 100) as E.
  { rewrite (Qsum_map_ext _ (fun r => Analytics.revenue r * (/ T * 100)))
      by (intros r; unfold Qdiv; ring).
    rewrite Qsum_map_scale. fold T. field. lra. }
  rewrite E in Hlo, Hhi. split; assumption.
Qed.

(** The rows of a grouped breakdown carry the rounded revenues of the
    groups, so their sum is within half a cent per row of the total of the
    line revenues. *)
Lemma rows_revenue_close (withAvg : bool) (key : Sale -> string)
  (docs : list Sale) :
  let rows := Analytics.with_pct
                (map (Analytics.project withAvg)
                   (Analytics.sort_desc Analytics.g_revenue
                      (Analytics.group_by key docs))) in
  Qsum (map line_revenue docs) - Qlen rows * (1 # 200)
  <= Qsum (map Analytics.revenue rows)
  /\ Qsum (map Analytics.revenue rows)
     <= Qsum (map line_revenue docs) + Qlen rows * (1 # 200).
Proof.
  intros rows. unfold rows. rewrite with_pct_revenue, map_map.
  unfold Qlen, Analytics.with_pct. rewrite !length_map. fold (Qlen (Analytics.sort_desc Analytics.g_revenue (Analytics.group_by key docs))).
  set (sorted := Analytics.sort_desc Analytics.g_revenue
                   (Analytics.group_by key docs)).
  pose proof (Qsum_map_close
                (fun g => Analytics.revenue (Analytics.project withAvg g))
                Analytics.g_revenue (1 # 200) sorted) as Hclose.
  destruct Hclose as [Hlo Hhi].
  { intros g. simpl. destruct (mongo_round2_bounds (Analytics.g_revenue g)).
    split; lra. }
  assert (Qsum (map Analytics.g_revenue sorted) == Qsum (map line_revenue docs))
    as E.
  { unfold sorted. rewrite sort_desc_sum. apply group_by_revenue. }
  rewrite E in Hlo, Hhi. split; assumption.
Qed.

Lemma getOverview_total (sales : list Sale) (dateFilter : option Z) :
  List.filter (Analytics.matchDate dateFilter) sales <> [] ->
  Analytics.total_revenue (Analytics.getOverview sales dateFilter)
  == mongo_round2
       (Qsum (map line_revenue
                (List.filter (Analytics.matchDate dateFilter) sales))).
Proof.
  unfold Analytics.getOverview.
  set (docs := List.filter (Analytics.matchDate dateFilter) sales).
  intros Hne. destruct docs as [|s docs]; [contradiction|].
  cbn [Analytics.total_revenue].
  unfold mongo_round2, Analytics.overview_group.
  assert (forall x y, x == y -> mongo_round0 x = mongo_round0 y) as Hcomp.
  { intros x y Hxy. unfold mongo_round0.
    rewrite (Qfloor_comp _ _ Hxy).
    assert (Qcompare (x - inject_Z (Qfloor y)) (1 # 2)
            = Qcompare (y - inject_Z (Qfloor y)) (1 # 2)) as ->
      by (apply Qcompare_comp; [rewrite Hxy|]; reflexivity).
    reflexivity. }
  rewrite (Hcomp _ (Qsum (map line_revenue (s :: docs)) * 100)).
  - reflexivity.
  - rewrite overview_fold_revenue. simpl. ring.
Qed.

(** C4 (amended).  For a non-empty filtered transaction set, the by_product
    revenues add up to the overview's total revenue up to the two-decimal
    rounding of each row and of the total (half a cent each); when that sum
    is positive the revenue shares add up to 100 up to the one-decimal
    rounding of each share (0.05 each), and otherwise every share is 0. *)
Theorem revenue_identities_rounded (sales : list Sale) (dateFilter : option Z) :
  List.filter (Analytics.matchDate dateFilter) sales <> [] ->
  let rows := Analytics.getByProduct sales dateFilter in
  let total := Qsum (map Analytics.revenue rows) in
  Qabs (total - Analytics.total_revenue (Analytics.getOverview sales dateFilter))
  <= (Qlen rows + 1) * (1 # 200)
  /\ (0 < total ->
      Qabs (Qsum (map Analytics.revenue_pct rows) - 100) <= Qlen rows * (1 # 20))
  /\ (total <= 0 -> Forall (fun r => Analytics.revenue_pct r = 0) rows).
Proof.
  intros Hne rows total.
  pose proof (getOverview_total sales dateFilter Hne) as Hov.
  set (docs := List.filter (Analytics.matchDate dateFilter) sales) in *.
  assert (Qsum (map line_revenue docs) - Qlen rows * (1 # 200) <= total
          /\ total <= Qsum (map line_revenue docs) + Qlen rows * (1 # 200))
    as [Hlo Hhi] by exact (rows_revenue_close true product docs).
  destruct (mongo_round2_bounds (Qsum (map line_revenue docs))) as [Rlo Rhi].
  split; [|split].
  - apply Qabs_Qle_condition. rewrite Hov. split; lra.
  - intros Hpos. unfold total, rows, Analytics.getByProduct in Hpos.
    rewrite with_pct_revenue in Hpos.
    destruct (with_pct_sum _ Hpos) as [Plo Phi].
    assert (Qlen rows
            == Qlen (map (Analytics.project true)
                       (Analytics.sort_desc Analytics.g_revenue
                          (Analytics.group_by product docs)))) as El.
    { unfold rows, Analytics.getByProduct, Analytics.with_pct, Qlen.
      rewrite length_map. reflexivity. }
    apply Qabs_Qle_condition. rewrite El.
    unfold rows, Analytics.getByProduct, docs in *. split; lra.
  - intros Hle. unfold total, rows, Analytics.getByProduct in Hle.
    rewrite with_pct_revenue in Hle.
    apply with_pct_nonpos. exact Hle.
Qed.

(** The theorem on the sales of scenario A, without date filter. *)
Lemma revenue_identities_rounded_witness :
  List.filter (Analytics.matchDate None) sales_A <> []
  /\ (let rows := Analytics.getByProduct sales_A None in
      let total := Qsum (map Analytics.revenue rows) in
      Qabs (total - Analytics.total_revenue (Analytics.getOverview sales_A None))
      <= (Qlen rows + 1) * (1 # 200)
      /\ (0 < total ->
          Qabs (Qsum (map Analytics.revenue_pct rows) - 100)
          <= Qlen rows * (1 # 20))
      /\ (total <= 0 -> Forall (fun r => Analytics.revenue_pct r = 0) rows)).
Proof.
  assert (List.filter (Analytics.matchDate None) sales_A <> []) as H
    by (vm_compute; discriminate).
  split; [exact H|].
  exact (revenue_identities_rounded sales_A None H).
Defined.

(** C4 as stated fails: two products with a line revenue of 0.004 each give
    rows of 0.00 and 0.00, an overview total of 0.01, and shares of 0. *)
Lemma revenue_identities_counterexample :
  let rows := Analytics.getByProduct sales_tiny None in
  List.filter (Analytics.matchDate None) sales_tiny <> []
  /\ ~ (Qsum (map Analytics.revenue rows)
        == Analytics.total_revenue (Analytics.getOverview sales_tiny None))
  /\ ~ (Qabs (Qsum (map Analytics.revenue_pct rows) - 100)
        <= Qlen rows * (1 # 20)).
Proof.
  intros rows.
  split; [vm_compute; discriminate|].
  split; vm_compute.
  - discriminate.
  - intros H. apply H. reflexivity.
Qed.

(** ** Profit engine *)

(** The three amounts of a row are rounded one by one, so the reported
    profit and the difference of the reported amounts are at most one cent
    apart. *)
Lemma round2_difference (a b : Q) :
  Qabs (round2 (a - b) - (round2 a - round2 b)) <= 1 # 100.
Proof.
  unfold round2.
  destruct (Math_round_bounds ((a - b) * 100)) as [Glo Ghi].
  destruct (Math_round_bounds (a * 100)) as [Alo Ahi].
  destruct (Math_round_bounds (b * 100)) as [Blo Bhi].
  set (G := Math_round ((a - b) * 100)) in *.
  set (A := Math_round (a * 100)) in *.
  set (B := Math_round (b * 100)) in *.
  assert (-2 < G + - A + B < 2)%Z as [Hlo Hhi].
  { split; rewrite Zlt_Qlt, !inject_Z_plus, inject_Z_opp;
      [change (inject_Z (-2)) with (-2) | change (inject_Z 2) with 2]; lra. }
  assert (-1 <= G + - A + B <= 1)%Z as [Hlo' Hhi'] by lia.
  rewrite Zle_Qle, !inject_Z_plus, inject_Z_opp in Hlo', Hhi'.
  change (inject_Z (-1)) with (-1) in Hlo'.
  change (inject_Z 1) with 1 in Hhi'.
  apply Qabs_Qle_condition.
  assert (inject_Z G / 100 - (inject_Z A / 100 - inject_Z B / 100)
          == (inject_Z G - inject_Z A + inject_Z B) / 100) as -> by field.
  split.
  - apply Qle_shift_div_l; lra.
  - apply Qle_shift_div_r; lra.
Qed.

Lemma profit_row_identity (costMap : gmap string Profit.Cost)
  (item : Analytics.Group) :
  let r := Profit.profit_row costMap item in
  Qabs (Profit.gross_profit r - (Profit.revenue r - Profit.cost_of_goods r))
  <= 1 # 100
  /\ (Analytics.g_revenue item <= 0 -> Profit.margin_percent r == 0).
Proof.
  unfold Profit.profit_row. cbn zeta. simpl. split.
  - apply round2_difference.
  - intros Hle. apply Qltb_false in Hle. rewrite Hle. reflexivity.
Qed.

(** C5 (amended).  In every row of the per-product breakdown the reported
    gross profit equals the reported revenue minus the reported cost of goods
    up to one cent (each of the three is rounded to two decimals on its own);
    and the margin percent is 0 whenever the product's revenue, as summed
    before rounding, is 0. *)
Theorem breakdown_profit_identity (sales : list Sale) (f : Profit.ProfitFilter)
  (costMap : gmap string Profit.Cost) :
  Forall (fun r =>
            Qabs (Profit.gross_profit r
                  - (Profit.revenue r - Profit.cost_of_goods r)) <= 1 # 100)
         (Profit.getProductProfitBreakdown sales f costMap)
  /\ Forall (fun item =>
               Analytics.g_revenue item == 0 ->
               Profit.margin_percent (Profit.profit_row costMap item) == 0)
            (Profit.salesByProduct sales f).
Proof.
  unfold Profit.getProductProfitBreakdown. split.
  - apply List.Forall_forall. intros r Hr. apply in_map_iff in Hr.
    destruct Hr as (item & <- & _). apply (profit_row_identity costMap item).
  - apply List.Forall_forall. intros item _ Hz.
    apply (profit_row_identity costMap item). rewrite Hz. apply Qle_refl.
Qed.

(** The theorem on a product sold at quantity 0. *)
Lemma breakdown_profit_identity_witness :
  let costMap := Profit.getCostMap products_small in
  let item := nth 0 (Profit.salesByProduct sales_zero
                       (Profit.buildFilter 0 0 "all")) no_group in
  Analytics.g_revenue item == 0
  /\ Profit.margin_percent (Profit.profit_row costMap item) == 0.
Proof.
  intros costMap item.
  assert (Analytics.g_revenue item == 0) as H by reflexivity.
  split; [exact H|].
  exact (List.Forall_inv
           (proj2 (breakdown_profit_identity sales_zero
                     (Profit.buildFilter 0 0 "all") costMap)
            : Forall _ (item :: [])) H).
Defined.

(** C5 as stated fails: a revenue of 0.004 against a cost of 0.006 is
    reported as revenue 0.00, cost 0.01 and profit 0.00, with a margin of
    -50 percent beside the reported revenue 0.00. *)
Lemma breakdown_profit_counterexample :
  let breakdown :=
    Profit.getProductProfitBreakdown sales_small (Profit.buildFilter 0 0 "all")
      (Profit.getCostMap products_small) in
  let r := nth 0 breakdown no_row in
  In r breakdown
  /\ ~ (Profit.gross_profit r == Profit.revenue r - Profit.cost_of_goods r)
  /\ Profit.revenue r == 0
  /\ ~ (Profit.margin_percent r == 0).
Proof.
  intros breakdown r.
  split; [vm_compute; left; reflexivity|].
  vm_compute. repeat split; discriminate.
Qed.

(** ** Fallback forecast *)

Lemma daily_add_nonempty (s : Sale) (ds : list Forecast.Daily) :
  Forecast.daily_add s ds <> [].
Proof.
  destruct ds as [|d ds]; simpl; [discriminate|].
  destruct (day_of (date s) =? Forecast.d_date d)%Z; discriminate.
Qed.

Lemma daily_fold_nonempty (docs : list Sale) (ds : list Forecast.Daily) :
  docs <> [] \/ ds <> [] ->
  fold_left (fun ds s => Forecast.daily_add s ds) docs ds <> [].
Proof.
  revert ds. induction docs as [|s docs IH]; intros ds H; simpl.
  - destruct H as [H|H]; [contradiction | exact H].
  - apply IH. right. apply daily_add_nonempty.
Qed.

Lemma insert_daily_nonempty (d : Forecast.Daily) (ds : list Forecast.Daily) :
  Forecast.insert_daily d ds <> [].
Proof.
  destruct ds as [|h ds]; simpl; [discriminate|].
  destruct (Forecast.d_date d <? Forecast.d_date h)%Z; discriminate.
Qed.

(** A sale inside the 30-day window gives at least one daily total. *)
Lemma dailyData_nonempty (sales : list Sale) (now : Z) (product_arg : string) :
  List.filter (Forecast.matchFilter (now - 30 * MS_PER_DAY) product_arg) sales
  <> [] ->
  Forecast.dailyData sales now product_arg <> [].
Proof.
  intros Hne. unfold Forecast.dailyData.
  pose proof (daily_fold_nonempty _ [] (or_introl Hne)) as Hfold.
  destruct (fold_left _ _ _) as [|d ds]; [contradiction|].
  simpl. apply insert_daily_nonempty.
Qed.

Lemma totalPredQty_sum (ps : list Forecast.Prediction) :
  Forecast.totalPredQty ps = quantity_sum ps.
Proof.
  unfold Forecast.totalPredQty, quantity_sum.
  assert (forall a,
            fold_left (fun s p => (s + Forecast.predicted_quantity p)%Z) ps a
            = (a + fold_right Z.add 0 (map Forecast.predicted_quantity ps))%Z)
    as H.
  { induction ps as [|p ps IH]; intros a; simpl; [lia|]. rewrite IH. lia. }
  rewrite H. lia.
Qed.

(** C8.  For a horizon [N >= 1] and a non-empty 30-day history, whatever the
    random draws, the fallback returns a forecast whose [daily_forecast] has
    exactly [N] entries, each with a non-negative [predicted_quantity], and
    whose [total_predicted_quantity] is the sum of these quantities. *)
Theorem fallback_forecast_shape (tz : Z) (random : nat -> Q)
  (sales : list Sale) (now : Z) (product_arg : string) (N : Z) :
  (1 <= N)%Z ->
  List.filter (Forecast.matchFilter (now - 30 * MS_PER_DAY) product_arg) sales
  <> [] ->
  exists summary daily_forecast,
    Forecast.movingAverageFallback tz random sales now product_arg N
    = Returned (Forecast.FallbackForecast product_arg N summary daily_forecast)
    /\ Z.of_nat (length daily_forecast) = N
    /\ Forall (fun p => (0 <= Forecast.predicted_quantity p)%Z) daily_forecast
    /\ Forecast.total_predicted_quantity summary = quantity_sum daily_forecast.
Proof.
  intros HN Hne. apply dailyData_nonempty in Hne.
  unfold Forecast.movingAverageFallback.
  destruct (Forecast.dailyData sales now product_arg) as [|d ds] eqn:Hdata;
    [contradiction|].
  cbv zeta.
  match goal with
  | |- context [map ?f (seq 1 (Z.to_nat N))] => set (step := f)
  end.
  destruct (Z.to_nat N) as [|n] eqn:Hn; [lia|].
  cbn [seq map].
  eexists. eexists. split; [reflexivity|].
  split; [|split].
  - cbn [length]. rewrite length_map, length_seq. lia.
  - apply List.Forall_forall. intros p Hp.
    change (step 1%nat :: map step (seq 2 n)) with (map step (1%nat :: seq 2 n))
      in Hp.
    apply in_map_iff in Hp. destruct Hp as (i & <- & _).
    unfold step, Forecast.predict. cbn [Forecast.predicted_quantity].
    apply Z.le_max_l.
  - cbn [Forecast.total_predicted_quantity]. apply totalPredQty_sum.
Qed.

(** The theorem on scenario A, three days ahead, every draw being 1/2. *)
Lemma fallback_forecast_shape_witness :
  (1 <= 3)%Z
  /\ List.filter (Forecast.matchFilter (3 * MS_PER_DAY - 30 * MS_PER_DAY) "Fries")
       sales_A <> []
  /\ exists summary daily_forecast,
       Forecast.movingAverageFallback 0 (fun _ => 1 # 2) sales_A
         (3 * MS_PER_DAY) "Fries" 3
       = Returned (Forecast.FallbackForecast "Fries" 3 summary daily_forecast)
       /\ Z.of_nat (length daily_forecast) = 3%Z
       /\ Forall (fun p => (0 <= Forecast.predicted_quantity p)%Z) daily_forecast
       /\ Forecast.total_predicted_quantity summary = quantity_sum daily_forecast.
Proof.
  assert (1 <= 3)%Z as H1 by lia.
  assert (List.filter
            (Forecast.matchFilter (3 * MS_PER_DAY - 30 * MS_PER_DAY) "Fries")
            sales_A <> []) as H2 by (vm_compute; discriminate).
  split; [exact H1|]. split; [exact H2|].
  exact (fallback_forecast_shape 0 (fun _ => 1 # 2) sales_A (3 * MS_PER_DAY)
           "Fries" 3 H1 H2).
Defined.

(** ** Primary path and fallback *)



(** Scenario C of the specification: after a timeout the result is the
    fallback forecast with exactly [days_ahead] entries. *)
Example scenario_C :
  exists summary daily_forecast,
    Forecast.f_payload (Z * Z)
      (Forecast.handleForecastDemand 0 (fun _ => 1 # 2) Z (Z * Z)
         (fun _ _ f p => (f, p)) sales_A (3 * MS_PER_DAY) "Fries" 3
         (Forecast.Rejected true) (Forecast.Rejected true))
    = Forecast.Fallback (Z * Z)
        (Forecast.FallbackForecast "Fries" 3 summary daily_forecast)
    /\ length daily_forecast = 3%nat.
Proof. eexists. eexists. vm_compute. split; reflexivity. Qed.

(** ** Dispatch of the analysis type *)

Lemma analysisMap_keys_five :
  Analytics.analysisMap_keys
  = ["overview"; "by_product"; "by_channel"; "trend"; "top_sellers"].
Proof. reflexivity. Qed.

Lemma find_name_none {A : Type} (names : A -> string) (k : string)
  (l : list A) :
  ~ In k (map names l) -> List.find (fun a => String.eqb (names a) k) l = None.
Proof.
  induction l as [|a l IH]; intros Hnin; simpl; [reflexivity|].
  destruct (String.eqb_spec (names a) k) as [E|_].
  - exfalso. apply Hnin. left. exact E.
  - apply IH. intros Hin. apply Hnin. right. exact Hin.
Qed.

(** A name that is neither a mode nor a member of [Object.prototype] is
    rejected with the list of the five modes. *)
Lemma unknown_mode_rejected (dateToString : string -> Z -> string)
  (sales : list Sale) (now : Z) (analysis_type : string) (days : Z)
  (group_by_arg : string) :
  ~ In analysis_type Analytics.analysisMap_keys ->
  ~ In analysis_type (map Analytics.proto_name Analytics.proto_members) ->
  Analytics.handleGetSalesAnalytics dateToString sales now analysis_type days
    group_by_arg
  = {| Analytics.payload :=
         Analytics.UnknownType analysis_type
           ["overview"; "by_product"; "by_channel"; "trend"; "top_sellers"];
       Analytics.isError := true |}.
Proof.
  intros Hown Hproto.
  unfold Analytics.handleGetSalesAnalytics, Analytics.get_property,
    Analytics.own_property, Analytics.inherited_property.
  rewrite (find_name_none Analytics.mode_name analysis_type Analytics.modes Hown).
  rewrite (find_name_none Analytics.proto_name analysis_type
             Analytics.proto_members Hproto).
  reflexivity.
Qed.


(** ** Festival cache *)

Lemma updateOne_overwrites (holiday : Festivals.Holiday) (country : string)
  (now : Z) (store : list Festivals.Festival) (f : Festivals.Festival) :
  Festivals.lookup (Festivals.h_name holiday) (Festivals.h_date holiday) store
  = Some f ->
  Festivals.lookup (Festivals.h_name holiday) (Festivals.h_date holiday)
    (Festivals.updateOne holiday country now store)
  = Some (Festivals.apply_set holiday country now f).
Proof.
  unfold Festivals.lookup.
  induction store as [|g store IH]; simpl; [discriminate|].
  destruct (String.eqb (Festivals.name g) (Festivals.h_name holiday)
            && (Festivals.date g =? Festivals.h_date holiday)%Z)%bool eqn:E.
  - intros H. inversion H; subst g. simpl. rewrite E. reflexivity.
  - intros H. simpl. rewrite E. apply IH. exact H.
Qed.

(** The update writes the keyword-derived multiplier over the stored one. *)
Lemma updateOne_multiplier (holiday : Festivals.Holiday) (country : string)
  (now : Z) (store : list Festivals.Festival) (f : Festivals.Festival) :
  Festivals.lookup (Festivals.h_name holiday) (Festivals.h_date holiday) store
  = Some f ->
  option_map Festivals.demandMultiplier
    (Festivals.lookup (Festivals.h_name holiday) (Festivals.h_date holiday)
       (Festivals.updateOne holiday country now store))
  = Some (Festivals.multiplier
            (Festivals.classifyImpact (Festivals.h_name holiday))).
Proof.
  intros H. rewrite (updateOne_overwrites holiday country now store f H).
  reflexivity.
Qed.

(** Entries under another key are left as they are. *)
Lemma updateOne_frame (holiday : Festivals.Holiday) (country : string)
  (now : Z) (store : list Festivals.Festival) (n : string) (d : Z) :
  (String.eqb n (Festivals.h_name holiday)
   && (d =? Festivals.h_date holiday)%Z)%bool = false ->
  Festivals.lookup n d (Festivals.updateOne holiday country now store)
  = Festivals.lookup n d store.
Proof.
  intros Hne. unfold Festivals.lookup.
  assert (forall g : Festivals.Festival,
            Festivals.name g = Festivals.h_name holiday ->
            Festivals.date g = Festivals.h_date holiday ->
            (String.eqb (Festivals.name g) n && (Festivals.date g =? d)%Z)%bool
            = false) as Hother.
  { intros g En Ed. rewrite En, Ed.
    rewrite String.eqb_sym, Z.eqb_sym. exact Hne. }
  induction store as [|g store IH]; simpl.
  - rewrite (String.eqb_sym (Festivals.h_name holiday) n),
      (Z.eqb_sym (Festivals.h_date holiday) d), Hne. reflexivity.
  - destruct (String.eqb (Festivals.name g) (Festivals.h_name holiday)
              && (Festivals.date g =? Festivals.h_date holiday)%Z)%bool eqn:E.
    + apply andb_true_iff in E. destruct E as [En Ed].
      apply String.eqb_eq in En. apply Z.eqb_eq in Ed.
      simpl. rewrite (Hother g En Ed). reflexivity.
    + simpl. rewrite IH. reflexivity.
Qed.

(** C1 (evaluation at the failing input).  A refresh of a stale cache that
    holds ["Columbus Day"] with the hand-set multiplier 2 leaves one entry
    under that key, with the low-impact multiplier 1.10 and the source tag of
    the API. *)
Theorem refresh_overwrites_tuned_multiplier :
  let now := (19990 * MS_PER_DAY)%Z in
  Festivals.demandMultiplier tuned_entry = 2
  /\ Festivals.isCacheFresh "US" now [tuned_entry] = false
  /\ exists f,
       Festivals.refresh api_answer 2024 8 "US" now [tuned_entry] = Some [f]
       /\ Festivals.name f = "Columbus Day"
       /\ Festivals.date f = columbus_day
       /\ Festivals.demandMultiplier f = 110 # 100
       /\ Festivals.source f = Festivals.nager_api.
Proof.
  intros now. split; [reflexivity|]. split; [reflexivity|].
  eexists. split; [vm_compute; reflexivity|].
  repeat split.
Qed.

(** * Further properties of the code *)

(** ** Inventory simulation: classification, restock, bounds, keys *)

(** X1.  The traffic light is monotone: with the thresholds fixed, more stock
    never gives a worse status. *)
Theorem classify_monotone (pol : InventoryPolicy) (stock1 stock2 : Q) :
  stock1 <= stock2 ->
  (severity (Seed.classify stock2 pol) <= severity (Seed.classify stock1 pol))%nat.
Proof.
  intros Hle. unfold Seed.classify.
  destruct (Qltb stock2 (minStockDaily pol)) eqn:E2.
  - apply Qltb_true in E2.
    assert (Qltb stock1 (minStockDaily pol) = true) as ->
      by (apply Qltb_true; lra).
    simpl. lia.
  - destruct (Qltb stock2 (reorderPoint pol)) eqn:R2.
    + apply Qltb_true in R2.
      destruct (Qltb stock1 (minStockDaily pol)); [simpl; lia|].
      assert (Qltb stock1 (reorderPoint pol) = true) as ->
        by (apply Qltb_true; lra).
      simpl. lia.
    + simpl. lia.
Qed.

(** The theorem on 3 and 10 units under the policy of scenario A. *)
Lemma classify_monotone_witness :
  3 <= 10
  /\ (severity (Seed.classify 10 policy_A)
      <= severity (Seed.classify 3 policy_A))%nat.
Proof.
  assert (3 <= 10) as H by (vm_compute; discriminate).
  split; [exact H|].
  exact (classify_monotone policy_A 3 10 H).
Defined.

(** Every emitted snapshot comes from the list of days of its product,
    walked from a full stock under the configured policy. *)
Lemma seedInventory_walk (config : gmap string InventoryPolicy)
  (sales : list Sale) (d : InventoryDoc) :
  In d (Seed.seedInventory config sales) ->
  exists p pol days,
    In (p, days) (Seed.productDays (Seed.salesByDay sales))
    /\ config !! p = Some pol
    /\ In d (Seed.simulate_days p pol (maxStockDaily pol) days).
Proof.
  unfold Seed.seedInventory. intros Hin.
  apply in_flat_map in Hin. destruct Hin as ([p days] & Hpd & Hd).
  destruct (config !! p) as [pol|] eqn:Hcfg; [|contradiction].
  exists p, pol, days. repeat split; assumption.
Qed.

Lemma simulate_days_product (p : string) (pol : InventoryPolicy)
  (days : list Seed.DayEntry) (stock : Q) (d : InventoryDoc) :
  In d (Seed.simulate_days p pol stock days) -> inv_product d = p.
Proof.
  revert stock. induction days as [|day rest IH]; intros stock Hd; simpl in Hd.
  - contradiction.
  - destruct (Seed.simulate_day p pol stock day) as [stock' doc] eqn:E.
    destruct Hd as [<- | Hd]; [|eapply IH; exact Hd].
    unfold Seed.simulate_day in E.
    destruct (Qltb (stock - Seed.de_consumed day) (reorderPoint pol));
      inversion E; reflexivity.
Qed.

(** A product that is sold but missing from the configuration is
    skipped: every emitted snapshot belongs to a configured product. *)
Theorem seedInventory_configured (config : gmap string InventoryPolicy)
  (sales : list Sale) (d : InventoryDoc) :
  In d (Seed.seedInventory config sales) ->
  exists pol, config !! inv_product d = Some pol.
Proof.
  intros Hin.
  destruct (seedInventory_walk config sales d Hin)
    as (p & pol & days & _ & Hcfg & Hd).
  apply simulate_days_product in Hd. subst p. exists pol. exact Hcfg.
Qed.

(** The theorem on the first snapshot of scenario A. *)
Lemma seedInventory_configured_witness :
  let d := nth 0 (Seed.seedInventory config_A sales_A) no_doc in
  In d (Seed.seedInventory config_A sales_A)
  /\ exists pol, config_A !! inv_product d = Some pol.
Proof.
  intros d.
  assert (In d (Seed.seedInventory config_A sales_A)) as Hin
    by (vm_compute; left; reflexivity).
  split; [exact Hin|].
  exact (seedInventory_configured config_A sales_A d Hin).
Defined.

Lemma simulate_days_restock (p : string) (pol : InventoryPolicy)
  (days : list Seed.DayEntry) (stock : Q) (d : InventoryDoc) :
  In d (Seed.simulate_days p pol stock days) ->
  restocked d == 0 \/ stockLevel d = round2 (maxStockDaily pol).
Proof.
  revert stock. induction days as [|day rest IH]; intros stock Hd; simpl in Hd.
  - contradiction.
  - destruct (Seed.simulate_day p pol stock day) as [stock' doc] eqn:E.
    destruct Hd as [<- | Hd]; [|eapply IH; exact Hd].
    unfold Seed.simulate_day in E.
    destruct (Qltb (stock - Seed.de_consumed day) (reorderPoint pol));
      inversion E; simpl; [right | left]; reflexivity.
Qed.

(** X2.  A restock always refills to the maximum: a snapshot either records
    no restock or ends the day at [maxStockDaily] (rounded to 2 decimals). *)
Theorem restock_refills (config : gmap string InventoryPolicy)
  (sales : list Sale) (d : InventoryDoc) (pol : InventoryPolicy) :
  In d (Seed.seedInventory config sales) ->
  config !! inv_product d = Some pol ->
  restocked d == 0 \/ stockLevel d = round2 (maxStockDaily pol).
Proof.
  intros Hin Hcfg.
  destruct (seedInventory_walk config sales d Hin)
    as (p & pol' & days & _ & Hcfg' & Hd).
  pose proof (simulate_days_product _ _ _ _ _ Hd) as Hp. subst p.
  rewrite Hcfg in Hcfg'. inversion Hcfg'; subst pol'.
  eapply simulate_days_restock. exact Hd.
Qed.

(** A day of 48 units after scenario A's stock of 50: the stock falls to 2,
    below the reorder point 5, and is refilled. *)
Lemma restock_refills_witness :
  let sales := [sale_of 0 "Fries" (349 # 100) 48] in
  let d := nth 0 (Seed.seedInventory config_A sales) no_doc in
  In d (Seed.seedInventory config_A sales)
  /\ config_A !! inv_product d = Some policy_A
  /\ (restocked d == 0 \/ stockLevel d = round2 (maxStockDaily policy_A)).
Proof.
  intros sales d.
  assert (In d (Seed.seedInventory config_A sales)) as Hin
    by (vm_compute; left; reflexivity).
  assert (config_A !! inv_product d = Some policy_A) as Hcfg
    by (vm_compute; reflexivity).
  split; [exact Hin|]. split; [exact Hcfg|].
  exact (restock_refills config_A sales d policy_A Hin Hcfg).
Defined.

Lemma Math_round_mono (x y : Q) : x <= y -> (Math_round x <= Math_round y)%Z.
Proof. intros H. unfold Math_round. apply Qfloor_resp_le. lra. Qed.

Lemma round2_mono (x y : Q) : x <= y -> round2 x <= round2 y.
Proof.
  intros H. unfold round2.
  assert (Math_round (x * 100) <= Math_round (y * 100))%Z as Hz
    by (apply Math_round_mono; lra).
  rewrite Zle_Qle in Hz.
  apply Qle_shift_div_l; [lra|].
  assert (inject_Z (Math_round (x * 100)) / 100 * 100
          == inject_Z (Math_round (x * 100))) as -> by (field; lra).
  exact Hz.
Qed.

(** The daily totals of non-negative quantities are non-negative, through
    the grouping, the sort and the regrouping by product. *)
Lemma group_add_nonneg (p : string) (d : Z) (q : Q)
  (gs : list (string * Z * Q)) :
  0 <= q -> Forall (fun g => 0 <= snd g) gs ->
  Forall (fun g => 0 <= snd g) (Seed.group_add p d q gs).
Proof.
  intros Hq Hall. induction Hall as [|[[p' d'] t] gs Ht Hall IH]; simpl.
  - constructor; [exact Hq | constructor].
  - destruct (String.eqb p p' && (d =? d')%Z)%bool.
    + constructor; [simpl in *; lra | exact Hall].
    + constructor; [exact Ht | exact IH].
Qed.

Lemma group_by_product_day_nonneg (sales : list Sale) :
  Forall (fun s => 0 <= quantity s) sales ->
  Forall (fun g => 0 <= snd g) (Seed.group_by_product_day sales).
Proof.
  unfold Seed.group_by_product_day.
  assert (forall gs, Forall (fun g : string * Z * Q => 0 <= snd g) gs ->
            Forall (fun s => 0 <= quantity s) sales ->
            Forall (fun g => 0 <= snd g)
              (fold_left (fun gs s =>
                            Seed.group_add (product s) (day_of (date s))
                              (quantity s) gs) sales gs)) as H.
  { induction sales as [|s sales IH]; intros gs Hgs Hall; simpl.
    - exact Hgs.
    - inversion Hall; subst. apply IH; [|assumption].
      apply group_add_nonneg; assumption. }
  intros Hall. apply H; [constructor | exact Hall].
Qed.

Lemma insert_by_date_perm (g : string * Z * Q) (gs : list (string * Z * Q)) :
  Permutation (Seed.insert_by_date g gs) (g :: gs).
Proof.
  induction gs as [|h gs IH]; simpl.
  - reflexivity.
  - destruct (snd (fst g) <? snd (fst h))%Z.
    + reflexivity.
    + rewrite IH. apply perm_swap.
Qed.

Lemma sort_by_date_perm (gs : list (string * Z * Q)) :
  Permutation (Seed.sort_by_date gs) gs.
Proof.
  induction gs as [|g gs IH]; simpl.
  - reflexivity.
  - rewrite insert_by_date_perm. constructor. exact IH.
Qed.

Lemma productDays_push_all (P : Seed.DayEntry -> Prop) (key : string)
  (e : Seed.DayEntry) (pd : list (string * list Seed.DayEntry)) :
  P e -> Forall (fun kd => Forall P (snd kd)) pd ->
  Forall (fun kd => Forall P (snd kd)) (Seed.productDays_push key e pd).
Proof.
  intros He Hall. induction Hall as [|[k es] pd Hes Hall IH]; simpl.
  - repeat constructor. exact He.
  - destruct (String.eqb key k).
    + constructor; [|exact Hall]. simpl in *.
      apply Forall_app. split; [exact Hes | repeat constructor; exact He].
    + constructor; [exact Hes | exact IH].
Qed.

Lemma productDays_all (P : Seed.DayEntry -> Prop)
  (byDay : list (string * Z * Q)) :
  Forall (fun g => P {| Seed.de_date := snd (fst g);
                        Seed.de_consumed := snd g |}) byDay ->
  Forall (fun kd => Forall P (snd kd)) (Seed.productDays byDay).
Proof.
  unfold Seed.productDays.
  assert (forall pd, Forall (fun kd : string * list Seed.DayEntry =>
                               Forall P (snd kd)) pd ->
            Forall (fun g => P {| Seed.de_date := snd (fst g);
                                  Seed.de_consumed := snd g |}) byDay ->
            Forall (fun kd => Forall P (snd kd))
              (fold_left (fun pd g =>
                            Seed.productDays_push (fst (fst g))
                              {| Seed.de_date := snd (fst g);
                                 Seed.de_consumed := snd g |} pd) byDay pd))
    as H.
  { induction byDay as [|g byDay IH]; intros pd Hpd Hall; simpl.
    - exact Hpd.
    - inversion Hall; subst. apply IH; [|assumption].
      apply productDays_push_all; assumption. }
  intros Hall. apply H; [constructor | exact Hall].
Qed.

Lemma simulate_days_at_most_max (p : string) (pol : InventoryPolicy)
  (days : list Seed.DayEntry) :
  Forall (fun e => 0 <= Seed.de_consumed e) days ->
  forall stock d,
    stock <= maxStockDaily pol ->
    In d (Seed.simulate_days p pol stock days) ->
    stockLevel d <= round2 (maxStockDaily pol).
Proof.
  intros Hall. induction Hall as [|day rest Hday Hall IH];
    intros stock d Hstock Hd; simpl in Hd.
  - contradiction.
  - destruct (Seed.simulate_day p pol stock day) as [stock' doc] eqn:E.
    unfold Seed.simulate_day in E.
    destruct (Qltb (stock - Seed.de_consumed day) (reorderPoint pol));
      inversion E; subst stock' doc; clear E;
      (destruct Hd as [<- | Hd];
       [simpl; apply round2_mono; lra | refine (IH _ _ _ Hd); lra]).
Qed.

(** X3.  With non-negative quantities the simulated stock never exceeds the
    maximum: every snapshot has [stockLevel <= maxStockDaily] (rounded to 2
    decimals). *)
Theorem stock_at_most_max (config : gmap string InventoryPolicy)
  (sales : list Sale) (d : InventoryDoc) (pol : InventoryPolicy) :
  Forall (fun s => 0 <= quantity s) sales ->
  In d (Seed.seedInventory config sales) ->
  config !! inv_product d = Some pol ->
  stockLevel d <= round2 (maxStockDaily pol).
Proof.
  intros Hq Hin Hcfg.
  destruct (seedInventory_walk config sales d Hin)
    as (p & pol' & days & Hpd & Hcfg' & Hd).
  pose proof (simulate_days_product _ _ _ _ _ Hd) as Hp. subst p.
  rewrite Hcfg in Hcfg'. inversion Hcfg'; subst pol'.
  assert (Forall (fun e => 0 <= Seed.de_consumed e) days) as Hdays.
  { assert (Forall (fun kd : string * list Seed.DayEntry =>
                      Forall (fun e => 0 <= Seed.de_consumed e) (snd kd))
                   (Seed.productDays (Seed.salesByDay sales))) as Hall.
    { apply productDays_all. unfold Seed.salesByDay.
      eapply Permutation_Forall; [symmetry; apply sort_by_date_perm|].
      apply (group_by_product_day_nonneg sales Hq). }
    rewrite List.Forall_forall in Hall. exact (Hall _ Hpd). }
  eapply simulate_days_at_most_max; [exact Hdays | | exact Hd]. lra.
Qed.

(** The theorem on the second snapshot of scenario A. *)
Lemma stock_at_most_max_witness :
  let d := nth 1 (Seed.seedInventory config_A sales_A) no_doc in
  Forall (fun s => 0 <= quantity s) sales_A
  /\ In d (Seed.seedInventory config_A sales_A)
  /\ config_A !! inv_product d = Some policy_A
  /\ stockLevel d <= round2 (maxStockDaily policy_A).
Proof.
  intros d.
  assert (Forall (fun s => 0 <= quantity s) sales_A) as Hq
    by (repeat constructor; vm_compute; discriminate).
  assert (In d (Seed.seedInventory config_A sales_A)) as Hin
    by (vm_compute; right; left; reflexivity).
  assert (config_A !! inv_product d = Some policy_A) as Hcfg
    by (vm_compute; reflexivity).
  split; [exact Hq|]. split; [exact Hin|]. split; [exact Hcfg|].
  exact (stock_at_most_max config_A sales_A d policy_A Hq Hin Hcfg).
Defined.

(** The keys of the grouping stage stay pairwise different. *)
Lemma group_add_keys_in (p : string) (d : Z) (q : Q)
  (gs : list (string * Z * Q)) (k : string * Z) :
  In k (map fst (Seed.group_add p d q gs)) -> In k (map fst gs) \/ k = (p, d).
Proof.
  induction gs as [|[[p' d'] t] gs IH]; simpl.
  - intros [<- | []]. right. reflexivity.
  - destruct (String.eqb p p' && (d =? d')%Z)%bool; simpl.
    + intros H. left. exact H.
    + intros [<- | H]; [left; left; reflexivity|].
      destruct (IH H) as [H' | H']; [left; right; exact H' | right; exact H'].
Qed.

Lemma group_add_keys_NoDup (p : string) (d : Z) (q : Q)
  (gs : list (string * Z * Q)) :
  List.NoDup (map fst gs) -> List.NoDup (map fst (Seed.group_add p d q gs)).
Proof.
  induction gs as [|[[p' d'] t] gs IH]; simpl; intros Hnd.
  - constructor; [intros [] | constructor].
  - destruct (String.eqb p p' && (d =? d')%Z)%bool eqn:E; simpl.
    + exact Hnd.
    + inversion Hnd as [|? ? Hnin Hnd']; subst.
      constructor; [|apply IH; exact Hnd'].
      intros Hin. apply group_add_keys_in in Hin.
      destruct Hin as [Hin | Heq]; [contradiction|].
      inversion Heq; subst.
      rewrite String.eqb_refl, Z.eqb_refl in E. discriminate.
Qed.

Lemma salesByDay_keys_NoDup (sales : list Sale) :
  List.NoDup (map fst (Seed.salesByDay sales)).
Proof.
  unfold Seed.salesByDay.
  eapply Permutation.Permutation_NoDup;
    [apply Permutation_map; symmetry; apply sort_by_date_perm|].
  unfold Seed.group_by_product_day.
  assert (forall gs, List.NoDup (map fst gs) ->
            List.NoDup (map fst
                     (fold_left (fun gs s =>
                                   Seed.group_add (product s) (day_of (date s))
                                     (quantity s) gs) sales gs))) as H.
  { induction sales as [|s sales IH]; intros gs Hnd; simpl; [exact Hnd|].
    apply IH. apply group_add_keys_NoDup. exact Hnd. }
  apply H. constructor.
Qed.

(** The (product, day) pairs held by [productDays]. *)
Lemma productDays_push_keys (key : string) (e : Seed.DayEntry)
  (pd : list (string * list Seed.DayEntry)) :
  Permutation
    (flat_map (fun kd => map (fun e => (fst kd, Seed.de_date e)) (snd kd))
       (Seed.productDays_push key e pd))
    ((key, Seed.de_date e)
     :: flat_map (fun kd => map (fun e => (fst kd, Seed.de_date e)) (snd kd)) pd).
Proof.
  induction pd as [|[k es] pd IH]; simpl.
  - reflexivity.
  - destruct (String.eqb_spec key k) as [->|Hne]; simpl.
    + rewrite map_app. simpl. rewrite <- app_assoc. simpl.
      symmetry. apply Permutation_middle.
    + rewrite IH. symmetry. apply Permutation_middle.
Qed.

Lemma productDays_keys (byDay : list (string * Z * Q)) :
  Permutation
    (flat_map (fun kd => map (fun e => (fst kd, Seed.de_date e)) (snd kd))
       (Seed.productDays byDay))
    (map fst byDay).
Proof.
  unfold Seed.productDays.
  assert (forall pd,
            Permutation
              (flat_map (fun kd => map (fun e => (fst kd, Seed.de_date e)) (snd kd))
                 (fold_left (fun pd g =>
                               Seed.productDays_push (fst (fst g))
                                 {| Seed.de_date := snd (fst g);
                                    Seed.de_consumed := snd g |} pd) byDay pd))
              (flat_map (fun kd => map (fun e => (fst kd, Seed.de_date e)) (snd kd)) pd
               ++ map fst byDay)) as H.
  { induction byDay as [|[[p d] q] byDay IH]; intros pd; simpl.
    - rewrite app_nil_r. reflexivity.
    - rewrite IH, productDays_push_keys. simpl.
      apply Permutation_middle. }
  rewrite H. reflexivity.
Qed.

Lemma simulate_days_keys (p : string) (pol : InventoryPolicy)
  (days : list Seed.DayEntry) (stock : Q) :
  map snapshot_key (Seed.simulate_days p pol stock days)
  = map (fun e => (p, Seed.de_date e)) days.
Proof.
  revert stock. induction days as [|day rest IH]; intros stock; simpl.
  - reflexivity.
  - destruct (Seed.simulate_day p pol stock day) as [stock' doc] eqn:E.
    simpl. rewrite IH. f_equal.
    unfold Seed.simulate_day in E.
    destruct (Qltb (stock - Seed.de_consumed day) (reorderPoint pol));
      inversion E; reflexivity.
Qed.

(** X4.  The simulated series respects the unique index of the snapshot
    collection: no two emitted snapshots share product and day. *)
Theorem seedInventory_keys_unique (config : gmap string InventoryPolicy)
  (sales : list Sale) :
  List.NoDup (map snapshot_key (Seed.seedInventory config sales)).
Proof.
  apply NoDup_ListNoDup. apply sublist_NoDup
    with (l2 := flat_map (fun kd => map (fun e => (fst kd, Seed.de_date e)) (snd kd))
                 (Seed.productDays (Seed.salesByDay sales))).
  - apply NoDup_ListNoDup.
    eapply Permutation.Permutation_NoDup; [symmetry; apply productDays_keys|].
    apply salesByDay_keys_NoDup.
  - unfold Seed.seedInventory.
    induction (Seed.productDays (Seed.salesByDay sales)) as [|[p days] pd IH];
      simpl.
    + constructor.
    + rewrite map_app. apply sublist_app; [|exact IH].
      destruct (config !! p) as [pol|].
      * rewrite simulate_days_keys. reflexivity.
      * apply sublist_nil_l.
Qed.

(** ** Online inventory check: classification, recommendation, latest
    snapshot, summary *)

Lemma num_or_zero (x : Q) : num_or x 0 == x.
Proof.
  unfold num_or. destruct (Qeq_bool x 0) eqn:E; [|reflexivity].
  apply Qeq_bool_iff in E. symmetry. exact E.
Qed.

Lemma Qltb_comp (a b b' : Q) : b == b' -> Qltb a b = Qltb a b'.
Proof. intros H. unfold Qltb. rewrite H. reflexivity. Qed.

(** X5.  The online check classifies like the simulation: for a product with
    an inventory policy, the reported status is the simulation's traffic
    light of the reported stock under that policy. *)
Theorem report_status_agrees (sales : list Sale)
  (latestInventory : list InventoryDoc) (now : Z)
  (prod : Inventory.ProductDoc) (pol : InventoryPolicy) :
  Inventory.inventory prod = Some pol ->
  Inventory.r_status (Inventory.report sales latestInventory now prod)
  = Seed.classify
      (Inventory.stock_level (Inventory.report sales latestInventory now prod))
      pol.
Proof.
  intros Hpol. unfold Inventory.report, Seed.classify. cbn zeta. simpl.
  rewrite Hpol.
  rewrite (Qltb_comp _ _ _ (num_or_zero (minStockDaily pol))).
  rewrite (Qltb_comp _ _ _ (num_or_zero (reorderPoint pol))).
  reflexivity.
Qed.

(** The theorem on the Fries product with a stock of 10. *)
Lemma report_status_agrees_witness :
  let pol := {| minStockDaily := 2; reorderPoint := 5; maxStockDaily := 50 |} in
  Inventory.inventory fries_doc = Some pol
  /\ Inventory.r_status
       (Inventory.report sales_three [snapshot_ten] MS_PER_DAY fries_doc)
     = Seed.classify
         (Inventory.stock_level
            (Inventory.report sales_three [snapshot_ten] MS_PER_DAY fries_doc))
         pol.
Proof.
  intros pol.
  assert (Inventory.inventory fries_doc = Some pol) as H by reflexivity.
  split; [exact H|].
  exact (report_status_agrees sales_three [snapshot_ten] MS_PER_DAY fries_doc
           pol H).
Defined.

Lemma Math_max_bounds (x y : Q) : x <= Math_max x y /\ y <= Math_max x y.
Proof.
  unfold Math_max. destruct (Qle_bool x y) eqn:E.
  - apply Qle_bool_iff in E. split; lra.
  - assert (~ x <= y) as Hn by (intros H; apply Qle_bool_iff in H; congruence).
    split; [lra|]. apply Qnot_le_lt in Hn. lra.
Qed.

(** The restock recommendation is never negative, and ordering it
    brings the stock to the maximum at least. *)
Theorem restock_recommendation_covers (sales : list Sale)
  (latestInventory : list InventoryDoc) (now : Z)
  (prod : Inventory.ProductDoc) :
  let r := Inventory.report sales latestInventory now prod in
  0 <= Inventory.restock_recommendation r
  /\ Inventory.max_stock r
     <= Inventory.stock_level r + Inventory.restock_recommendation r.
Proof.
  unfold Inventory.report. cbn zeta. simpl.
  match goal with
  | |- context [Math_max 0 ?y] => destruct (Math_max_bounds 0 y) as [H0 Hy]
  end.
  split; [exact H0 | lra].
Qed.

(** The latest snapshot: sort, then first of each product. *)
Lemma insert_latest_perm (d : InventoryDoc) (ds : list InventoryDoc) :
  Permutation (Inventory.insert_latest d ds) (d :: ds).
Proof.
  induction ds as [|h ds IH]; simpl.
  - reflexivity.
  - destruct (inv_date h <? inv_date d)%Z.
    + reflexivity.
    + rewrite IH. apply perm_swap.
Qed.

Lemma sort_latest_perm (ds : list InventoryDoc) :
  Permutation (fold_right Inventory.insert_latest [] ds) ds.
Proof.
  induction ds as [|d ds IH]; simpl.
  - reflexivity.
  - rewrite insert_latest_perm. constructor. exact IH.
Qed.

Lemma insert_latest_sorted (d : InventoryDoc) (ds : list InventoryDoc) :
  StronglySorted (fun a b => (inv_date b <= inv_date a)%Z) ds ->
  StronglySorted (fun a b => (inv_date b <= inv_date a)%Z)
                 (Inventory.insert_latest d ds).
Proof.
  induction ds as [|h ds IH]; simpl; intros Hs.
  - repeat constructor.
  - inversion Hs as [|? ? Hs' Hall]; subst.
    destruct (Z.ltb_spec (inv_date h) (inv_date d)) as [Hlt|Hge].
    + constructor; [exact Hs|].
      constructor; [lia|].
      eapply List.Forall_impl; [|exact Hall]. simpl. intros x Hx. lia.
    + constructor; [apply IH; exact Hs'|].
      eapply Permutation_Forall; [symmetry; apply insert_latest_perm|].
      constructor; [lia | exact Hall].
Qed.

Lemma sort_latest_sorted (ds : list InventoryDoc) :
  StronglySorted (fun a b => (inv_date b <= inv_date a)%Z)
                 (fold_right Inventory.insert_latest [] ds).
Proof.
  induction ds as [|d ds IH]; simpl.
  - constructor.
  - apply insert_latest_sorted. exact IH.
Qed.

Lemma first_per_product_spec (ds : list InventoryDoc) :
  StronglySorted (fun a b => (inv_date b <= inv_date a)%Z) ds ->
  forall seen d,
    In d (Inventory.first_per_product ds seen) ->
    In d ds
    /\ ~ In (inv_product d) seen
    /\ forall d', In d' ds -> inv_product d' = inv_product d ->
                  (inv_date d' <= inv_date d)%Z.
Proof.
  induction ds as [|h ds IH]; intros Hs seen d Hd; simpl in Hd.
  - contradiction.
  - inversion Hs as [|? ? Hs' Hall]; subst.
    destruct (existsb (String.eqb (inv_product h)) seen) eqn:E.
    + destruct (IH Hs' seen d Hd) as (Hin & Hseen & Hmax).
      split; [right; exact Hin|]. split; [exact Hseen|].
      intros d' [<- | Hd'] Hp; [|apply Hmax; assumption].
      exfalso. apply Hseen. rewrite <- Hp.
      apply existsb_exists in E. destruct E as (x & Hx & Ex).
      apply String.eqb_eq in Ex. rewrite Ex. exact Hx.
    + destruct Hd as [<- | Hd].
      * split; [left; reflexivity|]. split.
        -- intros Hin.
           assert (existsb (String.eqb (inv_product h)) seen = true) as E'
             by (apply existsb_exists; exists (inv_product h);
                 split; [exact Hin | apply String.eqb_refl]).
           congruence.
        -- intros d' [<- | Hd'] _; [lia|].
           rewrite List.Forall_forall in Hall. apply Hall. exact Hd'.
      * destruct (IH Hs' (inv_product h :: seen) d Hd) as (Hin & Hseen & Hmax).
        split; [right; exact Hin|].
        split; [intros H; apply Hseen; right; exact H|].
        intros d' [<- | Hd'] Hp; [|apply Hmax; assumption].
        exfalso. apply Hseen. left. exact Hp.
Qed.

Lemma first_per_product_complete (ds : list InventoryDoc) (seen : list string)
  (d : InventoryDoc) :
  In d ds -> ~ In (inv_product d) seen ->
  exists d', In d' (Inventory.first_per_product ds seen)
             /\ inv_product d' = inv_product d.
Proof.
  revert seen. induction ds as [|h ds IH]; intros seen Hd Hseen; simpl.
  - contradiction.
  - destruct (existsb (String.eqb (inv_product h)) seen) eqn:E.
    + destruct Hd as [-> | Hd]; [|apply IH; assumption].
      exfalso. apply Hseen.
      apply existsb_exists in E. destruct E as (x & Hx & Ex).
      apply String.eqb_eq in Ex. rewrite Ex. exact Hx.
    + destruct (String.eqb_spec (inv_product h) (inv_product d)) as [Heq|Hne].
      * exists h. split; [left; reflexivity | exact Heq].
      * destruct Hd as [-> | Hd]; [contradiction|].
        destruct (IH (inv_product h :: seen) Hd) as (d' & Hd' & Hp).
        { intros [H|H]; [contradiction | apply Hseen; exact H]. }
        exists d'. split; [right; exact Hd' | exact Hp].
Qed.

Lemma first_per_product_NoDup (ds : list InventoryDoc) (seen : list string) :
  List.NoDup (map inv_product (Inventory.first_per_product ds seen))
  /\ forall d, In d (Inventory.first_per_product ds seen) ->
               ~ In (inv_product d) seen.
Proof.
  revert seen. induction ds as [|h ds IH]; intros seen; simpl.
  - split; [constructor | intros d []].
  - destruct (existsb (String.eqb (inv_product h)) seen) eqn:E.
    + apply IH.
    + destruct (IH (inv_product h :: seen)) as [Hnd Hout].
      split.
      * simpl. constructor; [|exact Hnd].
        intros Hin. apply in_map_iff in Hin. destruct Hin as (d & Hp & Hd).
        apply (Hout d Hd). left. symmetry. exact Hp.
      * intros d [<- | Hd].
        -- intros Hin.
           assert (existsb (String.eqb (inv_product h)) seen = true) as E'
             by (apply existsb_exists; exists (inv_product h);
                 split; [exact Hin | apply String.eqb_refl]).
           congruence.
        -- intros Hin. apply (Hout d Hd). right. exact Hin.
Qed.

(** X6.  [getLatestInventory] answers with stored snapshots of the selected
    products, one per product that has any, and each is the product's
    snapshot with the greatest date. *)
Theorem getLatestInventory_latest (productFilter : option string)
  (snapshots : list InventoryDoc) :
  let selected := fun d : InventoryDoc =>
                    match productFilter with
                    | Some p => inv_product d = p
                    | None => True
                    end in
  let latest := Inventory.getLatestInventory productFilter snapshots in
  List.NoDup (map inv_product latest)
  /\ (forall d, In d latest ->
        In d snapshots /\ selected d
        /\ forall d', In d' snapshots -> inv_product d' = inv_product d ->
                      (inv_date d' <= inv_date d)%Z)
  /\ (forall d, In d snapshots -> selected d ->
        exists d', In d' latest /\ inv_product d' = inv_product d).
Proof.
  intros selected. unfold Inventory.getLatestInventory.
  set (f := fun d : InventoryDoc =>
              match productFilter with
              | Some p => String.eqb (inv_product d) p
              | None => true
              end).
  assert (forall d, f d = true <-> selected d) as Hsel.
  { intros d. unfold f, selected. destruct productFilter as [p|].
    - apply String.eqb_eq.
    - tauto. }
  assert (forall d d', inv_product d' = inv_product d -> f d' = f d) as Hsame.
  { intros d d' E. unfold f. rewrite E. reflexivity. }
  set (filtered := List.filter f snapshots).
  pose proof (sort_latest_sorted filtered) as Hs.
  pose proof (sort_latest_perm filtered) as Hp.
  set (sorted := fold_right Inventory.insert_latest [] filtered) in *.
  split; [apply first_per_product_NoDup|]. split.
  - intros d Hd.
    destruct (first_per_product_spec sorted Hs [] d Hd) as (Hin & _ & Hmax).
    apply (Permutation_in _ Hp) in Hin.
    apply filter_In in Hin. destruct Hin as [Hin Hf].
    split; [exact Hin|]. split; [apply Hsel; exact Hf|].
    intros d' Hd' Hprod. apply Hmax; [|exact Hprod].
    apply (Permutation_in _ (Permutation_sym Hp)).
    apply filter_In. split; [exact Hd'|].
    rewrite (Hsame d d' Hprod). exact Hf.
  - intros d Hd Hselected.
    apply (first_per_product_complete sorted [] d); [|intros []].
    apply (Permutation_in _ (Permutation_sym Hp)).
    apply filter_In. split; [exact Hd | apply Hsel; exact Hselected].
Qed.

Lemma status_counts (results : list Inventory.ProductReport) :
  (length (List.filter (Check.has_status green) results)
   + length (List.filter (Check.has_status yellow) results)
   + length (List.filter (Check.has_status red) results)
   = length results)%nat
  /\ (length (List.filter (fun r => negb (Check.has_status green r)) results)
      = length (List.filter (Check.has_status yellow) results)
        + length (List.filter (Check.has_status red) results))%nat.
Proof.
  unfold Check.has_status.
  induction results as [|r results [IH1 IH2]]; simpl; [split; reflexivity|].
  destruct (Inventory.r_status r); simpl; split; lia.
Qed.

(** X7.  In the summary of a stock check the three status counts add up to
    the number of products; the alert list is never empty: it holds one
    alert per product that is not green, or the single "all well stocked"
    marker when every product is green. *)
Theorem summary_partitions (results : list Inventory.ProductReport) :
  let s := Check.summarize results in
  (Check.green_count s + Check.yellow_count s + Check.red_count s
   = Check.total_products s)%nat
  /\ Check.alerts s <> []
  /\ ((Check.yellow_count s + Check.red_count s = 0)%nat ->
      Check.alerts s = [Check.AllWellStocked])
  /\ ((0 < Check.yellow_count s + Check.red_count s)%nat ->
      length (Check.alerts s) = (Check.yellow_count s + Check.red_count s)%nat
      /\ ~ In Check.AllWellStocked (Check.alerts s)).
Proof.
  destruct (status_counts results) as [Hsum Hnon].
  unfold Check.summarize. cbn zeta. simpl.
  set (nongreen := List.filter (fun r => negb (Check.has_status green r)) results)
    in *.
  split; [exact Hsum|].
  split; [destruct nongreen; simpl; discriminate|].
  split.
  - intros Hz. rewrite <- Hnon in Hz.
    destruct nongreen; [reflexivity | simpl in Hz; lia].
  - intros Hpos. rewrite <- Hnon in *.
    destruct nongreen as [|r rest] eqn:E; [simpl in Hpos; lia|].
    change (match map Check.alert_of (r :: rest) with
            | [] => [Check.AllWellStocked]
            | _ :: _ => map Check.alert_of (r :: rest)
            end) with (map Check.alert_of (r :: rest)).
    split; [rewrite length_map; reflexivity|].
    intros Hin. apply in_map_iff in Hin. destruct Hin as (x & Hx & _).
    discriminate.
Qed.

(** ** Consumption estimator: frame and sign *)

(** X8.  The estimate of a product depends only on that product's sales
    inside the window: sales of other products, or older than the window,
    do not change it. *)
Theorem consumption_ignores_other_sales (sales extra : list Sale) (now : Z)
  (productName : string) (lookbackDays : Z) :
  Forall (fun s => product s <> productName
                   \/ (date s < Inventory.startDate now lookbackDays)%Z) extra ->
  Inventory.getAvgDailyConsumption (sales ++ extra) now productName lookbackDays
  = Inventory.getAvgDailyConsumption sales now productName lookbackDays.
Proof.
  intros Hextra.
  unfold Inventory.getAvgDailyConsumption, Inventory.aggregate_consumption.
  rewrite List.filter_app.
  assert (List.filter
            (Inventory.matches productName
               (Inventory.startDate now lookbackDays)) extra = []) as ->.
  { induction Hextra as [|s extra Hs _ IH]; simpl; [reflexivity|].
    unfold Inventory.matches at 1.
    destruct Hs as [Hs|Hs].
    - apply String.eqb_neq in Hs. rewrite Hs. simpl. exact IH.
    - apply Z.leb_gt in Hs. rewrite Hs, andb_false_r. exact IH. }
  rewrite app_nil_r. reflexivity.
Qed.

(** The theorem on one sale of Fries, beside a sale of Beverages and a sale
    of Fries forty days earlier. *)
Lemma consumption_ignores_other_sales_witness :
  let sales := [sale_of 40 "Fries" (349 # 100) 3] in
  let extra := [sale_of 40 "Beverages" (295 # 100) 7;
                sale_of 0 "Fries" (349 # 100) 9] in
  Forall (fun s => product s <> "Fries"
                   \/ (date s < Inventory.startDate (41 * MS_PER_DAY) 30)%Z)
         extra
  /\ Inventory.getAvgDailyConsumption (sales ++ extra) (41 * MS_PER_DAY)
       "Fries" 30
     = Inventory.getAvgDailyConsumption sales (41 * MS_PER_DAY) "Fries" 30.
Proof.
  intros sales extra.
  assert (Forall (fun s => product s <> "Fries"
                           \/ (date s < Inventory.startDate (41 * MS_PER_DAY) 30)%Z)
                 extra) as H.
  { constructor; [left; discriminate|].
    constructor; [right; reflexivity | constructor]. }
  split; [exact H|].
  exact (consumption_ignores_other_sales sales extra (41 * MS_PER_DAY)
           "Fries" 30 H).
Defined.

Lemma Qsum_nonneg (xs : list Q) : Forall (fun x => 0 <= x) xs -> 0 <= Qsum xs.
Proof.
  induction 1 as [|x xs Hx _ IH].
  - rewrite Qsum_nil. lra.
  - rewrite Qsum_cons. lra.
Qed.

(** X9.  With non-negative quantities the estimate is never negative. *)
Theorem consumption_nonneg (sales : list Sale) (now : Z)
  (productName : string) (lookbackDays : Z) :
  Forall (fun s => 0 <= quantity s) sales ->
  (0 <= Inventory.getAvgDailyConsumption sales now productName lookbackDays)%Z.
Proof.
  intros Hq.
  unfold Inventory.getAvgDailyConsumption, Inventory.aggregate_consumption.
  set (w := List.filter
              (Inventory.matches productName
                 (Inventory.startDate now lookbackDays)) sales).
  assert (Forall (fun s => 0 <= quantity s) w) as Hw.
  { rewrite List.Forall_forall in *. intros s Hs. apply Hq.
    unfold w in Hs. apply filter_In in Hs. tauto. }
  clearbody w. destruct w as [|s w]; [lia|].
  set (g := fold_left Inventory.group_step (s :: w)
              {| Inventory.totalQty := 0; Inventory.dayCount := ∅ |}).
  destruct (size (Inventory.dayCount g) =? 0)%nat eqn:E; [lia|].
  apply Nat.eqb_neq in E.
  apply Math_round_ge. change (inject_Z 0) with 0.
  assert (0 <= Inventory.totalQty g) as Htot.
  { unfold g. rewrite group_fold_totalQty. cbn [Inventory.totalQty].
    assert (0 <= Qsum (map quantity (s :: w))) as H.
    { apply Qsum_nonneg. rewrite List.Forall_forall in *.
      intros x Hx. apply in_map_iff in Hx. destruct Hx as (y & <- & Hy).
      apply Hw. exact Hy. }
    lra. }
  apply Qle_shift_div_l.
  - change 0 with (inject_Z 0). rewrite <- Zlt_Qlt. lia.
  - lra.
Qed.

(** The theorem on one and two units sold on two days. *)
Lemma consumption_nonneg_witness :
  Forall (fun s => 0 <= quantity s) sales_two_days
  /\ (0 <= Inventory.getAvgDailyConsumption sales_two_days (2 * MS_PER_DAY)
            "Fries" 30)%Z.
Proof.
  assert (Forall (fun s => 0 <= quantity s) sales_two_days) as H
    by (repeat constructor; vm_compute; discriminate).
  split; [exact H|].
  exact (consumption_nonneg sales_two_days (2 * MS_PER_DAY) "Fries" 30 H).
Defined.

(** ** Sales analytics: ranking, keys, exact identities *)

Lemma mongo_round0_range (x : Q) :
  (Qfloor x <= mongo_round0 x <= Qfloor x + 1)%Z.
Proof.
  unfold mongo_round0.
  destruct (Qcompare (x - inject_Z (Qfloor x)) (1 # 2)); [|lia|lia].
  destruct (Z.even (Qfloor x)); lia.
Qed.

Lemma mongo_round0_mono (x y : Q) :
  x <= y -> (mongo_round0 x <= mongo_round0 y)%Z.
Proof.
  intros Hxy.
  pose proof (Qfloor_resp_le x y Hxy) as Hfl.
  destruct (Z.eq_dec (Qfloor x) (Qfloor y)) as [Heq|Hne].
  - unfold mongo_round0. rewrite Heq.
    destruct (Qcompare (x - inject_Z (Qfloor y)) (1 # 2)) eqn:Ex;
      destruct (Qcompare (y - inject_Z (Qfloor y)) (1 # 2)) eqn:Ey;
      try (destruct (Z.even (Qfloor y)); lia);
      try lia;
      exfalso;
      repeat match goal with
             | H : Qcompare _ _ = Eq |- _ => apply Qeq_alt in H
             | H : Qcompare _ _ = Lt |- _ => apply Qlt_alt in H
             | H : Qcompare _ _ = Gt |- _ => apply Qgt_alt in H
             end; lra.
  - pose proof (mongo_round0_range x). pose proof (mongo_round0_range y). lia.
Qed.

Lemma mongo_round2_mono (x y : Q) : x <= y -> mongo_round2 x <= mongo_round2 y.
Proof.
  intros H. unfold mongo_round2.
  assert (mongo_round0 (x * 100) <= mongo_round0 (y * 100))%Z as Hz
    by (apply mongo_round0_mono; lra).
  rewrite Zle_Qle in Hz.
  apply Qle_shift_div_l; [lra|].
  assert (inject_Z (mongo_round0 (x * 100)) / 100 * 100
          == inject_Z (mongo_round0 (x * 100))) as -> by (field; lra).
  exact Hz.
Qed.

Lemma insert_desc_perm (f : Analytics.Group -> Q) (g : Analytics.Group)
  (gs : list Analytics.Group) :
  Permutation (Analytics.insert_desc f g gs) (g :: gs).
Proof.
  induction gs as [|h gs IH]; simpl.
  - reflexivity.
  - destruct (Qltb (f h) (f g)).
    + reflexivity.
    + rewrite IH. apply perm_swap.
Qed.

Lemma sort_desc_perm (f : Analytics.Group -> Q) (gs : list Analytics.Group) :
  Permutation (Analytics.sort_desc f gs) gs.
Proof.
  induction gs as [|g gs IH]; simpl.
  - reflexivity.
  - rewrite insert_desc_perm. constructor. exact IH.
Qed.

Lemma insert_desc_descending (f : Analytics.Group -> Q) (g : Analytics.Group)
  (gs : list Analytics.Group) :
  descending f gs -> descending f (Analytics.insert_desc f g gs).
Proof.
  unfold descending.
  induction gs as [|h gs IH]; simpl; intros Hs.
  - repeat constructor.
  - inversion Hs as [|? ? Hs' Hall]; subst.
    destruct (Qltb (f h) (f g)) eqn:E.
    + apply Qltb_true in E. constructor; [exact Hs|].
      constructor; [lra|].
      eapply List.Forall_impl; [|exact Hall]. simpl. intros x Hx. lra.
    + apply Qltb_false in E. constructor; [apply IH; exact Hs'|].
      eapply Permutation_Forall; [symmetry; apply insert_desc_perm|].
      constructor; [exact E | exact Hall].
Qed.

Lemma sort_desc_descending (f : Analytics.Group -> Q)
  (gs : list Analytics.Group) :
  descending f (Analytics.sort_desc f gs).
Proof.
  induction gs as [|g gs IH]; simpl.
  - constructor.
  - apply insert_desc_descending. exact IH.
Qed.

Lemma descending_map {A B : Type} (h : A -> B) (f : A -> Q) (f' : B -> Q)
  (l : list A) :
  (forall a b, f b <= f a -> f' (h b) <= f' (h a)) ->
  descending f l -> descending f' (map h l).
Proof.
  intros Hmono. unfold descending.
  induction 1 as [|a l Hs IH Hall]; simpl; constructor; [exact IH|].
  apply List.Forall_forall. intros x Hx. apply in_map_iff in Hx.
  destruct Hx as (b & <- & Hb). apply Hmono.
  rewrite List.Forall_forall in Hall. apply Hall. exact Hb.
Qed.

Lemma with_pct_map (rs : list Analytics.Row) :
  map Analytics.row_key (Analytics.with_pct rs) = map Analytics.row_key rs
  /\ map Analytics.row_quantity (Analytics.with_pct rs)
     = map Analytics.row_quantity rs
  /\ map Analytics.row_orders (Analytics.with_pct rs)
     = map Analytics.row_orders rs.
Proof.
  unfold Analytics.with_pct. rewrite !map_map.
  repeat split; apply map_ext; reflexivity.
Qed.

(** X10.  The rows of the by_product and by_channel breakdowns come in
    descending order of their revenue. *)
Theorem breakdown_rows_descending (sales : list Sale) (dateFilter : option Z) :
  descending Analytics.revenue (Analytics.getByProduct sales dateFilter)
  /\ descending Analytics.revenue (Analytics.getByChannel sales dateFilter).
Proof.
  assert (forall (b : bool) (gs : list Analytics.Group),
            descending Analytics.g_revenue gs ->
            descending Analytics.revenue
              (Analytics.with_pct (map (Analytics.project b) gs))) as H.
  { intros b gs Hgs. unfold Analytics.with_pct.
    rewrite map_map.
    eapply descending_map; [|exact Hgs].
    intros x y Hle. simpl. apply mongo_round2_mono. exact Hle. }
  split; apply H; apply sort_desc_descending.
Qed.

Lemma group_add_ids_in (key : Sale -> string) (s : Sale)
  (gs : list Analytics.Group) (k : string) :
  In k (map Analytics.g_id (Analytics.group_add key s gs))
  <-> In k (map Analytics.g_id gs) \/ k = key s.
Proof.
  induction gs as [|g gs IH]; simpl.
  - split; [intros [<- | []]; right; reflexivity
           | intros [[] | ->]; left; reflexivity].
  - destruct (String.eqb_spec (key s) (Analytics.g_id g)) as [E|Hne]; simpl.
    + split; [intros H; left; exact H|].
      intros [H | ->]; [exact H | left; symmetry; exact E].
    + rewrite IH. tauto.
Qed.

Lemma group_add_ids_NoDup (key : Sale -> string) (s : Sale)
  (gs : list Analytics.Group) :
  List.NoDup (map Analytics.g_id gs) ->
  List.NoDup (map Analytics.g_id (Analytics.group_add key s gs)).
Proof.
  induction gs as [|g gs IH]; simpl; intros Hnd.
  - constructor; [intros [] | constructor].
  - destruct (String.eqb_spec (key s) (Analytics.g_id g)) as [E|Hne]; simpl.
    + exact Hnd.
    + inversion Hnd as [|? ? Hnin Hnd']; subst.
      constructor; [|apply IH; exact Hnd'].
      intros Hin. apply group_add_ids_in in Hin.
      destruct Hin as [Hin | Heq]; [contradiction | congruence].
Qed.

Lemma group_by_ids (key : Sale -> string) (docs : list Sale) :
  List.NoDup (map Analytics.g_id (Analytics.group_by key docs))
  /\ forall k, In k (map Analytics.g_id (Analytics.group_by key docs))
               <-> In k (map key docs).
Proof.
  unfold Analytics.group_by.
  assert (forall gs,
            List.NoDup (map Analytics.g_id gs) ->
            List.NoDup (map Analytics.g_id
                          (fold_left (fun gs s => Analytics.group_add key s gs)
                             docs gs))
            /\ forall k,
                 In k (map Analytics.g_id
                         (fold_left (fun gs s => Analytics.group_add key s gs)
                            docs gs))
                 <-> In k (map Analytics.g_id gs) \/ In k (map key docs)) as H.
  { induction docs as [|s docs IH]; intros gs Hnd; simpl.
    - split; [exact Hnd | tauto].
    - destruct (IH (Analytics.group_add key s gs)
                  (group_add_ids_NoDup key s gs Hnd)) as [Hnd' Hin].
      split; [exact Hnd'|].
      intros k. rewrite Hin, group_add_ids_in.
      split; [intros [[H|H]|H] | intros [H|[H|H]]]; auto. }
  destruct (H [] ltac:(constructor)) as [Hnd Hin].
  split; [exact Hnd|]. intros k. rewrite Hin. simpl. tauto.
Qed.

Lemma rows_keys (b : bool) (f : Analytics.Group -> Q) (key : Sale -> string)
  (docs : list Sale) :
  Permutation
    (map Analytics.row_key
       (Analytics.with_pct
          (map (Analytics.project b)
             (Analytics.sort_desc f (Analytics.group_by key docs)))))
    (map Analytics.g_id (Analytics.group_by key docs)).
Proof.
  destruct (with_pct_map
              (map (Analytics.project b)
                 (Analytics.sort_desc f (Analytics.group_by key docs))))
    as [-> _].
  rewrite map_map. simpl.
  apply Permutation_map. apply sort_desc_perm.
Qed.

(** X11.  The by_product breakdown has exactly one row for each product sold
    in the filtered set: the row keys are pairwise different, and a name is
    a row key exactly when some filtered sale has that product. *)
Theorem breakdown_one_row_per_product (sales : list Sale)
  (dateFilter : option Z) :
  let rows := Analytics.getByProduct sales dateFilter in
  List.NoDup (map Analytics.row_key rows)
  /\ forall p, In p (map Analytics.row_key rows)
               <-> exists s, In s sales
                             /\ Analytics.matchDate dateFilter s = true
                             /\ product s = p.
Proof.
  intros rows. unfold rows, Analytics.getByProduct.
  set (docs := List.filter (Analytics.matchDate dateFilter) sales).
  pose proof (rows_keys true Analytics.g_revenue product docs) as Hperm.
  destruct (group_by_ids product docs) as [Hnd Hin].
  split.
  - eapply Permutation.Permutation_NoDup; [symmetry; exact Hperm | exact Hnd].
  - intros p. split.
    + intros Hp. apply (Permutation_in _ Hperm) in Hp.
      apply Hin in Hp. apply in_map_iff in Hp.
      destruct Hp as (s & Hs & Hd). unfold docs in Hd.
      apply filter_In in Hd. exists s. tauto.
    + intros (s & Hs & Hm & Hp).
      apply (Permutation_in _ (Permutation_sym Hperm)). apply Hin.
      apply in_map_iff. exists s. split; [exact Hp|].
      unfold docs. apply filter_In. tauto.
Qed.



Lemma overview_fold_counts (docs : list Sale) (a : Analytics.OverviewGroup) :
  Analytics.totalQuantity (fold_left Analytics.overview_step docs a)
  == Analytics.totalQuantity a + Qsum (map quantity docs)
  /\ Analytics.totalOrders (fold_left Analytics.overview_step docs a)
     = (Analytics.totalOrders a + Z.of_nat (length docs))%Z
  /\ Analytics.uniqueProducts (fold_left Analytics.overview_step docs a)
     = Analytics.uniqueProducts a ∪ list_to_set (map product docs)
  /\ Analytics.uniqueChannels (fold_left Analytics.overview_step docs a)
     = Analytics.uniqueChannels a ∪ list_to_set (map purchaseType docs).
Proof.
  revert a. induction docs as [|s docs IH]; intros a.
  - simpl. rewrite Qsum_nil. repeat split; [ring | lia | set_solver | set_solver].
  - cbn [fold_left map length].
    destruct (IH (Analytics.overview_step a s)) as (Hq & Ho & Hp & Hc).
    rewrite Hq, Ho, Hp, Hc, Qsum_cons. simpl.
    repeat split; [ring | lia | set_solver | set_solver].
Qed.



Lemma distinct_keys_size (key : Sale -> string) (docs : list Sale) :
  size (list_to_set (map key docs) : gset string)
  = length (Analytics.group_by key docs).
Proof.
  destruct (group_by_ids key docs) as [Hnd Hin].
  rewrite <- (length_map Analytics.g_id (Analytics.group_by key docs)).
  rewrite <- (size_list_to_set (C := gset string))
    by (apply NoDup_ListNoDup; exact Hnd).
  f_equal. apply set_eq. intros k.
  rewrite !elem_of_list_to_set, !list_elem_of_In. symmetry. apply Hin.
Qed.

Lemma rows_length (b : bool) (f : Analytics.Group -> Q) (key : Sale -> string)
  (docs : list Sale) :
  length (Analytics.with_pct
            (map (Analytics.project b)
               (Analytics.sort_desc f (Analytics.group_by key docs))))
  = length (Analytics.group_by key docs).
Proof.
  unfold Analytics.with_pct. rewrite !length_map.
  apply Permutation_length. apply sort_desc_perm.
Qed.

(** X13.  On a non-empty filtered set the overview counts what the
    breakdowns list: [product_count] is the number of by_product rows and
    [channel_count] the number of by_channel rows. *)
Theorem overview_counts_rows (sales : list Sale) (dateFilter : option Z) :
  List.filter (Analytics.matchDate dateFilter) sales <> [] ->
  let o := Analytics.getOverview sales dateFilter in
  Analytics.product_count o
  = Some (length (Analytics.getByProduct sales dateFilter))
  /\ Analytics.channel_count o
     = Some (length (Analytics.getByChannel sales dateFilter)).
Proof.
  intros Hne o. unfold o, Analytics.getOverview, Analytics.getByProduct,
    Analytics.getByChannel.
  rewrite !rows_length.
  set (docs := List.filter (Analytics.matchDate dateFilter) sales) in *.
  rewrite <- !distinct_keys_size.
  clearbody docs. destruct docs as [|s rest]; [contradiction|].
  cbn [Analytics.product_count Analytics.channel_count].
  unfold Analytics.overview_group.
  destruct (overview_fold_counts (s :: rest)
              {| Analytics.totalRevenue := 0; Analytics.totalQuantity := 0;
                 Analytics.totalOrders := 0; Analytics.priceSum := 0;
                 Analytics.uniqueProducts := ∅;
                 Analytics.uniqueChannels := ∅ |}) as (_ & _ & Hp & Hc).
  rewrite Hp, Hc. cbn [Analytics.uniqueProducts Analytics.uniqueChannels].
  rewrite !(left_id_L ∅ (∪)). split; reflexivity.
Qed.

(** The theorem on scenario A, without date filter. *)
Lemma overview_counts_rows_witness :
  List.filter (Analytics.matchDate None) sales_A <> []
  /\ Analytics.product_count (Analytics.getOverview sales_A None)
     = Some (length (Analytics.getByProduct sales_A None)).
Proof.
  assert (List.filter (Analytics.matchDate None) sales_A <> []) as H
    by (vm_compute; discriminate).
  split; [exact H|].
  exact (proj1 (overview_counts_rows sales_A None H)).
Defined.




(** The lemma [unknown_mode_rejected] on the name ["weekly"]. *)
Lemma unknown_mode_rejected_witness :
  ~ In "weekly" Analytics.analysisMap_keys
  /\ ~ In "weekly" (map Analytics.proto_name Analytics.proto_members)
  /\ Analytics.handleGetSalesAnalytics (fun _ _ => "") sales_A 0 "weekly" 30 "day"
     = {| Analytics.payload :=
            Analytics.UnknownType "weekly"
              ["overview"; "by_product"; "by_channel"; "trend"; "top_sellers"];
          Analytics.isError := true |}.
Proof.
  assert (~ In "weekly" Analytics.analysisMap_keys) as H1
    by (vm_compute; intuition discriminate).
  assert (~ In "weekly" (map Analytics.proto_name Analytics.proto_members))
    as H2 by (vm_compute; intuition discriminate).
  split; [exact H1|]. split; [exact H2|].
  exact (unknown_mode_rejected (fun _ _ => "") sales_A 0 "weekly" 30 "day" H1 H2).
Defined.

(** X15.  Each of the five modes is served: the result is a response that
    echoes the mode, is not flagged as an error, and carries [grouped_by]
    exactly for the trend mode with a non-empty grouping. *)
Theorem known_mode_served (dateToString : string -> Z -> string)
  (sales : list Sale) (now : Z) (m : Analytics.Mode) (days : Z)
  (group_by_arg : string) :
  exists period data,
    Analytics.handleGetSalesAnalytics dateToString sales now
      (Analytics.mode_name m) days group_by_arg
    = {| Analytics.payload :=
           Analytics.Response (Analytics.mode_name m) period
             (match m with
              | Analytics.trend =>
                  if String.eqb group_by_arg "" then None else Some group_by_arg
              | _ => None
              end)
             data;
         Analytics.isError := false |}.
Proof.
  destruct m; unfold Analytics.handleGetSalesAnalytics; cbn;
    rewrite ?andb_false_r, ?andb_true_r;
    try (destruct (String.eqb group_by_arg ""); cbn);
    eexists; eexists; reflexivity.
Qed.

(** ** Profit engine: cost map, missing costs, product filter, totals,
    insights, trend *)

Lemma getCostMap_fold_other (products : list Inventory.ProductDoc)
  (m : gmap string Profit.Cost) (k : string) :
  ~ In k (map Inventory.name products) ->
  fold_left (fun m p =>
               <[ Inventory.name p :=
                    {| Profit.c_costPrice := Inventory.costPrice p;
                       Profit.c_sellPrice := Inventory.sellPrice p;
                       Profit.c_category := Some (Inventory.category p) |} ]> m)
            products m !! k
  = m !! k.
Proof.
  revert m. induction products as [|p products IH]; intros m Hnin; simpl.
  - reflexivity.
  - rewrite IH by (intros H; apply Hnin; right; exact H).
    apply lookup_insert_ne. intros E. apply Hnin. left. exact E.
Qed.

(** X16.  The cost map finds every product of a collection with unique
    names under its name, with the product's own cost price and category;
    a name that no product carries is absent from the map. *)
Theorem getCostMap_lookup (products : list Inventory.ProductDoc) :
  List.NoDup (map Inventory.name products) ->
  (forall p, In p products ->
     Profit.getCostMap products !! Inventory.name p
     = Some {| Profit.c_costPrice := Inventory.costPrice p;
               Profit.c_sellPrice := Inventory.sellPrice p;
               Profit.c_category := Some (Inventory.category p) |})
  /\ (forall k, ~ In k (map Inventory.name products) ->
        Profit.getCostMap products !! k = None).
Proof.
  intros Hnd. unfold Profit.getCostMap. split.
  - generalize (∅ : gmap string Profit.Cost) as m.
    induction products as [|q products IH]; intros m p Hp; simpl.
    + contradiction.
    + inversion Hnd as [|? ? Hnin Hnd']; subst.
      destruct Hp as [-> | Hp]; [|apply IH; assumption].
      rewrite getCostMap_fold_other by exact Hnin.
      apply lookup_insert_eq.
  - intros k Hk. rewrite getCostMap_fold_other by exact Hk.
    apply lookup_empty.
Qed.

(** The theorem on the collection holding the Fries product only. *)
Lemma getCostMap_lookup_witness :
  List.NoDup (map Inventory.name [fries_doc])
  /\ Profit.getCostMap [fries_doc] !! "Fries"
     = Some {| Profit.c_costPrice := 80 # 100; Profit.c_sellPrice := 349 # 100;
               Profit.c_category := Some "side" |}.
Proof.
  assert (List.NoDup (map Inventory.name [fries_doc])) as H
    by (constructor; [intros [] | constructor]).
  split; [exact H|].
  exact (proj1 (getCostMap_lookup [fries_doc] H) fries_doc
           (or_introl eq_refl)).
Defined.

Lemma round2_comp (x y : Q) : x == y -> round2 x = round2 y.
Proof. intros H. unfold round2. rewrite (Math_round_comp (x * 100) (y * 100)); [reflexivity|]. rewrite H. reflexivity. Qed.

(** X17.  A product that is sold but has no entry in the cost map is costed
    at 0: its row has category ["unknown"], a cost of goods of 0 and a
    gross profit equal to its revenue. *)
Theorem profit_row_without_cost (costMap : gmap string Profit.Cost)
  (item : Analytics.Group) :
  costMap !! Analytics.g_id item = None ->
  let r := Profit.profit_row costMap item in
  Profit.pr_category r = "unknown"
  /\ Profit.cost_per_unit r = 0
  /\ Profit.cost_of_goods r == 0
  /\ Profit.gross_profit r = Profit.revenue r.
Proof.
  intros Hnone. unfold Profit.profit_row. rewrite Hnone. cbn zeta. simpl.
  split; [reflexivity|]. split; [reflexivity|]. split.
  - rewrite (round2_comp (0 * Analytics.g_quantity item) 0) by ring.
    reflexivity.
  - apply round2_comp. ring.
Qed.

(** The theorem on a sale of Fries against an empty cost map. *)
Lemma profit_row_without_cost_witness :
  let item := nth 0 (Profit.salesByProduct sales_three
                       (Profit.buildFilter 0 0 "all")) no_group in
  (∅ : gmap string Profit.Cost) !! Analytics.g_id item = None
  /\ Profit.gross_profit (Profit.profit_row ∅ item)
     = Profit.revenue (Profit.profit_row ∅ item).
Proof.
  intros item.
  assert ((∅ : gmap string Profit.Cost) !! Analytics.g_id item = None) as H
    by reflexivity.
  split; [exact H|].
  exact (proj2 (proj2 (proj2 (profit_row_without_cost ∅ item H)))).
Defined.






Lemma js_insert_perm {A : Type} (key : A -> Q) (x : A) (l : list A) :
  Permutation (JsSort.insert key x l) (x :: l).
Proof.
  induction l as [|h l IH]; simpl.
  - reflexivity.
  - destruct (Qltb (key x) (key h)).
    + rewrite IH. apply perm_swap.
    + reflexivity.
Qed.

Lemma js_sort_perm {A : Type} (key : A -> Q) (l : list A) :
  Permutation (JsSort.sort key l) l.
Proof.
  induction l as [|x l IH]; simpl.
  - reflexivity.
  - rewrite js_insert_perm. constructor. exact IH.
Qed.

Lemma js_insert_descending {A : Type} (key : A -> Q) (x : A) (l : list A) :
  descending key l -> descending key (JsSort.insert key x l).
Proof.
  unfold descending.
  induction l as [|h l IH]; simpl; intros Hs.
  - repeat constructor.
  - inversion Hs as [|? ? Hs' Hall]; subst.
    destruct (Qltb (key x) (key h)) eqn:E.
    + apply Qltb_true in E. constructor; [apply IH; exact Hs'|].
      eapply Permutation_Forall; [symmetry; apply js_insert_perm|].
      constructor; [lra | exact Hall].
    + apply Qltb_false in E. constructor; [exact Hs|].
      constructor; [exact E|].
      eapply List.Forall_impl; [|exact Hall]. simpl. intros y Hy. lra.
Qed.

Lemma js_sort_descending {A : Type} (key : A -> Q) (l : list A) :
  descending key (JsSort.sort key l).
Proof.
  induction l as [|x l IH]; simpl.
  - constructor.
  - apply js_insert_descending. exact IH.
Qed.

Lemma descending_first {A : Type} (key : A -> Q) (l : list A) (r : A) :
  descending key l -> nth_error l 0 = Some r ->
  In r l /\ forall x, In x l -> key x <= key r.
Proof.
  unfold descending. intros Hs Hr. destruct l as [|a l]; [discriminate|].
  inversion Hr; subst a. inversion Hs as [|? ? _ Hall]; subst.
  split; [left; reflexivity|].
  intros x [<- | Hx]; [lra|].
  rewrite List.Forall_forall in Hall. apply Hall. exact Hx.
Qed.

Lemma descending_last {A : Type} (key : A -> Q) (l : list A) (r : A) :
  descending key l -> nth_error l (length l - 1) = Some r ->
  In r l /\ forall x, In x l -> key r <= key x.
Proof.
  unfold descending. intros Hs. revert r.
  induction Hs as [|a l Hs IH Hall]; intros r Hr; [discriminate|].
  destruct l as [|b l].
  - inversion Hr; subst. split; [left; reflexivity|].
    intros x [<- | []]. lra.
  - assert (nth_error (b :: l) (length (b :: l) - 1) = Some r) as Hr'.
    { simpl in *. rewrite Nat.sub_0_r in *. exact Hr. }
    destruct (IH r Hr') as [Hin Hmin].
    split; [right; exact Hin|].
    intros x [<- | Hx]; [|apply Hmin; exact Hx].
    rewrite List.Forall_forall in Hall. apply Hall. exact Hin.
Qed.

(** X20.  The insights name rows of the breakdown that are extremal: no row
    has a greater margin than the highest-margin product, none a smaller
    margin than the lowest-margin product, none a greater gross profit than
    the most profitable product; all three are ["N/A"] only for an empty
    breakdown. *)
Theorem insights_extremal (breakdown : list Profit.ProfitRow)
  (t : ProfitReport.Totals) :
  let i := ProfitReport.insights_of breakdown t in
  (forall p m, ProfitReport.highest_margin_product i = Some (p, m) ->
     (exists r, In r breakdown /\ Profit.pr_product r = p
                /\ Profit.margin_percent r = m)
     /\ forall r, In r breakdown -> Profit.margin_percent r <= m)
  /\ (forall p m, ProfitReport.lowest_margin_product i = Some (p, m) ->
        (exists r, In r breakdown /\ Profit.pr_product r = p
                   /\ Profit.margin_percent r = m)
        /\ forall r, In r breakdown -> m <= Profit.margin_percent r)
  /\ (forall p g, ProfitReport.most_profitable_product i = Some (p, g) ->
        (exists r, In r breakdown /\ Profit.pr_product r = p
                   /\ Profit.gross_profit r = g)
        /\ forall r, In r breakdown -> Profit.gross_profit r <= g)
  /\ (breakdown <> [] ->
      ProfitReport.highest_margin_product i <> None
      /\ ProfitReport.lowest_margin_product i <> None
      /\ ProfitReport.most_profitable_product i <> None).
Proof.
  unfold ProfitReport.insights_of.
  cbn [ProfitReport.highest_margin_product ProfitReport.lowest_margin_product
       ProfitReport.most_profitable_product].
  pose proof (js_sort_perm Profit.margin_percent breakdown) as Pm.
  pose proof (js_sort_descending Profit.margin_percent breakdown) as Sm.
  pose proof (js_sort_perm Profit.gross_profit breakdown) as Pg.
  pose proof (js_sort_descending Profit.gross_profit breakdown) as Sg.
  set (byMargin := JsSort.sort Profit.margin_percent breakdown) in *.
  set (byProfit := JsSort.sort Profit.gross_profit breakdown) in *.
  split; [|split; [|split]].
  - intros p m H.
    destruct (nth_error byMargin 0) as [r|] eqn:E; [|discriminate].
    simpl in H. inversion H; subst. destruct (descending_first _ _ _ Sm E) as [Hin Hmax].
    split.
    + exists r. split; [exact (Permutation_in _ Pm Hin) | tauto].
    + intros x Hx. apply Hmax.
      eapply Permutation_in; [symmetry; exact Pm | exact Hx].
  - intros p m H.
    destruct (nth_error byMargin (length byMargin - 1)) as [r|] eqn:E;
      [|discriminate].
    simpl in H. inversion H; subst. destruct (descending_last _ _ _ Sm E) as [Hin Hmin].
    split.
    + exists r. split; [exact (Permutation_in _ Pm Hin) | tauto].
    + intros x Hx. apply Hmin.
      eapply Permutation_in; [symmetry; exact Pm | exact Hx].
  - intros p g H.
    destruct (nth_error byProfit 0) as [r|] eqn:E; [|discriminate].
    simpl in H. inversion H; subst. destruct (descending_first _ _ _ Sg E) as [Hin Hmax].
    split.
    + exists r. split; [exact (Permutation_in _ Pg Hin) | tauto].
    + intros x Hx. apply Hmax.
      eapply Permutation_in; [symmetry; exact Pg | exact Hx].
  - intros Hne.
    assert (byMargin <> []) as Hm.
    { intros E. rewrite E in Pm. apply Permutation_nil in Pm. contradiction. }
    assert (byProfit <> []) as Hg.
    { intros E. rewrite E in Pg. apply Permutation_nil in Pg. contradiction. }
    split; [|split].
    + destruct byMargin; [contradiction | discriminate].
    + destruct (nth_error byMargin (length byMargin - 1)) eqn:E;
        [discriminate|].
      apply nth_error_None in E. destruct byMargin; [contradiction|].
      simpl in E. lia.
    + destruct byProfit; [contradiction | discriminate].
Qed.






(** ** Demand forecast: primary path, edge cases, peak, dates *)


(** X23.  Without any sale in the 30-day window the fallback answers with
    the "no historical data" result, which the handler returns as an
    ordinary result, not flagged as an error. *)
Theorem fallback_without_history (tz : Z) (random : nat -> Q)
  (MLResponse : Type) (sales : list Sale) (now : Z) (product_arg : string)
  (days_ahead : Z) :
  List.filter (Forecast.matchFilter (now - 30 * MS_PER_DAY) product_arg) sales
  = [] ->
  Forecast.fallbackPath tz random MLResponse sales now product_arg days_ahead
  = {| Forecast.f_payload :=
         Forecast.Fallback MLResponse (Forecast.NoHistory product_arg);
       Forecast.f_isError := false |}.
Proof.
  intros Hempty.
  unfold Forecast.fallbackPath, Forecast.movingAverageFallback,
    Forecast.dailyData.
  rewrite Hempty. reflexivity.
Qed.

(** The theorem on sales that are all older than the window. *)
Lemma fallback_without_history_witness :
  List.filter (Forecast.matchFilter (100 * MS_PER_DAY - 30 * MS_PER_DAY) "Fries")
    sales_A = []
  /\ Forecast.fallbackPath 0 (fun _ => 1 # 2) Z sales_A (100 * MS_PER_DAY)
       "Fries" 7
     = {| Forecast.f_payload := Forecast.Fallback Z (Forecast.NoHistory "Fries");
          Forecast.f_isError := false |}.
Proof.
  assert (List.filter
            (Forecast.matchFilter (100 * MS_PER_DAY - 30 * MS_PER_DAY) "Fries")
            sales_A = []) as H by reflexivity.
  split; [exact H|].
  exact (fallback_without_history 0 (fun _ => 1 # 2) Z sales_A
           (100 * MS_PER_DAY) "Fries" 7 H).
Defined.

(** With a history but a horizon below 1 the fallback builds no
    prediction and fails on the peak day: the handler returns an error
    result. *)
Theorem fallback_without_horizon (tz : Z) (random : nat -> Q)
  (MLResponse : Type) (sales : list Sale) (now : Z) (product_arg : string)
  (days_ahead : Z) :
  (days_ahead < 1)%Z ->
  List.filter (Forecast.matchFilter (now - 30 * MS_PER_DAY) product_arg) sales
  <> [] ->
  Forecast.f_isError MLResponse
    (Forecast.fallbackPath tz random MLResponse sales now product_arg days_ahead)
  = true.
Proof.
  intros Hlt Hne. apply dailyData_nonempty in Hne.
  unfold Forecast.fallbackPath, Forecast.movingAverageFallback.
  destruct (Forecast.dailyData sales now product_arg) as [|d ds];
    [contradiction|].
  cbv zeta.
  assert (Z.to_nat days_ahead = 0%nat) as -> by lia.
  reflexivity.
Qed.

(** The theorem on scenario A with a horizon of 0. *)
Lemma fallback_without_horizon_witness :
  (0 < 1)%Z
  /\ List.filter (Forecast.matchFilter (3 * MS_PER_DAY - 30 * MS_PER_DAY) "Fries")
       sales_A <> []
  /\ Forecast.f_isError Z
       (Forecast.fallbackPath 0 (fun _ => 1 # 2) Z sales_A (3 * MS_PER_DAY)
          "Fries" 0)
     = true.
Proof.
  assert (0 < 1)%Z as H1 by lia.
  assert (List.filter
            (Forecast.matchFilter (3 * MS_PER_DAY - 30 * MS_PER_DAY) "Fries")
            sales_A <> []) as H2 by (vm_compute; discriminate).
  split; [exact H1|]. split; [exact H2|].
  exact (fallback_without_horizon 0 (fun _ => 1 # 2) Z sales_A
           (3 * MS_PER_DAY) "Fries" 0 H1 H2).
Defined.

(** The forecast of the fallback, with the loop laid open. *)
Lemma fallback_steps (tz : Z) (random : nat -> Q) (sales : list Sale)
  (now : Z) (product_arg : string) (N : Z) :
  (1 <= N)%Z ->
  List.filter (Forecast.matchFilter (now - 30 * MS_PER_DAY) product_arg) sales
  <> [] ->
  exists avgDaily avgRevenue mults n,
    Z.to_nat N = S n
    /\ let step := Forecast.predict tz random now avgDaily avgRevenue mults in
       let predictions := map step (seq 1 (S n)) in
       Forecast.movingAverageFallback tz random sales now product_arg N
       = Returned
           (Forecast.FallbackForecast product_arg N
              {| Forecast.total_predicted_quantity :=
                   Forecast.totalPredQty predictions;
                 Forecast.avg_daily_predicted :=
                   Math_round (inject_Z (Forecast.totalPredQty predictions)
                               / inject_Z N);
                 Forecast.peak_day := Forecast.peak predictions (step 1%nat) |}
              predictions).
Proof.
  intros HN Hne. apply dailyData_nonempty in Hne.
  unfold Forecast.movingAverageFallback.
  destruct (Forecast.dailyData sales now product_arg) as [|d ds] eqn:Hdata;
    [contradiction|].
  cbv zeta.
  destruct (Z.to_nat N) as [|n] eqn:Hn; [lia|].
  do 3 eexists. exists n. split; [reflexivity|].
  cbn [seq map]. reflexivity.
Qed.

Lemma peak_spec (predictions : list Forecast.Prediction)
  (first : Forecast.Prediction) :
  let r := Forecast.peak predictions first in
  (r = first \/ In r predictions)
  /\ (Forecast.predicted_quantity first <= Forecast.predicted_quantity r)%Z
  /\ Forall (fun p => (Forecast.predicted_quantity p
                       <= Forecast.predicted_quantity r)%Z) predictions.
Proof.
  unfold Forecast.peak. revert first.
  induction predictions as [|p ps IH]; intros first; simpl.
  - split; [left; reflexivity|]. split; [lia | constructor].
  - destruct (Z.ltb_spec (Forecast.predicted_quantity first)
                (Forecast.predicted_quantity p)) as [Hlt|Hge].
    + destruct (IH p) as (Hin & Hle & Hall).
      split; [right; destruct Hin as [-> | Hin]; [left | right]; auto|].
      split; [lia|]. constructor; assumption.
    + destruct (IH first) as (Hin & Hle & Hall).
      split; [destruct Hin as [-> | Hin]; [left | right; right]; auto|].
      split; [lia|]. constructor; [lia | assumption].
Qed.

(** X24.  The peak day of the fallback summary is one of the forecast
    entries and no entry has a greater predicted quantity; the average is
    the total over the horizon, rounded to the nearest integer. *)
Theorem fallback_peak_is_max (tz : Z) (random : nat -> Q) (sales : list Sale)
  (now : Z) (product_arg : string) (N : Z) :
  (1 <= N)%Z ->
  List.filter (Forecast.matchFilter (now - 30 * MS_PER_DAY) product_arg) sales
  <> [] ->
  exists summary daily_forecast,
    Forecast.movingAverageFallback tz random sales now product_arg N
    = Returned (Forecast.FallbackForecast product_arg N summary daily_forecast)
    /\ In (Forecast.peak_day summary) daily_forecast
    /\ Forall (fun p => (Forecast.predicted_quantity p
                         <= Forecast.predicted_quantity
                              (Forecast.peak_day summary))%Z) daily_forecast
    /\ Forecast.avg_daily_predicted summary
       = Math_round (inject_Z (quantity_sum daily_forecast) / inject_Z N).
Proof.
  intros HN Hne.
  destruct (fallback_steps tz random sales now product_arg N HN Hne)
    as (avgDaily & avgRevenue & mults & n & Hn & Heq).
  cbv zeta in Heq. rewrite Heq. eexists. eexists.
  split; [reflexivity|]. cbn [Forecast.peak_day Forecast.avg_daily_predicted].
  set (step := Forecast.predict tz random now avgDaily avgRevenue mults) in *.
  destruct (peak_spec (map step (seq 1 (S n))) (step 1%nat)) as (Hin & _ & Hall).
  split; [|split].
  - destruct Hin as [-> | Hin]; [left; reflexivity | exact Hin].
  - exact Hall.
  - rewrite totalPredQty_sum. reflexivity.
Qed.

(** The theorem on scenario A, three days ahead, every draw being 1/2. *)
Lemma fallback_peak_is_max_witness :
  (1 <= 3)%Z
  /\ List.filter (Forecast.matchFilter (3 * MS_PER_DAY - 30 * MS_PER_DAY) "Fries")
       sales_A <> []
  /\ exists summary daily_forecast,
       Forecast.movingAverageFallback 0 (fun _ => 1 # 2) sales_A
         (3 * MS_PER_DAY) "Fries" 3
       = Returned (Forecast.FallbackForecast "Fries" 3 summary daily_forecast)
       /\ In (Forecast.peak_day summary) daily_forecast
       /\ Forall (fun p => (Forecast.predicted_quantity p
                            <= Forecast.predicted_quantity
                                 (Forecast.peak_day summary))%Z) daily_forecast
       /\ Forecast.avg_daily_predicted summary
          = Math_round (inject_Z (quantity_sum daily_forecast) / inject_Z 3).
Proof.
  assert (1 <= 3)%Z as H1 by lia.
  assert (List.filter
            (Forecast.matchFilter (3 * MS_PER_DAY - 30 * MS_PER_DAY) "Fries")
            sales_A <> []) as H2 by (vm_compute; discriminate).
  split; [exact H1|]. split; [exact H2|].
  exact (fallback_peak_is_max 0 (fun _ => 1 # 2) sales_A (3 * MS_PER_DAY)
           "Fries" 3 H1 H2).
Defined.

(** X25.  The fallback forecasts the days that follow the call, one entry a
    day: the entry at position [k] (from 0) is dated [k + 1] days after the
    day of the call, and no predicted revenue is negative. *)
Theorem fallback_days_follow (tz : Z) (random : nat -> Q) (sales : list Sale)
  (now : Z) (product_arg : string) (N : Z) :
  (1 <= N)%Z ->
  List.filter (Forecast.matchFilter (now - 30 * MS_PER_DAY) product_arg) sales
  <> [] ->
  exists summary daily_forecast,
    Forecast.movingAverageFallback tz random sales now product_arg N
    = Returned (Forecast.FallbackForecast product_arg N summary daily_forecast)
    /\ (forall k p, nth_error daily_forecast k = Some p ->
          Forecast.p_date p = (day_of now + Z.of_nat k + 1)%Z)
    /\ Forall (fun p => 0 <= Forecast.predicted_revenue p) daily_forecast.
Proof.
  intros HN Hne.
  destruct (fallback_steps tz random sales now product_arg N HN Hne)
    as (avgDaily & avgRevenue & mults & n & Hn & Heq).
  cbv zeta in Heq. rewrite Heq. eexists. eexists.
  split; [reflexivity|].
  set (step := Forecast.predict tz random now avgDaily avgRevenue mults) in *.
  split.
  - intros k p Hk.
    rewrite nth_error_map in Hk.
    destruct (nth_error (seq 1 (S n)) k) as [i|] eqn:Ei; [|discriminate].
    simpl in Hk. inversion Hk; subst p.
    assert (i = S k) as ->.
    { pose proof (nth_error_nth _ _ 0%nat Ei) as Hnth.
      assert (k < length (seq 1 (S n)))%nat as Hlt
        by (apply nth_error_Some; congruence).
      rewrite length_seq in Hlt.
      rewrite seq_nth in Hnth by exact Hlt. lia. }
    unfold step, Forecast.predict. cbn [Forecast.p_date].
    unfold day_of, MS_PER_DAY. rewrite Z.div_add by lia. lia.
  - apply List.Forall_forall. intros p Hp. apply in_map_iff in Hp.
    destruct Hp as (i & <- & _).
    unfold step, Forecast.predict. cbn [Forecast.predicted_revenue].
    apply Math_max_bounds.
Qed.

(** The theorem on scenario A, three days ahead, every draw being 1/2. *)
Lemma fallback_days_follow_witness :
  (1 <= 3)%Z
  /\ List.filter (Forecast.matchFilter (3 * MS_PER_DAY - 30 * MS_PER_DAY) "Fries")
       sales_A <> []
  /\ exists summary daily_forecast,
       Forecast.movingAverageFallback 0 (fun _ => 1 # 2) sales_A
         (3 * MS_PER_DAY) "Fries" 3
       = Returned (Forecast.FallbackForecast "Fries" 3 summary daily_forecast)
       /\ (forall k p, nth_error daily_forecast k = Some p ->
             Forecast.p_date p = (day_of (3 * MS_PER_DAY) + Z.of_nat k + 1)%Z)
       /\ Forall (fun p => 0 <= Forecast.predicted_revenue p) daily_forecast.
Proof.
  assert (1 <= 3)%Z as H1 by lia.
  assert (List.filter
            (Forecast.matchFilter (3 * MS_PER_DAY - 30 * MS_PER_DAY) "Fries")
            sales_A <> []) as H2 by (vm_compute; discriminate).
  split; [exact H1|]. split; [exact H2|].
  exact (fallback_days_follow 0 (fun _ => 1 # 2) sales_A (3 * MS_PER_DAY)
           "Fries" 3 H1 H2).
Defined.

(** ** Festival cache: upsert, refresh, query *)

Lemma lookup_key (n : string) (d : Z) (store : list Festivals.Festival)
  (f : Festivals.Festival) :
  Festivals.lookup n d store = Some f ->
  In f store /\ Festivals.name f = n /\ Festivals.date f = d.
Proof.
  unfold Festivals.lookup. intros H. apply find_some in H.
  destruct H as [Hin Hk]. apply andb_true_iff in Hk. destruct Hk as [Hn Hd].
  apply String.eqb_eq in Hn. apply Z.eqb_eq in Hd. tauto.
Qed.

Lemma lookup_none_keys (n : string) (d : Z) (store : list Festivals.Festival) :
  Festivals.lookup n d store = None <-> ~ In (n, d) (map festival_key store).
Proof.
  unfold Festivals.lookup. induction store as [|f store IH]; simpl.
  - tauto.
  - destruct (String.eqb_spec (Festivals.name f) n) as [En|Hn];
      destruct (Z.eqb_spec (Festivals.date f) d) as [Ed|Hd]; simpl.
    + split; [discriminate|]. intros H. exfalso. apply H. left.
      unfold festival_key. congruence.
    + rewrite IH.
      split; [intros H [E|E]; [inversion E; congruence | tauto] | tauto].
    + rewrite IH.
      split; [intros H [E|E]; [inversion E; congruence | tauto] | tauto].
    + rewrite IH.
      split; [intros H [E|E]; [inversion E; congruence | tauto] | tauto].
Qed.

Lemma updateOne_keys (holiday : Festivals.Holiday) (country : string) (now : Z)
  (store : list Festivals.Festival) :
  map festival_key (Festivals.updateOne holiday country now store)
  = match Festivals.lookup (Festivals.h_name holiday)
            (Festivals.h_date holiday) store with
    | Some _ => map festival_key store
    | None => map festival_key store ++ [holiday_key holiday]
    end.
Proof.
  unfold Festivals.lookup. induction store as [|f store IH]; simpl.
  - reflexivity.
  - destruct (String.eqb (Festivals.name f) (Festivals.h_name holiday)
              && (Festivals.date f =? Festivals.h_date holiday)%Z)%bool eqn:E;
      simpl.
    + reflexivity.
    + rewrite IH.
      destruct (List.find _ store); reflexivity.
Qed.

Lemma updateOne_inserts (holiday : Festivals.Holiday) (country : string)
  (now : Z) (store : list Festivals.Festival) :
  Festivals.lookup (Festivals.h_name holiday) (Festivals.h_date holiday) store
  = None ->
  Festivals.lookup (Festivals.h_name holiday) (Festivals.h_date holiday)
    (Festivals.updateOne holiday country now store)
  = Some (Festivals.inserted holiday country now).
Proof.
  unfold Festivals.lookup. induction store as [|f store IH]; simpl.
  - intros _. rewrite String.eqb_refl, Z.eqb_refl. reflexivity.
  - destruct (String.eqb (Festivals.name f) (Festivals.h_name holiday)
              && (Festivals.date f =? Festivals.h_date holiday)%Z)%bool eqn:E.
    + discriminate.
    + intros H. simpl. rewrite E. apply IH. exact H.
Qed.

(** After [updateOne] the holiday is stored with the refreshed fields. *)
Lemma updateOne_stores (holiday : Festivals.Holiday) (country : string)
  (now : Z) (store : list Festivals.Festival) :
  exists f,
    Festivals.lookup (Festivals.h_name holiday) (Festivals.h_date holiday)
      (Festivals.updateOne holiday country now store) = Some f
    /\ refreshed_entry country now (holiday_key holiday) f.
Proof.
  destruct (Festivals.lookup (Festivals.h_name holiday)
              (Festivals.h_date holiday) store) as [g|] eqn:E.
  - exists (Festivals.apply_set holiday country now g).
    split; [apply updateOne_overwrites; exact E|].
    apply lookup_key in E. destruct E as (_ & Hn & Hd).
    unfold refreshed_entry, holiday_key. simpl. repeat split; assumption.
  - exists (Festivals.inserted holiday country now).
    split; [apply updateOne_inserts; exact E|].
    unfold refreshed_entry, holiday_key. simpl. repeat split.
Qed.

Lemma updateOne_keeps_refreshed (holiday : Festivals.Holiday) (country : string)
  (now : Z) (store : list Festivals.Festival) (key : string * Z) :
  (exists f, Festivals.lookup (fst key) (snd key) store = Some f
             /\ refreshed_entry country now key f) ->
  exists f, Festivals.lookup (fst key) (snd key)
              (Festivals.updateOne holiday country now store) = Some f
            /\ refreshed_entry country now key f.
Proof.
  intros (f & Hf & Hr).
  destruct (String.eqb (fst key) (Festivals.h_name holiday)
            && (snd key =? Festivals.h_date holiday)%Z)%bool eqn:E.
  - apply andb_true_iff in E. destruct E as [En Ed].
    apply String.eqb_eq in En. apply Z.eqb_eq in Ed.
    destruct (updateOne_stores holiday country now store) as (g & Hg & Hgr).
    exists g. rewrite En, Ed. split; [exact Hg|].
    destruct key as [n d]. simpl in *. subst. exact Hgr.
  - exists f. split; [|exact Hr].
    rewrite updateOne_frame by exact E. exact Hf.
Qed.

Lemma sync_fold (holidays : list Festivals.Holiday) (country : string)
  (now : Z) (store : list Festivals.Festival) (n : nat) :
  fold_left (fun '(st, synced) holiday =>
               (Festivals.updateOne holiday country now st, S synced))
            holidays (store, n)
  = (fold_left (fun st holiday => Festivals.updateOne holiday country now st)
       holidays store,
     (n + length holidays)%nat).
Proof.
  revert store n. induction holidays as [|h hs IH]; intros store n; simpl.
  - f_equal. lia.
  - rewrite IH. f_equal. lia.
Qed.

Lemma sync_stores (holidays : list Festivals.Holiday) (country : string)
  (now : Z) (store : list Festivals.Festival) (key : string * Z) :
  (In key (map holiday_key holidays)
   \/ exists f, Festivals.lookup (fst key) (snd key) store = Some f
                /\ refreshed_entry country now key f) ->
  exists f,
    Festivals.lookup (fst key) (snd key)
      (fold_left (fun st holiday => Festivals.updateOne holiday country now st)
         holidays store) = Some f
    /\ refreshed_entry country now key f.
Proof.
  revert store. induction holidays as [|h hs IH]; intros store H; simpl.
  - destruct H as [[] | H]. exact H.
  - apply IH. destruct H as [[<- | Hin] | H].
    + right. apply updateOne_stores.
    + left. exact Hin.
    + right. apply updateOne_keeps_refreshed. exact H.
Qed.

(** X26.  After [syncFestivalsToCache] every fetched holiday is found under
    its (name, date) key, tagged with the country, the API source, the
    keyword-derived multiplier and the time of the sync; [synced] is the
    number of fetched holidays. *)
Theorem sync_stores_holidays (holidays : list Festivals.Holiday)
  (country : string) (now : Z) (store : list Festivals.Festival) :
  snd (Festivals.syncFestivalsToCache holidays country now store)
  = length holidays
  /\ forall h, In h holidays ->
       exists f,
         Festivals.lookup (Festivals.h_name h) (Festivals.h_date h)
           (fst (Festivals.syncFestivalsToCache holidays country now store))
         = Some f
         /\ refreshed_entry country now (holiday_key h) f.
Proof.
  unfold Festivals.syncFestivalsToCache. rewrite sync_fold. simpl.
  split; [reflexivity|].
  intros h Hh.
  apply (sync_stores holidays country now store (holiday_key h)).
  left. apply in_map. exact Hh.
Qed.

Lemma updateOne_keys_NoDup (holiday : Festivals.Holiday) (country : string)
  (now : Z) (store : list Festivals.Festival) :
  List.NoDup (map festival_key store) ->
  List.NoDup (map festival_key (Festivals.updateOne holiday country now store)).
Proof.
  intros Hnd. rewrite updateOne_keys.
  destruct (Festivals.lookup (Festivals.h_name holiday)
              (Festivals.h_date holiday) store) eqn:E; [exact Hnd|].
  apply lookup_none_keys in E.
  apply (Permutation.Permutation_NoDup
           (Permutation_cons_append (map festival_key store)
              (holiday_key holiday))).
  constructor; assumption.
Qed.

Lemma sync_frame (holidays : list Festivals.Holiday) (country : string)
  (now : Z) (store : list Festivals.Festival) (n : string) (d : Z) :
  ~ In (n, d) (map holiday_key holidays) ->
  Festivals.lookup n d
    (fold_left (fun st holiday => Festivals.updateOne holiday country now st)
       holidays store)
  = Festivals.lookup n d store.
Proof.
  revert store. induction holidays as [|h hs IH]; intros store Hnin; simpl.
  - reflexivity.
  - rewrite IH by (intros Hin; apply Hnin; right; exact Hin).
    apply updateOne_frame.
    destruct (String.eqb_spec n (Festivals.h_name h)) as [En|Hn];
      [|reflexivity].
    destruct (Z.eqb_spec d (Festivals.h_date h)) as [Ed|Hd]; [|reflexivity].
    exfalso. apply Hnin. left. unfold holiday_key. congruence.
Qed.

Lemma sync_keys_present (holidays : list Festivals.Holiday) (country : string)
  (now : Z) (store : list Festivals.Festival) :
  (forall h, In h holidays -> In (holiday_key h) (map festival_key store)) ->
  map festival_key
    (fold_left (fun st holiday => Festivals.updateOne holiday country now st)
       holidays store)
  = map festival_key store.
Proof.
  revert store. induction holidays as [|h hs IH]; intros store Hall; simpl.
  - reflexivity.
  - assert (map festival_key (Festivals.updateOne h country now store)
            = map festival_key store) as Hsame.
    { rewrite updateOne_keys.
      destruct (Festivals.lookup (Festivals.h_name h) (Festivals.h_date h)
                  store) eqn:E; [reflexivity|].
      apply lookup_none_keys in E. exfalso. apply E.
      apply (Hall h). left. reflexivity. }
    rewrite IH; [exact Hsame|].
    intros h' Hh'. rewrite Hsame. apply Hall. right. exact Hh'.
Qed.

(** X27.  [syncFestivalsToCache] respects the unique (name, date) index:
    distinct keys stay distinct, an entry whose key is not among the fetched
    holidays is left as it was, and syncing the same holidays once more adds
    no entry. *)
Theorem sync_keeps_index (holidays : list Festivals.Holiday)
  (country : string) (now now' : Z) (store : list Festivals.Festival) :
  let store1 := fst (Festivals.syncFestivalsToCache holidays country now store) in
  (List.NoDup (map festival_key store) -> List.NoDup (map festival_key store1))
  /\ (forall n d, ~ In (n, d) (map holiday_key holidays) ->
        Festivals.lookup n d store1 = Festivals.lookup n d store)
  /\ map festival_key
       (fst (Festivals.syncFestivalsToCache holidays country now' store1))
     = map festival_key store1.
Proof.
  unfold Festivals.syncFestivalsToCache. rewrite !sync_fold. simpl.
  split; [|split].
  - revert store. induction holidays as [|h hs IH]; intros store Hnd; simpl.
    + exact Hnd.
    + apply IH. apply updateOne_keys_NoDup. exact Hnd.
  - intros n d Hnin. apply sync_frame. exact Hnin.
  - apply sync_keys_present.
    intros h Hh.
    destruct (sync_stores holidays country now store (holiday_key h))
      as (f & Hf & _).
    { left. apply in_map. exact Hh. }
    apply lookup_key in Hf. destruct Hf as (Hin & Hn & Hd).
    replace (holiday_key h) with (festival_key f).
    + apply in_map. exact Hin.
    + unfold festival_key, holiday_key. simpl in Hn, Hd. congruence.
Qed.

Lemma latest_fold_mono (country : string) (store : list Festivals.Festival)
  (t0 : Z) :
  exists t,
    fold_left (fun acc f =>
                 if String.eqb (Festivals.countryCode f) country then
                   match acc with
                   | Some t => Some (Z.max t (Festivals.fetchedAt f))
                   | None => Some (Festivals.fetchedAt f)
                   end
                 else acc)
              store (Some t0) = Some t
    /\ (t0 <= t)%Z.
Proof.
  revert t0. induction store as [|g store IH]; intros t0; simpl.
  - exists t0. split; [reflexivity | lia].
  - destruct (String.eqb (Festivals.countryCode g) country).
    + destruct (IH (Z.max t0 (Festivals.fetchedAt g))) as (t & Ht & Hle).
      exists t. split; [exact Ht | lia].
    + apply IH.
Qed.

Lemma latestFetched_ge (country : string) (store : list Festivals.Festival)
  (f : Festivals.Festival) :
  In f store -> Festivals.countryCode f = country ->
  exists t, Festivals.latestFetched country store = Some t
            /\ (Festivals.fetchedAt f <= t)%Z.
Proof.
  unfold Festivals.latestFetched. generalize (@None Z).
  induction store as [|g store IH]; intros acc Hin Hc; simpl; [destruct Hin|].
  destruct Hin as [-> | Hin].
  - rewrite Hc, String.eqb_refl.
    destruct acc as [t0|].
    + destruct (latest_fold_mono country store
                  (Z.max t0 (Festivals.fetchedAt f))) as (t & Ht & Hle).
      exists t. split; [exact Ht | lia].
    + apply latest_fold_mono.
  - apply IH; assumption.
Qed.

Lemma refresh_stores (fetch : Z -> option (list Festivals.Holiday))
  (currentYear month : Z) (country : string) (now : Z)
  (store store' : list Festivals.Festival) (hs : list Festivals.Holiday)
  (h : Festivals.Holiday) :
  Festivals.isCacheFresh country now store = false ->
  fetch currentYear = Some hs ->
  In h hs ->
  Festivals.refresh fetch currentYear month country now store = Some store' ->
  exists f,
    Festivals.lookup (Festivals.h_name h) (Festivals.h_date h) store' = Some f
    /\ refreshed_entry country now (holiday_key h) f.
Proof.
  intros Hstale Hfetch Hh. unfold Festivals.refresh.
  rewrite Hstale, Hfetch. unfold Festivals.syncFestivalsToCache.
  rewrite sync_fold. simpl.
  pose proof (sync_stores hs country now store (holiday_key h)
                (or_introl (in_map holiday_key hs h Hh))) as H1.
  destruct (9 <=? month)%Z.
  - destruct (fetch (currentYear + 1)%Z) as [hs'|]; [|discriminate].
    intros [= <-]. rewrite sync_fold. simpl.
    apply (sync_stores hs' country now _ (holiday_key h)). right. exact H1.
  - intros [= <-]. exact H1.
Qed.

(** X28.  A refresh of a stale cache that fetched at least one holiday leaves
    the cache fresh for the following 24 hours: no call in that time fetches
    again. *)
Theorem refresh_makes_fresh (fetch : Z -> option (list Festivals.Holiday))
  (currentYear month : Z) (country : string) (now : Z)
  (store store' : list Festivals.Festival) (hs : list Festivals.Holiday)
  (h : Festivals.Holiday) (later : Z) :
  Festivals.isCacheFresh country now store = false ->
  fetch currentYear = Some hs ->
  In h hs ->
  Festivals.refresh fetch currentYear month country now store = Some store' ->
  (later - now < Festivals.CACHE_MAX_AGE_MS)%Z ->
  Festivals.isCacheFresh country later store' = true.
Proof.
  intros Hstale Hfetch Hh Hrefresh Hlater.
  destruct (refresh_stores fetch currentYear month country now store store'
              hs h Hstale Hfetch Hh Hrefresh) as (f & Hf & Hr).
  apply lookup_key in Hf. destruct Hf as (Hin & _ & _).
  destruct Hr as (_ & _ & Hc & _ & _ & Hat).
  destruct (latestFetched_ge country store' f Hin Hc) as (t & Ht & Hle).
  unfold Festivals.isCacheFresh. rewrite Ht.
  apply Z.ltb_lt. lia.
Qed.

(** The stale cache holding [tuned_entry], refreshed one day after the epoch
    and asked again twelve hours later. *)
Lemma refresh_makes_fresh_witness :
  Festivals.isCacheFresh "US" (MS_PER_DAY + 43200000)
    (fst (Festivals.syncFestivalsToCache
            [{| Festivals.h_date := columbus_day;
                Festivals.h_name := "Columbus Day";
                Festivals.h_localName := "Columbus Day" |}]
            "US" MS_PER_DAY [tuned_entry]))
  = true.
Proof.
  refine (refresh_makes_fresh api_answer 2024 8 "US" MS_PER_DAY [tuned_entry]
            _ _ _ (MS_PER_DAY + 43200000)%Z _ eq_refl _ _ _).
  - reflexivity.
  - left. reflexivity.
  - reflexivity.
  - vm_compute. reflexivity.
Defined.

Lemma insert_soonest_perm (f : Festivals.Festival)
  (fs : list Festivals.Festival) :
  Permutation (Upcoming.insert_soonest f fs) (f :: fs).
Proof.
  induction fs as [|h rest IH]; simpl; [reflexivity|].
  destruct (Festivals.date f <? Festivals.date h)%Z; [reflexivity|].
  rewrite IH. apply perm_swap.
Qed.

Lemma sort_soonest_perm (fs : list Festivals.Festival) :
  Permutation (fold_right Upcoming.insert_soonest [] fs) fs.
Proof.
  induction fs as [|f fs IH]; simpl; [reflexivity|].
  rewrite insert_soonest_perm. constructor. exact IH.
Qed.

Lemma insert_soonest_sorted (f : Festivals.Festival)
  (fs : list Festivals.Festival) :
  StronglySorted (fun a b => (Festivals.date a <= Festivals.date b)%Z) fs ->
  StronglySorted (fun a b => (Festivals.date a <= Festivals.date b)%Z)
    (Upcoming.insert_soonest f fs).
Proof.
  induction fs as [|h rest IH]; intros Hs; simpl.
  - constructor; constructor.
  - inversion Hs as [|? ? Hrest Hall]; subst.
    destruct (Festivals.date f <? Festivals.date h)%Z eqn:E.
    + apply Z.ltb_lt in E. constructor; [exact Hs|].
      constructor; [lia|].
      eapply List.Forall_impl; [|exact Hall]. simpl. intros a Ha. lia.
    + apply Z.ltb_ge in E. constructor; [apply IH; exact Hrest|].
      apply List.Forall_forall. intros a Ha.
      apply (Permutation_in _ (insert_soonest_perm f rest)) in Ha.
      destruct Ha as [<- | Ha]; [exact E|].
      rewrite List.Forall_forall in Hall. apply Hall. exact Ha.
Qed.

Lemma sort_soonest_sorted (fs : list Festivals.Festival) :
  StronglySorted (fun a b => (Festivals.date a <= Festivals.date b)%Z)
    (fold_right Upcoming.insert_soonest [] fs).
Proof.
  induction fs as [|f fs IH]; simpl; [constructor|].
  apply insert_soonest_sorted. exact IH.
Qed.

(** [Math.ceil] of the whole days between two instants grows with the later
    one. *)
Lemma days_until_mono (today : Z) (f g : Festivals.Festival) :
  (Festivals.date f <= Festivals.date g)%Z ->
  (Upcoming.days_until (Upcoming.format today f)
   <= Upcoming.days_until (Upcoming.format today g))%Z.
Proof.
  intros Hle. unfold Upcoming.format, Upcoming.Math_ceil. simpl.
  apply Qceiling_resp_le.
  apply Qmult_le_compat_r; [|discriminate].
  rewrite <- Zle_Qle. lia.
Qed.

Lemma days_until_range (today futureDate days_ahead : Z)
  (f : Festivals.Festival) :
  (futureDate <= today + days_ahead * MS_PER_DAY)%Z ->
  (today <= Festivals.date f <= futureDate)%Z ->
  (0 <= Upcoming.days_until (Upcoming.format today f) <= days_ahead)%Z.
Proof.
  intros Hfuture [Hlo Hhi].
  unfold Upcoming.format, Upcoming.Math_ceil. simpl.
  change (1000 * 60 * 60 * 24)%Z with MS_PER_DAY.
  assert (0 < inject_Z MS_PER_DAY) as Hpos by reflexivity.
  split.
  - change 0%Z with (Qceiling 0). apply Qceiling_resp_le.
    apply Qle_shift_div_l; [exact Hpos|].
    rewrite Qmult_0_l. change 0 with (inject_Z 0). rewrite <- Zle_Qle. lia.
  - apply Z.le_trans with (Qceiling (inject_Z days_ahead));
      [|rewrite Qceiling_Z; lia].
    apply Qceiling_resp_le.
    apply Qle_shift_div_r; [exact Hpos|].
    rewrite <- inject_Z_mult, <- Zle_Qle. lia.
Qed.

Lemma upcoming_in (today futureDate : Z) (country : string)
  (store : list Festivals.Festival) (e : Upcoming.Entry) :
  In e (Upcoming.upcoming today futureDate country store) <->
  exists f, In f store
            /\ Upcoming.in_range country today futureDate f = true
            /\ e = Upcoming.format today f.
Proof.
  unfold Upcoming.upcoming. rewrite in_map_iff. split.
  - intros (f & <- & Hin).
    apply (Permutation_in _ (sort_soonest_perm _)) in Hin.
    apply List.filter_In in Hin. exists f. tauto.
  - intros (f & Hin & Hr & ->). exists f. split; [reflexivity|].
    apply (Permutation_in _ (Permutation_sym (sort_soonest_perm _))).
    apply List.filter_In. tauto.
Qed.

Lemma in_range_spec (country : string) (today futureDate : Z)
  (f : Festivals.Festival) :
  Upcoming.in_range country today futureDate f = true <->
  Festivals.countryCode f = country
  /\ (today <= Festivals.date f <= futureDate)%Z.
Proof.
  unfold Upcoming.in_range.
  rewrite !andb_true_iff, String.eqb_eq, !Z.leb_le. tauto.
Qed.

Lemma upcoming_sorted (today futureDate : Z) (country : string)
  (store : list Festivals.Festival) :
  StronglySorted
    (fun a b => (Upcoming.days_until a <= Upcoming.days_until b)%Z)
    (Upcoming.upcoming today futureDate country store).
Proof.
  unfold Upcoming.upcoming.
  pose proof (sort_soonest_sorted
                (List.filter (Upcoming.in_range country today futureDate)
                   store)) as Hs.
  induction Hs as [|f fs Hs IH Hall]; simpl; constructor.
  - exact IH.
  - apply List.Forall_forall. intros e He. apply in_map_iff in He.
    destruct He as (g & <- & Hg).
    rewrite List.Forall_forall in Hall.
    apply days_until_mono. apply Hall. exact Hg.
Qed.

(** X29.  The answer of [handleGetUpcomingFestivals] lists the festivals
    soonest first, each between 0 and [days_ahead] days away when the end of
    the window is at most [days_ahead] whole days after today's midnight;
    [next_festival] is the soonest of them and the high-impact count does not
    exceed the total. *)
Theorem upcoming_answer_ordered (fetch : Z -> option (list Festivals.Holiday))
  (currentYear month now today futureDate days_ahead : Z) (country : string)
  (store store' : list Festivals.Festival) (formatted : list Upcoming.Entry)
  (summary : Upcoming.Summary) :
  (futureDate <= today + days_ahead * MS_PER_DAY)%Z ->
  Upcoming.handleGetUpcomingFestivals fetch currentYear month now today
    futureDate days_ahead country store
  = Some (store', formatted, summary) ->
  Forall (fun e => (0 <= Upcoming.days_until e <= days_ahead)%Z) formatted
  /\ StronglySorted
       (fun a b => (Upcoming.days_until a <= Upcoming.days_until b)%Z)
       formatted
  /\ (forall first e, Upcoming.next_festival summary = Some first ->
        In e formatted ->
        (Upcoming.days_until first <= Upcoming.days_until e)%Z)
  /\ (Upcoming.next_festival summary = None <->
      Upcoming.total_upcoming summary = 0%nat)
  /\ (Upcoming.high_impact_count summary
      <= Upcoming.total_upcoming summary)%nat.
Proof.
  intros Hfuture. unfold Upcoming.handleGetUpcomingFestivals.
  destruct (Festivals.refresh fetch currentYear month country now store)
    as [st|]; [|discriminate].
  intros [= <- <- <-].
  pose proof (upcoming_sorted today futureDate country st) as Hs.
  split; [|split; [exact Hs|split; [|split]]].
  - apply List.Forall_forall. intros e He.
    apply upcoming_in in He. destruct He as (f & _ & Hr & ->).
    apply in_range_spec in Hr.
    apply (days_until_range today futureDate days_ahead f Hfuture).
    tauto.
  - unfold Upcoming.summarize. cbn [Upcoming.next_festival].
    intros first e Hfirst He.
    destruct (Upcoming.upcoming today futureDate country st) as [|e0 rest];
      [discriminate|].
    simpl in Hfirst. injection Hfirst as <-.
    inversion Hs as [|? ? _ Hall]; subst.
    destruct He as [<- | He]; [lia|].
    rewrite List.Forall_forall in Hall. apply Hall. exact He.
  - unfold Upcoming.summarize.
    cbn [Upcoming.next_festival Upcoming.total_upcoming].
    destruct (Upcoming.upcoming today futureDate country st); simpl;
      split; intros H; try reflexivity; discriminate.
  - unfold Upcoming.summarize.
    cbn [Upcoming.high_impact_count Upcoming.total_upcoming].
    apply List.filter_length_le.
Qed.


(** The theorem on the stale cache holding [tuned_entry]: the call is made
    ten days before Columbus Day and looks thirty days ahead. *)
Lemma upcoming_answer_ordered_witness :
  (20020 * MS_PER_DAY <= 19990 * MS_PER_DAY + 30 * MS_PER_DAY)%Z
  /\ exists store' formatted summary,
       Upcoming.handleGetUpcomingFestivals api_answer 2024 8 MS_PER_DAY
         (19990 * MS_PER_DAY) (20020 * MS_PER_DAY) 30 "US" [tuned_entry]
       = Some (store', formatted, summary)
       /\ Forall (fun e => (0 <= Upcoming.days_until e <= 30)%Z) formatted
       /\ (Upcoming.high_impact_count summary
           <= Upcoming.total_upcoming summary)%nat.
Proof.
  assert (20020 * MS_PER_DAY <= 19990 * MS_PER_DAY + 30 * MS_PER_DAY)%Z
    as H1 by (vm_compute; discriminate).
  split; [exact H1|].
  eexists. eexists. eexists. split; [reflexivity|].
  pose proof (upcoming_answer_ordered api_answer 2024 8 MS_PER_DAY
                (19990 * MS_PER_DAY) (20020 * MS_PER_DAY) 30 "US"
                [tuned_entry] _ _ _ H1 eq_refl) as H.
  split; [exact (proj1 H) | exact (proj2 (proj2 (proj2 (proj2 H))))].
Defined.

